(** * RPG server: battle sessions, stage generation and progression

    A shallow embedding of the server-authoritative core of the game
    backend:

    - [app/services/rewards.py]           (levelling),
    - [app/services/stage_generator.py]   (difficulty, monsters, rewards),
    - [app/services/battle_validator.py]  (plausibility checks),
    - [app/routers/progression.py]        (the [complete_stage] endpoint).

    Python [int] is [Z]; Python [float] is a binary64 value ([PrimFloat]),
    and the conversion of an [int] to a [float] rounds or raises as CPython
    does; the two tables of the database are [gmap]s by primary key; the
    class-level template dictionaries live in an explicit store of objects;
    exceptions are results of the [result] type. A commit writes what the
    unit of work of the ORM sends: the attributes whose value differs from
    the loaded one, a JSON column only when it was assigned another object
    than the loaded one, and nothing at all when a value does not fit the
    type of its column.

    The file has three parts: the code, the notions and sample data that
    the properties are stated with, and the properties. *)

From Stdlib Require Import ZArith QArith Lia Floats DecimalString.
From Stdlib Require DecimalPos DecimalZ.
From stdpp Require Import gmap strings list.
From Equations Require Import Equations.

Set Warnings "-inexact-float".
Local Open Scope Z_scope.

(** ** The Python runtime *)

(** The exceptions that the modelled code can raise. *)
Inductive exn :=
| OverflowError   (* int too large to convert to float; int(inf) *)
| ValueError      (* int(nan); str(n) beyond the digit limit *)
| KeyError (key : string)
| IndexError
| DBAPIError.     (* a parameter that the type of its column refuses *)

Inductive result (A : Type) :=
| Ok (a : A)
| Raise (e : exn).
Arguments Ok {A} a.
Arguments Raise {A} e.

#[global] Instance result_ret : MRet result := fun _ a => Ok a.
#[global] Instance result_bind : MBind result := fun _ _ f m =>
  match m with
  | Ok a => f a
  | Raise e => Raise e
  end.

(** The decimal digits of an [int], with its sign: what [str(n)] and
    [f"{n}"] return when they return. *)
Definition py_str (n : Z) : string := NilZero.string_of_int (Z.to_int n).

(** CPython refuses to convert an [int] of more than
    [sys.get_int_max_str_digits()] digits, 4300 unless it is configured
    otherwise, and raises [ValueError]. The chapters and stages that the
    routers format have passed a range check or come from an INTEGER
    column, so they are formatted with [py_str]; the validator formats
    numbers that the client sends and differences of them. *)
Definition int_max_str_digits : Z := 4300.

Definition py_format_int (n : Z) : result string :=
  if 10 ^ int_max_str_digits <=? Z.abs n then Raise ValueError
  else Ok (py_str n).

(** *** int -> float

    CPython converts an [int] to the nearest double, ties to even, and
    raises [OverflowError] when the rounded value would not be finite,
    that is from [2^1024 - 2^970] on. The converted value is again an
    integer, so [round_to_double] stays in [Z]. *)
Definition double_overflow_threshold : Z := 2 ^ 1024 - 2 ^ 970.

Definition round_to_double (z : Z) : Z :=
  let a := Z.abs z in
  if a <? 2 ^ 53 then z
  else
    let sh := Z.log2 a - 52 in          (* low bits beyond the 53-bit significand *)
    let q := a / 2 ^ sh in
    let r := a mod 2 ^ sh in
    let half := 2 ^ (sh - 1) in
    let q' := if (half <? r) || ((r =? half) && Z.odd q) then q + 1 else q in
    Z.sgn z * (q' * 2 ^ sh).

(** The exact value of [float(z)]. *)
Definition py_float_of_int_value (z : Z) : result Z :=
  if double_overflow_threshold <=? Z.abs z then Raise OverflowError
  else Ok (round_to_double z).

(** The double holding an integer that is representable. *)
Definition double_of_Z (z : Z) : float :=
  SF2Prim (binary_normalize prec emax z 0 false).

Definition py_float_of_int (z : Z) : result float :=
  v ← py_float_of_int_value z; Ok (double_of_Z v).

(** [n * f] and [n + f]-style mixed arithmetic converts the [int] first. *)
Definition py_int_mul_float (n : Z) (f : float) : result float :=
  x ← py_float_of_int n; Ok (x * f)%float.

(** The exact value of a finite double, as numerator and power of two. *)
Definition py_int_of_float (f : float) : result Z :=
  match Prim2SF f with
  | S754_zero _ => Ok 0
  | S754_finite s m e =>
      let v := if 0 <=? e then Z.pos m * 2 ^ e else Z.pos m / 2 ^ (- e) in
      Ok (if s then - v else v)
  | S754_infinity _ => Raise OverflowError
  | S754_nan => Raise ValueError
  end.

(** ** app/services/rewards.py: RewardsCalculator *)

Definition xp_for_level (level : Z) : Z := 100 * level * level.

(** The loop of [calculate_level_from_xp]:
    [while xp_for_level(level + 1) <= total_xp: level += 1]. *)
Equations? level_loop (total_xp level : Z) : Z
  by wf (Z.to_nat (total_xp - level)) lt :=
  level_loop total_xp level with Z_le_gt_dec (xp_for_level (level + 1)) total_xp => {
    | left _ := level_loop total_xp (level + 1);
    | right _ := level }.
Proof.
  unfold xp_for_level in *.
  clear level_loop.
  assert (level + 1 <= (level + 1) * (level + 1)) by nia.
  assert (0 <= (level + 1) * (level + 1)) by nia.
  lia.
Qed.

Definition calculate_level_from_xp (total_xp : Z) : Z := level_loop total_xp 1.

Definition apply_xp (current_xp current_level xp_gained : Z) : Z * Z * bool :=
  let new_xp := current_xp + xp_gained in
  let new_level := calculate_level_from_xp new_xp in
  let did_level_up := current_level <? new_level in
  (new_xp, new_level, did_level_up).

(** ** app/schemas/progression.py *)

Record MobConfig := {
  mob_id : string;
  mob_name : string;
  mob_type : string;
  health : Z;
  damage : Z;
  defense : Z;
  magic_resistance : Z;
  speed : float;
  attack_speed : float;
  critical_chance : float;
  critical_multiplier : float;
  dodge_chance : float;
  attack_range : float;
  behavior_type : string;
  aggro_range : float;
  color : list float;
  size_scale : float;
  xp_reward : Z;
  gold_reward : Z;
  drop_chance : float;
  special_abilities : list string
}.

(** A reward item is a JSON object; only its identity matters here. *)
Record Item := {
  item_type : Z;
  item_id : string;
  item_name : string;
  rarity : Z;
  slot : Z;
  atk : Z;
  def : Z;
  upgrade_level : Z;
  refine_level : Z
}.

Record StageRewards := {
  gold : Z;
  gems : Z;
  xp : Z;
  items : list Item
}.

(** ** app/services/stage_generator.py: StageGenerator *)

(** One template dictionary ([MOB_TEMPLATES[...]], [BOSS_TEMPLATES[...]]),
    field per key. *)
Record Template := {
  t_mob_name : string;
  t_mob_type : string;
  t_base_health : Z;
  t_base_damage : Z;
  t_base_defense : Z;
  t_magic_resistance : Z;
  t_speed : float;
  t_attack_speed : float;
  t_critical_chance : float;
  t_critical_multiplier : float;
  t_dodge_chance : float;
  t_attack_range : float;
  t_behavior_type : string;
  t_aggro_range : float;
  t_color : list float;
  t_size_scale : float;
  t_special_abilities : list string
}.

(** The template dictionaries are mutable objects shared by every request:
    they live in a store, and the class attributes hold references. *)
Definition loc := nat.

Record world := {
  heap : gmap loc Template;
  random_draws : nat → nat;      (* the outcomes the generator will produce *)
  random_pos : nat
}.

(** Code that reads and writes the store, draws random numbers, and may
    raise. An exception keeps the store as it was when it was raised. *)
Definition M (A : Type) : Type := world → result A * world.

#[global] Instance M_ret : MRet M := fun _ a w => (Ok a, w).
#[global] Instance M_bind : MBind M := fun _ _ f m w =>
  match m w with
  | (Ok a, w') => f a w'
  | (Raise e, w') => (Raise e, w')
  end.

Definition lift {A} (r : result A) : M A := fun w => (r, w).

Definition set_heap (h : gmap loc Template) (w : world) : world :=
  {| heap := h; random_draws := random_draws w; random_pos := random_pos w |}.

(** [d[k]] on a template object. *)
Definition deref (l : loc) : M Template := fun w =>
  match heap w !! l with
  | Some t => (Ok t, w)
  | None => (Raise (KeyError "<dangling reference>"), w)
  end.

(** [d.copy()]: a new object with the same items. The copy is shallow:
    the two lists of a template are shared with the original, and no code
    path writes to them. *)
Definition dict_copy (l : loc) : M loc := fun w =>
  match heap w !! l with
  | Some t => let l' := fresh (dom (heap w)) in (Ok l', set_heap (<[l' := t]> (heap w)) w)
  | None => (Raise (KeyError "<dangling reference>"), w)
  end.

(** [d[key] = value], as an update [f] of the object behind [l]. *)
Definition dict_update (l : loc) (f : Template → Template) : M unit := fun w =>
  match heap w !! l with
  | Some t => (Ok tt, set_heap (<[l := f t]> (heap w)) w)
  | None => (Raise (KeyError "<dangling reference>"), w)
  end.

(** [random.choice(seq)] *)
Definition random_choice {A} (seq : list A) : M A := fun w =>
  match seq !! (random_draws w (random_pos w) mod length seq)%nat with
  | Some x =>
      (Ok x, {| heap := heap w; random_draws := random_draws w;
                random_pos := S (random_pos w) |})
  | None => (Raise IndexError, w)
  end.

(** A dictionary whose key order matters ([list(d.keys())]). *)
Fixpoint dict_get {V} (d : list (string * V)) (k : string) : result V :=
  match d with
  | [] => Raise (KeyError k)
  | (k', v) :: d' => if String.eqb k' k then Ok v else dict_get d' k
  end.

Definition dict_keys {V} (d : list (string * V)) : list string := d.*1.

Definition MOB_TEMPLATES : list (string * loc) :=
  [("orc_warrior", 0%nat); ("goblin_archer", 1%nat); ("dark_mage", 2%nat);
   ("skeleton", 3%nat); ("troll", 4%nat)].

Definition BOSS_TEMPLATES : list (string * loc) :=
  [("orc_warlord", 5%nat); ("lich_king", 6%nat); ("dragon", 7%nat)].

Definition orc_warrior : Template :=
  {| t_mob_name := "Orc Warrior"; t_mob_type := "melee";
     t_base_health := 100; t_base_damage := 15; t_base_defense := 8;
     t_magic_resistance := 3; t_speed := 90.0; t_attack_speed := 1.2;
     t_critical_chance := 0.08; t_critical_multiplier := 1.5;
     t_dodge_chance := 0.05; t_attack_range := 50.0;
     t_behavior_type := "aggressive"; t_aggro_range := 150.0;
     t_color := [0.4; 0.6; 0.3]%float; t_size_scale := 1.0;
     t_special_abilities := ["charge"] |}.

Definition goblin_archer : Template :=
  {| t_mob_name := "Goblin Archer"; t_mob_type := "ranged";
     t_base_health := 60; t_base_damage := 20; t_base_defense := 4;
     t_magic_resistance := 2; t_speed := 110.0; t_attack_speed := 1.0;
     t_critical_chance := 0.12; t_critical_multiplier := 1.8;
     t_dodge_chance := 0.10; t_attack_range := 200.0;
     t_behavior_type := "defensive"; t_aggro_range := 200.0;
     t_color := [0.3; 0.5; 0.2]%float; t_size_scale := 0.7;
     t_special_abilities := ["rapid_shot"] |}.

Definition dark_mage : Template :=
  {| t_mob_name := "Dark Mage"; t_mob_type := "magic";
     t_base_health := 50; t_base_damage := 30; t_base_defense := 3;
     t_magic_resistance := 15; t_speed := 70.0; t_attack_speed := 0.8;
     t_critical_chance := 0.10; t_critical_multiplier := 2.0;
     t_dodge_chance := 0.03; t_attack_range := 250.0;
     t_behavior_type := "defensive"; t_aggro_range := 180.0;
     t_color := [0.3; 0.1; 0.4]%float; t_size_scale := 0.9;
     t_special_abilities := ["fireball"; "teleport"] |}.

Definition skeleton : Template :=
  {| t_mob_name := "Skeleton"; t_mob_type := "melee";
     t_base_health := 70; t_base_damage := 12; t_base_defense := 6;
     t_magic_resistance := 10; t_speed := 85.0; t_attack_speed := 1.4;
     t_critical_chance := 0.05; t_critical_multiplier := 1.3;
     t_dodge_chance := 0.08; t_attack_range := 45.0;
     t_behavior_type := "patrol"; t_aggro_range := 120.0;
     t_color := [0.9; 0.9; 0.85]%float; t_size_scale := 0.95;
     t_special_abilities := [] |}.

Definition troll : Template :=
  {| t_mob_name := "Troll"; t_mob_type := "melee";
     t_base_health := 200; t_base_damage := 25; t_base_defense := 15;
     t_magic_resistance := 5; t_speed := 60.0; t_attack_speed := 0.7;
     t_critical_chance := 0.05; t_critical_multiplier := 1.4;
     t_dodge_chance := 0.02; t_attack_range := 60.0;
     t_behavior_type := "aggressive"; t_aggro_range := 100.0;
     t_color := [0.5; 0.7; 0.5]%float; t_size_scale := 1.5;
     t_special_abilities := ["regenerate"; "ground_slam"] |}.

Definition orc_warlord : Template :=
  {| t_mob_name := "Orc Warlord"; t_mob_type := "melee";
     t_base_health := 500; t_base_damage := 40; t_base_defense := 20;
     t_magic_resistance := 10; t_speed := 80.0; t_attack_speed := 1.0;
     t_critical_chance := 0.15; t_critical_multiplier := 2.0;
     t_dodge_chance := 0.08; t_attack_range := 70.0;
     t_behavior_type := "aggressive"; t_aggro_range := 200.0;
     t_color := [0.6; 0.2; 0.2]%float; t_size_scale := 1.8;
     t_special_abilities := ["war_cry"; "cleave"; "enrage"] |}.

Definition lich_king : Template :=
  {| t_mob_name := "Lich King"; t_mob_type := "magic";
     t_base_health := 400; t_base_damage := 60; t_base_defense := 12;
     t_magic_resistance := 30; t_speed := 50.0; t_attack_speed := 0.6;
     t_critical_chance := 0.20; t_critical_multiplier := 2.5;
     t_dodge_chance := 0.05; t_attack_range := 300.0;
     t_behavior_type := "defensive"; t_aggro_range := 250.0;
     t_color := [0.2; 0.1; 0.3]%float; t_size_scale := 1.6;
     t_special_abilities := ["death_bolt"; "summon_skeletons"; "soul_drain"] |}.

Definition dragon : Template :=
  {| t_mob_name := "Ancient Dragon"; t_mob_type := "magic";
     t_base_health := 1000; t_base_damage := 80; t_base_defense := 25;
     t_magic_resistance := 25; t_speed := 100.0; t_attack_speed := 0.5;
     t_critical_chance := 0.15; t_critical_multiplier := 2.0;
     t_dodge_chance := 0.10; t_attack_range := 350.0;
     t_behavior_type := "aggressive"; t_aggro_range := 300.0;
     t_color := [0.8; 0.3; 0.1]%float; t_size_scale := 3.0;
     t_special_abilities := ["fire_breath"; "tail_swipe"; "fly"] |}.

(** The store when the class body has been executed. *)
Definition class_heap : gmap loc Template :=
  list_to_map
    [(0%nat, orc_warrior); (1%nat, goblin_archer); (2%nat, dark_mage);
     (3%nat, skeleton); (4%nat, troll);
     (5%nat, orc_warlord); (6%nat, lich_king); (7%nat, dragon)].

Definition CHAPTER_THEMES : list (Z * list string) :=
  [(1, ["orc_warrior"; "goblin_archer"]);
   (2, ["orc_warrior"; "goblin_archer"; "skeleton"]);
   (3, ["skeleton"; "dark_mage"]);
   (4, ["skeleton"; "dark_mage"; "troll"]);
   (5, ["dark_mage"; "troll"])].

(** [CHAPTER_THEMES.get(chapter, list(MOB_TEMPLATES.keys()))] *)
Definition chapter_theme (chapter : Z) : list string :=
  match List.find (fun e => fst e =? chapter) CHAPTER_THEMES with
  | Some (_, theme) => theme
  | None => dict_keys MOB_TEMPLATES
  end.

Definition get_difficulty_multiplier (chapter stage : Z) : result float :=
  x ← py_int_mul_float (chapter - 1) 0.5;
  let base := (1.0 + x)%float in
  stage_bonus ← py_int_mul_float (stage - 1) 0.1;
  let stage_bonus :=
    if stage =? 10 then (stage_bonus + 0.5)%float
    else if stage =? 5 then (stage_bonus + 0.25)%float
    else stage_bonus in
  Ok (base + stage_bonus)%float.

Definition get_mob_count (chapter stage : Z) : Z :=
  let base_count := 3 + chapter / 2 in
  if stage =? 10 then 1
  else if stage =? 5 then 2
  else Z.min (base_count + stage / 3) 10.

(** [int(n * f)] *)
Definition scaled (n : Z) (f : float) : result Z :=
  x ← py_int_mul_float n f; py_int_of_float x.

(** The body of [generate_mob] once [template] has been looked up. *)
Definition mob_of_template (mob_id : string) (t : Template)
    (difficulty : float) (chapter : Z) : result MobConfig :=
  health ← scaled (t_base_health t) difficulty;
  damage ← scaled (t_base_damage t) difficulty;
  defense ← scaled (t_base_defense t) difficulty;
  magic_res ← scaled (t_magic_resistance t) difficulty;
  let base_xp := 10 + chapter * 5 in
  let base_gold := 5 + chapter * 3 in
  xp_reward ← scaled base_xp difficulty;
  gold_reward ← scaled base_gold difficulty;
  y ← py_int_mul_float chapter 0.01;
  Ok {| mob_id := mob_id;
        mob_name := t_mob_name t;
        mob_type := t_mob_type t;
        health := health;
        damage := damage;
        defense := defense;
        magic_resistance := magic_res;
        speed := t_speed t;
        attack_speed := t_attack_speed t;
        critical_chance := t_critical_chance t;
        critical_multiplier := t_critical_multiplier t;
        dodge_chance := t_dodge_chance t;
        attack_range := t_attack_range t;
        behavior_type := t_behavior_type t;
        aggro_range := t_aggro_range t;
        color := t_color t;
        size_scale := t_size_scale t;
        xp_reward := xp_reward;
        gold_reward := gold_reward;
        drop_chance := (0.05 + y)%float;
        special_abilities := t_special_abilities t |}.

Definition generate_mob (mob_id : string) (template : loc)
    (difficulty : float) (chapter : Z) : M MobConfig :=
  t ← deref template;
  lift (mob_of_template mob_id t difficulty chapter).

(** [boss_choices[(chapter - 1) % len(boss_choices)]] *)
Definition boss_for_chapter (chapter : Z) : result string :=
  let boss_choices := dict_keys BOSS_TEMPLATES in
  match boss_choices !! Z.to_nat ((chapter - 1) mod Z.of_nat (length boss_choices)) with
  | Some b => Ok b
  | None => Raise IndexError
  end.

Definition set_base_health (v : Z) (t : Template) : Template :=
  {| t_mob_name := t_mob_name t; t_mob_type := t_mob_type t;
     t_base_health := v; t_base_damage := t_base_damage t;
     t_base_defense := t_base_defense t;
     t_magic_resistance := t_magic_resistance t; t_speed := t_speed t;
     t_attack_speed := t_attack_speed t;
     t_critical_chance := t_critical_chance t;
     t_critical_multiplier := t_critical_multiplier t;
     t_dodge_chance := t_dodge_chance t; t_attack_range := t_attack_range t;
     t_behavior_type := t_behavior_type t; t_aggro_range := t_aggro_range t;
     t_color := t_color t; t_size_scale := t_size_scale t;
     t_special_abilities := t_special_abilities t |}.

Definition set_base_damage (v : Z) (t : Template) : Template :=
  {| t_mob_name := t_mob_name t; t_mob_type := t_mob_type t;
     t_base_health := t_base_health t; t_base_damage := v;
     t_base_defense := t_base_defense t;
     t_magic_resistance := t_magic_resistance t; t_speed := t_speed t;
     t_attack_speed := t_attack_speed t;
     t_critical_chance := t_critical_chance t;
     t_critical_multiplier := t_critical_multiplier t;
     t_dodge_chance := t_dodge_chance t; t_attack_range := t_attack_range t;
     t_behavior_type := t_behavior_type t; t_aggro_range := t_aggro_range t;
     t_color := t_color t; t_size_scale := t_size_scale t;
     t_special_abilities := t_special_abilities t |}.

(** The body of [for _ in range(mob_count)] on a regular stage. *)
Fixpoint regular_mobs (n : nat) (theme : list string) (difficulty : float)
    (chapter : Z) (mobs : list MobConfig) : M (list MobConfig) :=
  match n with
  | O => mret mobs
  | S n' =>
      mob_id ← random_choice theme;
      template ← lift (dict_get MOB_TEMPLATES mob_id);
      m ← generate_mob mob_id template difficulty chapter;
      regular_mobs n' theme difficulty chapter (mobs ++ [m])
  end.

Definition generate_stage_mobs (chapter stage : Z) : M (list MobConfig) :=
  difficulty ← lift (get_difficulty_multiplier chapter stage);
  let mob_count := get_mob_count chapter stage in
  let mobs := [] in
  if stage =? 10 then
    boss_id ← lift (boss_for_chapter chapter);
    boss_template ← lift (dict_get BOSS_TEMPLATES boss_id);
    m ← generate_mob boss_id boss_template difficulty chapter;
    mret (mobs ++ [m])
  else if stage =? 5 then
    boss_id ← lift (boss_for_chapter chapter);
    original ← lift (dict_get BOSS_TEMPLATES boss_id);
    boss_template ← dict_copy original;
    t ← deref boss_template;
    h ← lift (scaled (t_base_health t) 0.6);
    _ ← dict_update boss_template (set_base_health h);
    t ← deref boss_template;
    d ← lift (scaled (t_base_damage t) 0.6);
    _ ← dict_update boss_template (set_base_damage d);
    m ← generate_mob (boss_id +:+ "_mini") boss_template difficulty chapter;
    let mobs := mobs ++ [m] in
    let theme := chapter_theme chapter in
    mob_id ← random_choice theme;
    template ← lift (dict_get MOB_TEMPLATES mob_id);
    m ← generate_mob mob_id template difficulty chapter;
    mret (mobs ++ [m])
  else
    let theme := chapter_theme chapter in
    regular_mobs (Z.to_nat mob_count) theme difficulty chapter mobs.

Definition list_sum (l : list Z) : Z := foldr Z.add 0 l.

Definition generate_stage_rewards (chapter stage : Z) (mobs : list MobConfig)
    : result StageRewards :=
  difficulty ← get_difficulty_multiplier chapter stage;   (* never read *)
  let base_gold := 100 * chapter + 10 * stage in
  let base_gems := chapter + stage / 5 in
  let base_xp := 50 * chapter + 5 * stage in
  let mob_gold := list_sum (gold_reward <$> mobs) in
  let mob_xp := list_sum (xp_reward <$> mobs) in
  let multiplier :=
    if stage =? 10 then 3.0%float
    else if stage =? 5 then 2.0%float
    else 1.0%float in
  gold ← scaled (base_gold + mob_gold) multiplier;
  gems ← scaled base_gems multiplier;
  xp ← scaled (base_xp + mob_xp) multiplier;
  Ok {| gold := gold; gems := gems; xp := xp; items := [] |}.

Definition get_stage_name (chapter stage : Z) : string :=
  if stage =? 10 then "Chapter " +:+ py_str chapter +:+ " - Final Boss"
  else if stage =? 5 then
    "Chapter " +:+ py_str chapter +:+ "-" +:+ py_str stage +:+ " (Mini-Boss)"
  else "Chapter " +:+ py_str chapter +:+ "-" +:+ py_str stage.

Definition get_time_limit (chapter stage : Z) : Z :=
  let base_time := 180 in
  if stage =? 10 then base_time + 120
  else if stage =? 5 then base_time + 60
  else base_time + stage * 10.

(** ** app/schemas/items.py and the item drops of app/services/rewards.py *)

(** [ItemType.GEAR] and the values of [Rarity]. *)
Definition GEAR : Z := 0.
Definition COMMON : Z := 0.
Definition UNCOMMON : Z := 1.
Definition RARE : Z := 2.
Definition EPIC : Z := 3.
Definition LEGENDARY : Z := 4.
Definition MYTHIC : Z := 5.

(** An entry of [bonus_stats]: the value is an [int] or a rounded
    [float]. *)
Record BonusStat := {
  stat_type : string;
  stat_value : Z + float
}.

(** The dictionary that [roll_item_drop] returns: the keys of [Item] and
    [bonus_stats]. *)
Record GearDrop := {
  gear : Item;
  bonus_stats : list BonusStat
}.

(** [random.random()]: the double [k / 2^53] for a [k] below [2^53]. *)
Definition random_random : M float := fun w =>
  let k := Z.of_nat (random_draws w (random_pos w)) mod 2 ^ 53 in
  (Ok (SF2Prim (binary_normalize prec emax k (-53) false)),
   {| heap := heap w; random_draws := random_draws w;
      random_pos := S (random_pos w) |}).

(** [seq.index(x)] *)
Fixpoint list_index (seq : list string) (x : string) : result Z :=
  match seq with
  | [] => Raise ValueError
  | y :: seq' =>
      if String.eqb y x then Ok 0
      else i ← list_index seq' x; Ok (i + 1)
  end.

Definition slots : list string :=
  ["weapon"; "helmet"; "chest"; "legs"; "gloves"; "boots"; "ring"; "amulet"].

Definition prefixes : list (Z * list string) :=
  [(COMMON, ["Worn"; "Simple"; "Basic"]);
   (UNCOMMON, ["Sturdy"; "Refined"; "Quality"]);
   (RARE, ["Superior"; "Exceptional"; "Pristine"]);
   (EPIC, ["Heroic"; "Valiant"; "Glorious"]);
   (LEGENDARY, ["Legendary"; "Mythical"; "Divine"])].

Definition slot_names : list (string * string) :=
  [("weapon", "Sword"); ("helmet", "Helm"); ("chest", "Chestplate");
   ("legs", "Greaves"); ("gloves", "Gauntlets"); ("boots", "Boots");
   ("ring", "Ring"); ("amulet", "Amulet")].

(** [_generate_item_name] *)
Definition generate_item_name (slot : string) (rarity : Z) : M string :=
  let choices :=
    match List.find (fun e => fst e =? rarity) prefixes with
    | Some (_, l) => l
    | None => ["Unknown"]
    end in
  prefix ← random_choice choices;
  let base :=
    match dict_get slot_names slot with
    | Ok b => b
    | Raise _ => "Item"
    end in
  mret (prefix +:+ " " +:+ base).

(** A library call that draws from the generator and cannot raise. *)
Definition from_library {A} (f : world → A * world) : M A := fun w =>
  let '(a, w') := f w in (Ok a, w').

Section ItemDrops.

(** [str(uuid.uuid4())] *)
Variable uuid4 : world → string * world.

(** [_generate_bonus_stats]: a sample of the stat types with values drawn
    by [random.uniform] and [random.randint] and rounded by [round]; the
    library algorithms stay abstract. *)
Variable generate_bonus_stats : Z → world → list BonusStat * world.

Definition roll_item_drop (chapter stage : Z) (drop_chance : float)
    : M (option GearDrop) :=
  roll ← random_random;
  if (drop_chance <? roll)%float then mret None
  else
    rarity_roll ← random_random;
    x ← lift (py_int_mul_float chapter 0.02);
    let rare_threshold := (0.7 - x)%float in
    y ← lift (py_int_mul_float chapter 0.01);
    let epic_threshold := (0.9 - y)%float in
    z ← lift (py_int_mul_float chapter 0.005);
    let legendary_threshold := (0.98 - z)%float in
    let rarity :=
      if (legendary_threshold <? rarity_roll)%float then LEGENDARY
      else if (epic_threshold <? rarity_roll)%float then EPIC
      else if (rare_threshold <? rarity_roll)%float then RARE
      else if (0.4 <? rarity_roll)%float then UNCOMMON
      else COMMON in
    slot ← random_choice slots;
    let base_stat := 5 + chapter * 2 + rarity * 3 in
    id ← from_library uuid4;
    name ← generate_item_name slot rarity;
    index ← lift (list_index slots slot);
    let item :=
      {| item_type := GEAR;
         item_id := id;
         item_name := name;
         rarity := rarity;
         slot := index;
         atk := if bool_decide (slot ∈ ["weapon"; "ring"]) then base_stat
                else base_stat / 3;
         def := if bool_decide (slot ∈ ["helmet"; "chest"; "legs"; "gloves";
                                        "boots"])
                then base_stat / 2 else 0;
         upgrade_level := 0;
         refine_level := 0 |} in
    bonus ← (if RARE <=? rarity
             then from_library (generate_bonus_stats rarity)
             else mret []);
    mret (Some {| gear := item; bonus_stats := bonus |}).

(** The body of [for _ in range(num_mobs)]. *)
Fixpoint roll_for_mobs (n : nat) (chapter stage : Z) (base_drop_chance : float)
    (items : list GearDrop) : M (list GearDrop) :=
  match n with
  | O => mret items
  | S n' =>
      item ← roll_item_drop chapter stage base_drop_chance;
      roll_for_mobs n' chapter stage base_drop_chance
        (match item with
         | Some i => items ++ [i]
         | None => items
         end)
  end.

Definition generate_stage_item_drops (chapter stage num_mobs : Z)
    : M (list GearDrop) :=
  let items := [] in
  y ← lift (py_int_mul_float chapter 0.01);
  let base_drop_chance := (0.05 + y)%float in
  items ← (if stage =? 10 then
             item ← roll_item_drop chapter stage 1.0;
             mret (match item with
                   | Some i => items ++ [i]
                   | None => items
                   end)
           else mret items);
  roll_for_mobs (Z.to_nat num_mobs) chapter stage base_drop_chance items.

End ItemDrops.

(** ** app/services/battle_validator.py: BattleValidator *)

Record BattleStats := {
  total_damage_dealt : Z;
  total_damage_received : Z;
  mobs_killed : Z;
  skills_used : Z;
  potions_used : Z;
  duration_ms : Z
}.

Record MobKillLog := {
  kill_name : string;
  kill_level : Z;
  kill_max_health : Z;
  kill_timestamp : Z
}.

Record BattleLog := {
  version : Z;
  battle_start_time : Z;
  battle_end_time : Z;
  log_chapter : Z;
  log_stage : Z;
  player_level : Z;
  player_power : Z;
  player_class : Z;
  log_stats : BattleStats;
  mob_kills : list MobKillLog;
  checksum : option string
}.

Definition MIN_BATTLE_DURATION_MS : Z := 5000.
Definition MAX_BATTLE_DURATION_MS : Z := 600000.
Definition MAX_DAMAGE_PER_POWER : Z := 50.

(** [n * 0.5] for an [int] (also [n * MIN_DAMAGE_PER_POWER]): [n] is
    converted to a double, and halving a double of integral value is exact.
    The product is given by its exact value. *)
Definition py_int_mul_half (n : Z) : result Q :=
  v ← py_float_of_int_value n; Ok (Qmake v 2).

(** [a < x] for an [int] and a [float] compares the exact values. *)
Definition py_int_lt_float (a : Z) (x : Q) : bool :=
  negb (Qle_bool x (inject_Z a)).

(** A point in time ([datetime], UTC), in microseconds. *)
Definition datetime := Z.

Section Validator.

(** [int(d.timestamp() * 1000)]: the conversion of a [datetime] to
    milliseconds belongs to the standard library and stays abstract. *)
Variable timestamp_ms : datetime → Z.

Definition validate_battle_log (battle_log : BattleLog)
    (expected_chapter expected_stage : Z) (expected_mobs : list MobConfig)
    (session_created_at : datetime) : result (bool * option string) :=
  (* 1. chapter/stage match *)
  if negb (log_chapter battle_log =? expected_chapter)
     || negb (log_stage battle_log =? expected_stage)
  then Ok (false, Some "Chapter/stage mismatch")
  else
  (* 2. duration *)
  let duration := battle_end_time battle_log - battle_start_time battle_log in
  if duration <? MIN_BATTLE_DURATION_MS
  then d ← py_format_int duration;
       Ok (false, Some ("Battle too short (" +:+ d +:+ "ms)"))
  else if MAX_BATTLE_DURATION_MS <? duration
  then d ← py_format_int duration;
       Ok (false, Some ("Battle too long (" +:+ d +:+ "ms)"))
  else
  (* 3. started after the session was created *)
  let session_ts := timestamp_ms session_created_at in
  if battle_start_time battle_log <? session_ts - 5000
  then Ok (false, Some "Battle started before session was created")
  else
  (* 4. kill count *)
  let expected_mob_count := Z.of_nat (length expected_mobs) in
  let actual_kills := mobs_killed (log_stats battle_log) in
  if negb (actual_kills =? expected_mob_count)
  then (* [len] is at most [sys.maxsize], which has 19 digits *)
       got ← py_format_int actual_kills;
       Ok (false, Some ("Kill count mismatch: expected "
                        +:+ py_str expected_mob_count +:+ ", got " +:+ got))
  else
  (* 5. damage *)
  min_expected_damage ← py_int_mul_half (player_power battle_log);
  let max_expected_damage := player_power battle_log * MAX_DAMAGE_PER_POWER in
  let total_mob_health := list_sum (health <$> expected_mobs) in
  half_health ← py_int_mul_half total_mob_health;
  if py_int_lt_float (total_damage_dealt (log_stats battle_log)) half_health
  then Ok (false, Some "Damage dealt too low for mob health")
  else if max_expected_damage * 100 <? total_damage_dealt (log_stats battle_log)
  then Ok (false, Some "Damage dealt suspiciously high")
  else
  (* 6. reported duration *)
  let reported_duration := duration_ms (log_stats battle_log) in
  if 1000 <? Z.abs (reported_duration - duration)
  then Ok (false, Some "Duration mismatch in stats")
  else Ok (true, None).

End Validator.

(** ** app/models: Character and BattleSession *)

Record Inventory := {
  inv_items : list Item;
  max_slots : Z
}.

(** [progression["chapters"]]; the code reads every key with a default. *)
Record ChaptersProg := {
  highest_chapter : option Z;
  highest_stage : option Z;
  completed_stages : option (list string)
}.

Record Dungeons := {
  unlocked : list string;
  daily_attempts : list (string * Z)
}.

(** The [progression] column; a key that is absent is [None]. *)
Record ProgressionData := {
  chapters : option ChaptersProg;
  dungeons : option Dungeons
}.

(** The columns of [characters] that the progression router reads or
    writes ([equipped], [potions], [skills] and [shop] are not touched by
    it); the primary key [id] is the key of the table below. A JSON column
    that is null is [None]; [char_stats] keeps the integer-valued entries
    of the [stats] dictionary. *)
Record Character := {
  user_id : string;
  char_name : string;
  character_class : Z;
  level : Z;
  char_xp : Z;
  power : Z;
  char_gold : Z;
  char_gems : Z;
  free_stat_points : Z;
  char_stats : option (gmap string Z);
  inventory : option Inventory;
  progression : option ProgressionData
}.

(** [==] on the values of the two JSON columns. *)
#[global] Instance Item_eq_dec : EqDecision Item.
Proof. solve_decision. Defined.
#[global] Instance Inventory_eq_dec : EqDecision Inventory.
Proof. solve_decision. Defined.
#[global] Instance ChaptersProg_eq_dec : EqDecision ChaptersProg.
Proof. solve_decision. Defined.
#[global] Instance Dungeons_eq_dec : EqDecision Dungeons.
Proof. solve_decision. Defined.
#[global] Instance ProgressionData_eq_dec : EqDecision ProgressionData.
Proof. solve_decision. Defined.

(** A row of [battle_sessions]; the primary key [session_token] is the
    key of the table below. *)
Record BattleSession := {
  character_id : string;
  session_chapter : Z;
  session_stage : Z;
  mob_config : list MobConfig;
  session_rewards : StageRewards;
  created_at : datetime;
  expires_at : datetime;
  is_used : bool;
  used_at : option datetime
}.

(** [BattleSession.is_expired], with the clock reading as an argument. *)
Definition is_expired (now : datetime) (session : BattleSession) : bool :=
  expires_at session <? now.

(** [BattleSession.is_valid], with the clock reading as an argument. *)
Definition is_valid (now : datetime) (session : BattleSession) : bool :=
  negb (is_used session) && negb (is_expired now session).

(** The two tables, by primary key. *)
Record database := {
  characters : gmap string Character;
  battle_sessions : gmap string BattleSession
}.

(** ** app/routers/character.py: calculate_power *)

Definition calculate_power (character : Character) : Z :=
  let stats := default ∅ (char_stats character) in
  let get (k : string) := default 0 (stats !! k) in
  let power := level character * 10 in
  let power := power + get "strength" * 2 in
  let power := power + get "agility" * 2 in
  let power := power + get "intelligence" * 2 in
  let power := power + get "vitality" * 2 in
  let power := power + get "physical_damage" * 3 in
  let power := power + get "magic_damage" * 3 in
  let power := power + get "defense" * 2 in
  let power := power + get "magic_resistance" * 2 in
  Z.max 100 power.

(** ** app/routers/progression.py *)

Definition TOTAL_CHAPTERS : Z := 20.
Definition STAGES_PER_CHAPTER : Z := 10.

Record StageCompleteRequest := {
  req_session_token : string;
  req_chapter : Z;
  req_stage : Z;
  battle_log : BattleLog
}.

Record ProgressionUpdate := {
  pu_highest_chapter : Z;
  pu_highest_stage : Z;
  pu_completed_stages : list string
}.

Record RewardsResponse := {
  rr_gold : Z;
  rr_gems : Z;
  rr_xp : Z;
  rr_items : list Item
}.

Record StageCompleteResponse := {
  success : bool;
  already_completed : bool;
  error : option string;
  rewards : option RewardsResponse;
  resp_progression : option ProgressionUpdate;
  level_up : bool;
  new_level : option Z
}.

(** What a request handler produces: a response body, an [HTTPException],
    or an exception that nothing catches (a 500). *)
Inductive outcome :=
| Response (r : StageCompleteResponse)
| HTTPException (status_code : Z) (detail : string)
| Unhandled (e : exn).

(** [StageCompleteResponse(success=False, ...)] with the defaults. *)
Definition failure (already : bool) (msg : string) : StageCompleteResponse :=
  {| success := false; already_completed := already; error := Some msg;
     rewards := None; resp_progression := None; level_up := false;
     new_level := None |}.

(** [get_character_for_user]: [None] stands for the 404. *)
Definition get_character_for_user (db : database) (cid uid : string)
    : option Character :=
  match characters db !! cid with
  | Some c => if String.eqb (user_id c) uid then Some c else None
  | None => None
  end.

(** [x or default] on a JSON object: null and the empty object are falsy. *)
Definition progression_or_default (p : option ProgressionData) : ProgressionData :=
  let dflt := {| chapters := Some {| highest_chapter := None; highest_stage := None;
                                     completed_stages := Some [] |};
                 dungeons := None |} in
  match p with
  | None => dflt
  | Some {| chapters := None; dungeons := None |} => dflt
  | Some pr => pr
  end.

Definition get_completed_stages (character : Character) : list string :=
  match progression character with
  | Some {| chapters := Some cp |} => default [] (completed_stages cp)
  | _ => []
  end.

Definition stage_key (chapter stage : Z) : string :=
  py_str chapter +:+ "-" +:+ py_str stage.

Definition is_stage_unlocked (character : Character) (chapter stage : Z) : bool :=
  if (chapter =? 1) && (stage =? 1) then true
  else
    let completed := get_completed_stages character in
    if 1 <? stage then bool_decide (stage_key chapter (stage - 1) ∈ completed)
    else bool_decide (stage_key (chapter - 1) STAGES_PER_CHAPTER ∈ completed).

(** Step 8, the inventory loop:
    [if len(inventory["items"]) < inventory["max_slots"]: append]. *)
Definition add_item (inv : Inventory) (item : Item) : Inventory :=
  if Z.of_nat (length (inv_items inv)) <? max_slots inv
  then {| inv_items := inv_items inv ++ [item]; max_slots := max_slots inv |}
  else inv.

Definition add_items (inv : option Inventory) (new_items : list Item) : Inventory :=
  let inventory :=
    match inv with
    | Some i => i
    | None => {| inv_items := []; max_slots := 50 |}
    end in
  fold_left add_item new_items inventory.

(** Step 9 on [chapters_prog]. *)
Definition record_completed (cp : ChaptersProg) (key : string) : ChaptersProg :=
  if bool_decide (key ∈ default [] (completed_stages cp)) then cp
  else {| highest_chapter := highest_chapter cp;
          highest_stage := highest_stage cp;
          completed_stages := Some (default [] (completed_stages cp) ++ [key]) |}.

Definition set_highest (hc hs : option Z) (cp : ChaptersProg) : ChaptersProg :=
  {| highest_chapter := hc; highest_stage := hs;
     completed_stages := completed_stages cp |}.

Definition advance_highest (cp : ChaptersProg) (chapter stage : Z) : ChaptersProg :=
  if default 1 (highest_chapter cp) <? chapter then
    set_highest (Some chapter) (Some stage) cp
  else if chapter =? default 1 (highest_chapter cp) then
    if default 1 (highest_stage cp) <=? stage then
      let cp := set_highest (highest_chapter cp) (Some stage) cp in
      if stage =? STAGES_PER_CHAPTER then
        set_highest (Some (chapter + 1)) (Some 1) cp
      else cp
    else cp
  else cp.

Definition update_chapters (p : option ProgressionData) (chapter stage : Z)
    : ChaptersProg :=
  let progression := progression_or_default p in
  let chapters_prog :=
    default {| highest_chapter := None; highest_stage := None;
               completed_stages := Some [] |} (chapters progression) in
  advance_highest (record_completed chapters_prog (stage_key chapter stage))
                  chapter stage.

Definition update_progression (p : option ProgressionData) (chapter stage : Z)
    : ProgressionData :=
  {| chapters := Some (update_chapters p chapter stage);
     dungeons := dungeons (progression_or_default p) |}.

(** Step 7 on the session, and steps 8 and 9 on the attributes of the
    loaded [Character] object. *)
Definition consume (used_now : datetime) (session : BattleSession) : BattleSession :=
  {| character_id := character_id session;
     session_chapter := session_chapter session;
     session_stage := session_stage session;
     mob_config := mob_config session;
     session_rewards := session_rewards session;
     created_at := created_at session;
     expires_at := expires_at session;
     is_used := true;
     used_at := Some used_now |}.

Definition apply_rewards (character : Character) (session : BattleSession)
    : Character :=
  let rewards_data := session_rewards session in
  let '(new_xp, new_level, did_level_up) :=
    apply_xp (char_xp character) (level character) (xp rewards_data) in
  let leveled :=
    {| user_id := user_id character;
       char_name := char_name character;
       character_class := character_class character;
       level := if did_level_up then new_level else level character;
       char_xp := new_xp;
       power := power character;
       char_gold := char_gold character + gold rewards_data;
       char_gems := char_gems character + gems rewards_data;
       free_stat_points :=
         if did_level_up then free_stat_points character + 5
         else free_stat_points character;
       char_stats := char_stats character;
       inventory := Some (add_items (inventory character) (items rewards_data));
       progression :=
         Some (update_progression (progression character)
                 (session_chapter session) (session_stage session)) |} in
  {| user_id := user_id leveled;
     char_name := char_name leveled;
     character_class := character_class leveled;
     level := level leveled;
     char_xp := char_xp leveled;
     power := calculate_power leveled;
     char_gold := char_gold leveled;
     char_gems := char_gems leveled;
     free_stat_points := free_stat_points leveled;
     char_stats := char_stats leveled;
     inventory := inventory leveled;
     progression := progression leveled |}.

(** *** The unit of work

    [db.commit()] flushes the two loaded objects. For an attribute that
    was assigned, the session keeps the value the attribute held before,
    and the UPDATE carries the column when the value now is not equal to
    the value kept. The value kept is a reference: a dictionary that the
    handler took from the attribute, changed in place and assigned back is
    the very object that was kept, so the comparison finds no change and
    the column is not written. *)
Inductive assigned (A : Type) :=
| same_object (value : A)
| other_object (previous value : A).
Arguments same_object {A} value.
Arguments other_object {A} previous value.

(** The value that the UPDATE carries for the column, if it carries one. *)
Definition written {A} `{EqDecision A} (a : assigned A) : option A :=
  match a with
  | same_object _ => None
  | other_object previous value =>
      if decide (value = previous) then None else Some value
  end.

(** [character.inventory or {...}] is the loaded dictionary itself unless
    the column is null or empty; the loop appends to it in place. *)
Definition assigned_inventory (character : Character) (session : BattleSession)
    : assigned (option Inventory) :=
  let value := inventory (apply_rewards character session) in
  match inventory character with
  | Some _ => same_object value
  | None => other_object None value
  end.

(** Truth value of the [progression] column: null and the empty object
    are falsy. *)
Definition progression_is_truthy (p : option ProgressionData) : bool :=
  match p with
  | None => false
  | Some {| chapters := None; dungeons := None |} => false
  | Some _ => true
  end.

(** [character.progression or {...}], likewise; [chapters_prog] is
    changed and put back in place. *)
Definition assigned_progression (character : Character) (session : BattleSession)
    : assigned (option ProgressionData) :=
  let value := progression (apply_rewards character session) in
  if progression_is_truthy (progression character) then same_object value
  else other_object (progression character) value.

(** The SET clause of the UPDATE of the character: a column that it does
    not carry is [None]. *)
Record CharacterUpdate := {
  set_level : option Z;
  set_xp : option Z;
  set_power : option Z;
  set_gold : option Z;
  set_gems : option Z;
  set_free_stat_points : option Z;
  set_inventory : option (option Inventory);
  set_progression : option (option ProgressionData)
}.

Definition character_update (character : Character) (session : BattleSession)
    : CharacterUpdate :=
  let after := apply_rewards character session in
  {| set_level := written (other_object (level character) (level after));
     set_xp := written (other_object (char_xp character) (char_xp after));
     set_power := written (other_object (power character) (power after));
     set_gold := written (other_object (char_gold character) (char_gold after));
     set_gems := written (other_object (char_gems character) (char_gems after));
     set_free_stat_points :=
       written (other_object (free_stat_points character)
                  (free_stat_points after));
     set_inventory := written (assigned_inventory character session);
     set_progression := written (assigned_progression character session) |}.

(** The row after the UPDATE. *)
Definition apply_update (u : CharacterUpdate) (row : Character) : Character :=
  {| user_id := user_id row;
     char_name := char_name row;
     character_class := character_class row;
     level := default (level row) (set_level u);
     char_xp := default (char_xp row) (set_xp u);
     power := default (power row) (set_power u);
     char_gold := default (char_gold row) (set_gold u);
     char_gems := default (char_gems row) (set_gems u);
     free_stat_points := default (free_stat_points row) (set_free_stat_points u);
     char_stats := char_stats row;
     inventory := default (inventory row) (set_inventory u);
     progression := default (progression row) (set_progression u) |}.

(** The ranges of the column types [Integer] and [BigInteger]
    (app/models/character.py): the driver refuses a parameter outside
    them, and the statement fails. *)
Definition fits_integer (v : option Z) : bool :=
  match v with
  | Some n => (- 2 ^ 31 <=? n) && (n <? 2 ^ 31)
  | None => true
  end.

Definition fits_biginteger (v : option Z) : bool :=
  match v with
  | Some n => (- 2 ^ 63 <=? n) && (n <? 2 ^ 63)
  | None => true
  end.

Definition update_fits (u : CharacterUpdate) : bool :=
  fits_integer (set_level u) && fits_biginteger (set_xp u)
  && fits_integer (set_power u) && fits_biginteger (set_gold u)
  && fits_integer (set_gems u) && fits_integer (set_free_stat_points u).

(** [db.commit()] after steps 7 to 9: the two UPDATEs, by primary key, in
    one transaction. When a parameter is refused nothing is written. *)
Definition commit (db : database) (cid : string) (u : CharacterUpdate)
    (token : string) (used_now : datetime) : result database :=
  if update_fits u then
    Ok {| characters := alter (apply_update u) cid (characters db);
          battle_sessions := alter (consume used_now) token (battle_sessions db) |}
  else Raise DBAPIError.

(** Step 11: [chapters_prog["highest_chapter"]] and the like raise
    [KeyError] on a key that was never written. *)
Definition build_response (session : BattleSession) (before : Character)
    : result StageCompleteResponse :=
  let rewards_data := session_rewards session in
  let '(_, new_level, did_level_up) :=
    apply_xp (char_xp before) (level before) (xp rewards_data) in
  let chapters_prog :=
    update_chapters (progression before)
      (session_chapter session) (session_stage session) in
  match highest_chapter chapters_prog with
  | None => Raise (KeyError "highest_chapter")
  | Some hc =>
    match highest_stage chapters_prog with
    | None => Raise (KeyError "highest_stage")
    | Some hs =>
      match completed_stages chapters_prog with
      | None => Raise (KeyError "completed_stages")
      | Some done =>
        Ok {| success := true;
              already_completed := false;
              error := None;
              rewards := Some {| rr_gold := gold rewards_data;
                                 rr_gems := gems rewards_data;
                                 rr_xp := xp rewards_data;
                                 rr_items := items rewards_data |};
              resp_progression :=
                Some {| pu_highest_chapter := hc; pu_highest_stage := hs;
                        pu_completed_stages := done |};
              level_up := did_level_up;
              new_level := if did_level_up then Some new_level else None |}
      end
    end
  end.

Section CompleteStage.

Variable timestamp_ms : datetime → Z.

(** [BattleValidator.calculate_suspicion_score]: a floating-point
    heuristic whose value is only printed; what matters to the handler is
    that it is evaluated on the rejection path and may raise. *)
Variable calculate_suspicion_score : BattleLog → list MobConfig → result float.

(** [complete_stage]. [now] is the clock reading of [is_expired],
    [used_now] the one stored in [used_at]; the result pairs what the
    client receives with the committed state of the tables. The response
    is built from the objects in memory: the session does not expire them
    on commit. *)
Definition complete_stage (db : database) (now used_now : datetime)
    (current_user cid : string) (request : StageCompleteRequest)
    : outcome * database :=
  match get_character_for_user db cid current_user with
  | None => (HTTPException 404 "Character not found", db)
  | Some character =>
    (* 1. fetch the session *)
    match battle_sessions db !! req_session_token request with
    | None => (HTTPException 400 "Invalid session token", db)
    | Some session =>
      if negb (String.eqb (character_id session) cid)
      then (HTTPException 400 "Invalid session token", db)
      (* 2. already used *)
      else if is_used session
      then (Response (failure true "Session already used"), db)
      (* 3. expiration *)
      else if is_expired now session
      then (Response (failure false "Session expired"), db)
      (* 4. chapter/stage match *)
      else if negb (session_chapter session =? req_chapter request)
              || negb (session_stage session =? req_stage request)
      then (Response (failure false "Chapter/stage mismatch"), db)
      else
        (* 5. expected mobs *)
        let expected_mobs := mob_config session in
        (* 6. validate the battle log *)
        match validate_battle_log timestamp_ms (battle_log request)
                (session_chapter session) (session_stage session)
                expected_mobs (created_at session) with
        | Raise e => (Unhandled e, db)
        | Ok (false, err) =>
            match calculate_suspicion_score (battle_log request) expected_mobs with
            | Raise e => (Unhandled e, db)
            | Ok _ =>
                (Response (failure false ("Battle validation failed: "
                                          +:+ default "None" err)), db)
            end
        | Ok (true, _) =>
            (* 7. to 10. *)
            match commit db cid (character_update character session)
                    (req_session_token request) used_now with
            | Raise e => (Unhandled e, db)
            | Ok db' =>
                (* 11. *)
                match build_response session character with
                | Ok r => (Response r, db')
                | Raise e => (Unhandled e, db')
                end
            end
        end
    end
  end.

End CompleteStage.

(** *** The two GET endpoints *)

(** What they produce: a response body, an [HTTPException], an exception
    that nothing catches, or the [IntegrityError] of a commit that inserts
    a primary key that is already there (the transaction is rolled
    back). *)
Inductive reply (A : Type) :=
| Body (a : A)
| Refused (status_code : Z) (detail : string)
| Failed (e : exn)
| IntegrityError.
Arguments Body {A} a.
Arguments Refused {A} status_code detail.
Arguments Failed {A} e.
Arguments IntegrityError {A}.

Record ChapterInfo := {
  ci_chapter : Z;
  ci_name : string;
  ci_is_unlocked : bool;
  ci_stages_completed : Z;
  ci_total_stages : Z
}.

Record ChapterProgressResponse := {
  cpr_highest_chapter : Z;
  cpr_highest_stage : Z;
  cpr_completed_stages : list string;
  cpr_chapters : list ChapterInfo
}.

(** The body of [for ch in range(1, TOTAL_CHAPTERS + 1)]. *)
Definition chapter_info (highest_chapter : Z) (completed_stages : list string)
    (ch : Z) : ChapterInfo :=
  let stages_completed :=
    Z.of_nat (length (filter (λ s, String.prefix (py_str ch +:+ "-") s = true)
                        completed_stages)) in
  let is_unlocked :=
    (ch <=? highest_chapter)
    || ((ch =? highest_chapter + 1)
        && bool_decide (stage_key (ch - 1) STAGES_PER_CHAPTER ∈ completed_stages)) in
  {| ci_chapter := ch;
     ci_name := "Chapter " +:+ py_str ch;
     ci_is_unlocked := is_unlocked;
     ci_stages_completed := stages_completed;
     ci_total_stages := STAGES_PER_CHAPTER |}.

Definition get_chapter_progress (db : database) (current_user cid : string)
    : reply ChapterProgressResponse :=
  match get_character_for_user db cid current_user with
  | None => Refused 404 "Character not found"
  | Some character =>
      let chapters_data :=
        match progression character with
        | Some {| chapters := Some cp |} => cp
        | _ => {| highest_chapter := None; highest_stage := None;
                  completed_stages := None |}
        end in
      let highest_chapter := default 1 (highest_chapter chapters_data) in
      let highest_stage := default 1 (highest_stage chapters_data) in
      let completed_stages := default [] (completed_stages chapters_data) in
      let chapters :=
        chapter_info highest_chapter completed_stages <$> seqZ 1 TOTAL_CHAPTERS in
      Body {| cpr_highest_chapter := highest_chapter;
              cpr_highest_stage := highest_stage;
              cpr_completed_stages := completed_stages;
              cpr_chapters := chapters |}
  end.

Record StageConfigResponse := {
  cfg_session_token : string;
  cfg_expires_at : Z;
  cfg_chapter : Z;
  cfg_stage : Z;
  cfg_stage_name : string;
  cfg_is_boss : bool;
  cfg_is_miniboss : bool;
  cfg_difficulty_multiplier : float;
  cfg_time_limit_seconds : Z;
  cfg_mobs : list MobConfig;
  cfg_rewards : StageRewards
}.

(** [settings.battle_session_expiry_seconds] *)
Definition battle_session_expiry_seconds : Z := 600.

(** [d + timedelta(seconds=n)] *)
Definition plus_seconds (d : datetime) (n : Z) : datetime := d + n * 1000000.

Section StageConfig.

(** [int(d.timestamp())] *)
Variable timestamp_s : datetime → Z.

(** [RewardsCalculator.generate_stage_item_drops]: the items it rolls
    depend on the state of the random generator, which it advances, and
    on fresh UUIDs. *)
Variable generate_stage_item_drops : Z → Z → Z → world → list Item * world.

(** [get_stage_config]. [session_token] is the UUID that is drawn, [now]
    the clock reading that [expires_at] is computed from, [created_now]
    the one that the column default of [created_at] takes when the row is
    inserted. The result is what the client receives, the committed state
    of the tables, and the state of the generator. *)
Definition get_stage_config (db : database) (w : world) (session_token : string)
    (now created_now : datetime) (current_user cid : string) (chapter stage : Z)
    : reply StageConfigResponse * database * world :=
  if (chapter <? 1) || (TOTAL_CHAPTERS <? chapter)
  then (Refused 400 ("Invalid chapter: " +:+ py_str chapter), db, w)
  else if (stage <? 1) || (STAGES_PER_CHAPTER <? stage)
  then (Refused 400 ("Invalid stage: " +:+ py_str stage), db, w)
  else
    match get_character_for_user db cid current_user with
    | None => (Refused 404 "Character not found", db, w)
    | Some character =>
      if negb (is_stage_unlocked character chapter stage)
      then (Refused 403 "Stage not unlocked", db, w)
      else
        match generate_stage_mobs chapter stage w with
        | (Raise e, w1) => (Failed e, db, w1)
        | (Ok mobs, w1) =>
          match generate_stage_rewards chapter stage mobs with
          | Raise e => (Failed e, db, w1)
          | Ok rewards =>
            let '(drops, w2) :=
              generate_stage_item_drops chapter stage (Z.of_nat (length mobs)) w1 in
            let rewards := {| gold := gold rewards; gems := gems rewards;
                              xp := xp rewards; items := drops |} in
            let expires_at := plus_seconds now battle_session_expiry_seconds in
            let battle_session :=
              {| character_id := cid;
                 session_chapter := chapter;
                 session_stage := stage;
                 mob_config := mobs;
                 session_rewards := rewards;
                 created_at := created_now;
                 expires_at := expires_at;
                 is_used := false;
                 used_at := None |} in
            match battle_sessions db !! session_token with
            | Some _ => (IntegrityError, db, w2)
            | None =>
              let db' :=
                {| characters := characters db;
                   battle_sessions :=
                     <[session_token := battle_session]> (battle_sessions db) |} in
              let is_boss := stage =? STAGES_PER_CHAPTER in
              let is_miniboss := stage =? 5 in
              match get_difficulty_multiplier chapter stage with
              | Raise e => (Failed e, db', w2)
              | Ok difficulty =>
                (Body {| cfg_session_token := session_token;
                         cfg_expires_at := timestamp_s expires_at;
                         cfg_chapter := chapter;
                         cfg_stage := stage;
                         cfg_stage_name := get_stage_name chapter stage;
                         cfg_is_boss := is_boss;
                         cfg_is_miniboss := is_miniboss;
                         cfg_difficulty_multiplier := difficulty;
                         cfg_time_limit_seconds := get_time_limit chapter stage;
                         cfg_mobs := mobs;
                         cfg_rewards := rewards |}, db', w2)
              end
            end
          end
        end
    end.

End StageConfig.

(** * Specification

    The notions that the properties below are stated with. *)

(** The exact value of a double, as a fraction. *)
Definition float_value (f : float) : option Q :=
  match Prim2SF f with
  | S754_zero _ => Some (inject_Z 0)
  | S754_finite s m e =>
      let n := if s then Z.neg m else Z.pos m in
      Some (if 0 <=? e then inject_Z (n * 2 ^ e)
            else Qmake n (Z.to_pos (2 ^ (- e))))
  | _ => None
  end.

Definition same_value (x y : option Q) : bool :=
  match x, y with
  | Some a, Some b => Qeq_bool a b
  | None, None => true
  | _, _ => false
  end.

(** The loop runs [n] more times and stops: the guard holds at
    [level], ..., [level + n - 1] and fails at [level + n]. *)
Definition loop_runs (total_xp level : Z) (n : nat) : Prop :=
  (∀ k : nat, (k < n)%nat → xp_for_level (level + Z.of_nat k + 1) <= total_xp)
  ∧ total_xp < xp_for_level (level + Z.of_nat n + 1).

(** [L] is the largest level, at least 1, whose threshold [total_xp] has
    reached; it is 1 when no level qualifies. *)
Definition largest_level (total_xp L : Z) : Prop :=
  1 <= L
  ∧ (∀ L', 1 <= L' → xp_for_level L' <= total_xp → L' <= L)
  ∧ (xp_for_level L <= total_xp
     ∨ (L = 1 ∧ ∀ L', 1 <= L' → total_xp < xp_for_level L')).

(** The difficulty as the specification words it: the chapter base plus
    the stage bonus [(stage - 1) * 0.1], the bonus being raised by 0.5 on
    stage 10 or else by 0.25 on stage 5. *)
Definition stage_extra (stage : Z) : option float :=
  if stage =? 10 then Some 0.5%float
  else if stage =? 5 then Some 0.25%float
  else None.


(** The same sum taken from left to right. *)
Definition difficulty_left_to_right (chapter stage : Z) : result float :=
  base ← (x ← py_int_mul_float (chapter - 1) 0.5; Ok (1.0 + x)%float);
  linear ← py_int_mul_float (stage - 1) 0.1;
  Ok match stage_extra stage with
     | Some extra => (base + linear + extra)%float
     | None => (base + linear)%float
     end.

(** Comparing doubles through their decomposition. *)
Definition float_repr (r : result float) : option spec_float :=
  match r with
  | Ok f => Some (Prim2SF f)
  | Raise _ => None
  end.





(** The boss difficulty as the specification's testable property has it,
    [1 + (chapter-1)*0.5 + 0.5], and with the stage bonus of stage 10,
    [1 + (chapter-1)*0.5 + (10-1)*0.1 + 0.5]. *)
Definition claimed_boss_difficulty (chapter : Z) : result float :=
  x ← py_int_mul_float (chapter - 1) 0.5; Ok (1.0 + x + 0.5)%float.

Definition boss_difficulty (chapter : Z) : result float :=
  x ← py_int_mul_float (chapter - 1) 0.5;
  y ← py_int_mul_float (10 - 1) 0.1;
  Ok (1.0 + x + y + 0.5)%float.

(** Every object of the store [w] is still in [w'], with the same items. *)
Definition unchanged_in (w w' : world) : Prop :=
  ∀ l t, heap w !! l = Some t → heap w' !! l = Some t.

(** The mini-boss keys of a boss template: 60% of its health and damage. *)
Definition miniboss_template (t : Template) : result Template :=
  h ← scaled (t_base_health t) 0.6;
  d ← scaled (t_base_damage t) 0.6;
  Ok (set_base_damage d (set_base_health h t)).

(** The mini-boss of a chapter, as a function of the store it is
    generated from. *)
Definition miniboss_of (chapter : Z) (h : gmap loc Template) : result MobConfig :=
  d ← get_difficulty_multiplier chapter 5;
  b ← boss_for_chapter chapter;
  l ← dict_get BOSS_TEMPLATES b;
  match h !! l with
  | None => Raise (KeyError "<dangling reference>")
  | Some t =>
      t' ← miniboss_template t;
      mob_of_template (b +:+ "_mini") t' d chapter
  end.

(** The six conditions of the specification on a battle log. The damage
    floor compares rationals, [0.5 * total health <= damage]. *)
Definition plausible (session_ts : Z) (log : BattleLog) (mobs : list MobConfig)
    : Prop :=
  let duration := battle_end_time log - battle_start_time log in
  5000 <= duration <= 600000
  ∧ battle_start_time log >= session_ts - 5000
  ∧ mobs_killed (log_stats log) = Z.of_nat (length mobs)
  ∧ (Qmake 1 2 * inject_Z (list_sum (health <$> mobs))
     <= inject_Z (total_damage_dealt (log_stats log)))%Q
  ∧ total_damage_dealt (log_stats log) <= 100 * (player_power log * 50)
  ∧ Z.abs (duration_ms (log_stats log) - duration) <= 1000.

(** The reasons of a domain failure that leaves the session unused. *)
Definition rejection_reason (msg : option string) : Prop :=
  msg = Some "Session expired"
  ∨ msg = Some "Chapter/stage mismatch"
  ∨ ∃ why, msg = Some ("Battle validation failed: " +:+ why).

(** A request that passes the five guards of [complete_stage]. *)
Record accepted (timestamp_ms : datetime → Z) (db : database)
    (now : datetime) (current_user cid : string)
    (request : StageCompleteRequest) (character : Character)
    (session : BattleSession) : Prop := {
  acc_character : characters db !! cid = Some character;
  acc_owner : user_id character = current_user;
  acc_session : battle_sessions db !! req_session_token request = Some session;
  acc_session_owner : character_id session = cid;
  acc_unused : is_used session = false;
  acc_alive : is_expired now session = false;
  acc_chapter : session_chapter session = req_chapter request;
  acc_stage : session_stage session = req_stage request;
  acc_valid : ∃ msg,
    validate_battle_log timestamp_ms (battle_log request)
      (session_chapter session) (session_stage session)
      (mob_config session) (created_at session) = Ok (true, msg)
}.

(** A row written by [create_character] has both [highest_chapter] and
    [highest_stage]. *)
Definition has_highest (character : Character) : Prop :=
  ∃ p cp hc hs,
    progression character = Some p ∧ chapters p = Some cp
    ∧ highest_chapter cp = Some hc ∧ highest_stage cp = Some hs.

(** [chapters_prog] as step 9 reads it from the row. *)
Definition chapters_before (character : Character) : ChaptersProg :=
  default {| highest_chapter := None; highest_stage := None;
             completed_stages := Some [] |}
          (chapters (progression_or_default (progression character))).

(** The pair that [.get("highest_chapter", 1)] and
    [.get("highest_stage", 1)] read. *)
Definition highest (cp : ChaptersProg) : Z * Z :=
  (default 1 (highest_chapter cp), default 1 (highest_stage cp)).

Definition completed (cp : ChaptersProg) : list string :=
  default [] (completed_stages cp).

(** [b] is [a] or further on, chapter first. *)
Definition not_behind (a b : Z * Z) : Prop :=
  a.1 < b.1 ∨ (a.1 = b.1 ∧ a.2 <= b.2).

(** One request to [complete_stage], with the two clock readings it is
    served at. *)
Record call := {
  call_now : datetime;
  call_used_now : datetime;
  call_user : string;
  call_character : string;
  call_request : StageCompleteRequest
}.

(** The second half of [complete_stage], from the commit on. The handler
    awaits the database for the two SELECTs and for the commit, and other
    requests can be served in between: [character] and [session] are the
    rows that the request has loaded and that passed the guards, [db] the
    tables as they are when its commit comes. *)
Definition finish_completion (db : database) (used_now : datetime)
    (cid : string) (request : StageCompleteRequest) (character : Character)
    (session : BattleSession) : outcome * database :=
  match commit db cid (character_update character session)
          (req_session_token request) used_now with
  | Raise e => (Unhandled e, db)
  | Ok db' =>
      match build_response session character with
      | Ok r => (Response r, db')
      | Raise e => (Unhandled e, db')
      end
  end.

(** What a session was issued with: everything but the two completion
    columns. *)
Definition same_contract (s s' : BattleSession) : Prop :=
  character_id s' = character_id s
  ∧ session_chapter s' = session_chapter s
  ∧ session_stage s' = session_stage s
  ∧ mob_config s' = mob_config s
  ∧ session_rewards s' = session_rewards s
  ∧ created_at s' = created_at s
  ∧ expires_at s' = expires_at s.

(** A stage of the game. *)
Definition in_game (chapter stage : Z) : Prop :=
  1 <= chapter <= TOTAL_CHAPTERS ∧ 1 <= stage <= STAGES_PER_CHAPTER.

(** The session that [get_stage_config] stores. *)
Definition issued_session (cid : string) (chapter stage : Z)
    (mobs : list MobConfig) (rewards : StageRewards)
    (now created_now : datetime) : BattleSession :=
  {| character_id := cid; session_chapter := chapter; session_stage := stage;
     mob_config := mobs; session_rewards := rewards;
     created_at := created_now;
     expires_at := plus_seconds now battle_session_expiry_seconds;
     is_used := false; used_at := None |}.

Definition store_session (db : database) (token : string)
    (session : BattleSession) : database :=
  {| characters := characters db;
     battle_sessions := <[token := session]> (battle_sessions db) |}.

(** A request to one of the two endpoints that write, with what it is
    served with: the clock readings, and for [get_stage_config] the UUID
    that is drawn and the state of the generator. *)
Inductive api_call :=
| ConfigCall (w : world) (session_token : string) (now created_now : datetime)
    (current_user cid : string) (chapter stage : Z)
| CompleteCall (c : call).

Section Play.

Variable timestamp_ms : datetime → Z.
Variable calculate_suspicion_score : BattleLog → list MobConfig → result float.
Variable timestamp_s : datetime → Z.
Variable generate_stage_item_drops : Z → Z → Z → world → list Item * world.

(** The tables after one request, and after a sequence of requests that
    are served one after another, each from its first SELECT to its
    commit before the next begins. Requests that overlap are not runs of
    [play]: what a commit does to tables that have changed since the rows
    were loaded is [finish_completion]. *)
Definition play_one (db : database) (c : api_call) : database :=
  match c with
  | ConfigCall w session_token now created_now current_user cid chapter stage =>
      (get_stage_config timestamp_s generate_stage_item_drops db w session_token
         now created_now current_user cid chapter stage).1.2
  | CompleteCall c =>
      (complete_stage timestamp_ms calculate_suspicion_score db (call_now c)
         (call_used_now c) (call_user c) (call_character c) (call_request c)).2
  end.

Definition play (db : database) (calls : list api_call) : database :=
  fold_left play_one calls db.

End Play.

(** A monster of a regular stage: a template of the theme, scaled. *)
Definition drawn_from (theme : list string) (h : gmap loc Template)
    (d : float) (chapter : Z) (m : MobConfig) : Prop :=
  mob_id m ∈ theme
  ∧ ∃ l t, dict_get MOB_TEMPLATES (mob_id m) = Ok l
           ∧ h !! l = Some t
           ∧ mob_of_template (mob_id m) t d chapter = Ok m.

(** The boss of a chapter, and the monster that the template [id] gives
    on a stage, both generated from the templates as the class defines
    them. *)
Definition boss_of (chapter : Z) : result MobConfig :=
  d ← get_difficulty_multiplier chapter 10;
  b ← boss_for_chapter chapter;
  l ← dict_get BOSS_TEMPLATES b;
  match class_heap !! l with
  | None => Raise (KeyError "<dangling reference>")
  | Some t => mob_of_template b t d chapter
  end.

Definition regular_mob_of (chapter stage : Z) (id : string) : result MobConfig :=
  d ← get_difficulty_multiplier chapter stage;
  l ← dict_get MOB_TEMPLATES id;
  match class_heap !! l with
  | None => Raise (KeyError "<dangling reference>")
  | Some t => mob_of_template id t d chapter
  end.

(** The scaled numbers that a battle and its rewards depend on: health
    and damage are positive, the experience and the gold of a monster are
    positive and below 1400. *)
Definition stats_in_range (m : MobConfig) : bool :=
  (0 <? health m) && (0 <? damage m)
  && (0 <? xp_reward m) && (xp_reward m <? 1400)
  && (0 <? gold_reward m) && (gold_reward m <? 1400).

Definition generated_in_range (r : result MobConfig) : bool :=
  match r with
  | Ok m => stats_in_range m
  | Raise _ => false
  end.

(** The chapters and stages of the game. *)
Definition game_chapters : list Z := seqZ 1 TOTAL_CHAPTERS.
Definition game_stages : list Z := seqZ 1 STAGES_PER_CHAPTER.

(** The integer that the reward multiplier of a stage stands for. *)
Definition reward_factor (stage : Z) : Z :=
  if stage =? 10 then 3 else if stage =? 5 then 2 else 1.

(** [a < b] on two difficulty multipliers that are both defined. *)
Definition difficulty_lt (a b : result float) : bool :=
  match a, b with
  | Ok x, Ok y => (x <? y)%float
  | _, _ => false
  end.

Definition difficulty_le (a b : result float) : bool :=
  match a, b with
  | Ok x, Ok y => (x <=? y)%float
  | _, _ => false
  end.

(** The boss roster, by the residue of [chapter - 1] modulo 3. *)
Definition boss_roster (chapter : Z) : string :=
  match (chapter - 1) mod 3 with
  | 0 => "orc_warlord"
  | 1 => "lich_king"
  | _ => "dragon"
  end.

(** The characters ['0'] to ['9'], and the strings made of them. *)
Definition is_digit (a : Ascii.ascii) : bool :=
  (48 <=? Ascii.nat_of_ascii a)%nat && (Ascii.nat_of_ascii a <=? 57)%nat.

Fixpoint all_digits (s : string) : bool :=
  match s with
  | EmptyString => true
  | String a s' => is_digit a && all_digits s'
  end.

(** What every dropped item satisfies: it is gear of a rarity from common
    to legendary, for one of the eight slots, not upgraded; its attack is
    the base stat [5 + 2 * chapter + 3 * rarity] for a weapon or a ring
    (slots 0 and 6) and a third of it otherwise; its defence is half the
    base stat for the armour slots 1 to 5 and 0 otherwise; below rare it
    has no bonus stats. *)
Definition well_formed_drop (chapter : Z) (d : GearDrop) : Prop :=
  let i := gear d in
  let base_stat := 5 + chapter * 2 + rarity i * 3 in
  item_type i = GEAR
  ∧ COMMON <= rarity i <= LEGENDARY
  ∧ 0 <= slot i <= 7
  ∧ atk i = (if bool_decide (slot i = 0 ∨ slot i = 6) then base_stat
             else base_stat / 3)
  ∧ def i = (if bool_decide (1 <= slot i <= 5) then base_stat / 2 else 0)
  ∧ upgrade_level i = 0 ∧ refine_level i = 0
  ∧ (rarity i < RARE → bonus_stats d = []).

(** The rarity that [roll_item_drop] derives from the second random
    number. *)
Definition rarity_of (chapter : Z) (rarity_roll : float) : result Z :=
  x ← py_int_mul_float chapter 0.02;
  y ← py_int_mul_float chapter 0.01;
  z ← py_int_mul_float chapter 0.005;
  Ok (if (0.98 - z <? rarity_roll)%float then LEGENDARY
      else if (0.9 - y <? rarity_roll)%float then EPIC
      else if (0.7 - x <? rarity_roll)%float then RARE
      else if (0.4 <? rarity_roll)%float then UNCOMMON
      else COMMON).

(** [a <= b] on two positive finite doubles, by exponent and
    significand. *)
Definition sf_le (a b : spec_float) : bool :=
  match a, b with
  | S754_finite false ma ea, S754_finite false mb eb =>
      (ea <? eb) || ((ea =? eb) && (Pos.leb ma mb))
  | _, _ => false
  end.

(** An item as one roll makes it: well formed, with the rarity that some
    second random number gives. *)
Definition rolled (chapter : Z) (d : GearDrop) : Prop :=
  well_formed_drop chapter d
  ∧ ∃ rarity_roll, rarity_of chapter rarity_roll = Ok (rarity (gear d)).

(** * Sample data

    A character, a session and requests to run the code on. *)

(** Integers around the places where the conversion to a double rounds:
    the first odd integers beyond [2^53], ties, a carry into the next
    power of two, and the largest integer that converts. *)
Definition conversion_samples : list Z :=
  [0; 1; -1; 300; 2 ^ 53 - 1; 2 ^ 53; 2 ^ 53 + 1; 2 ^ 53 + 2; 2 ^ 53 + 3;
   - (2 ^ 53 + 1); - (2 ^ 53 + 3); 2 ^ 54 + 2; 2 ^ 54 + 6; 2 ^ 54 - 1;
   2 ^ 100 + 2 ^ 47; 2 ^ 100 + 2 ^ 47 + 1; 2 ^ 100 + 3 * 2 ^ 47;
   10 ^ 30; - 10 ^ 30; 3 ^ 400; 2 ^ 1024 - 2 ^ 970 - 1; - (2 ^ 1024 - 2 ^ 970 - 1)].

Definition sample_mob (g x : Z) : MobConfig :=
  {| mob_id := "orc_warrior"; mob_name := "Orc Warrior"; mob_type := "melee";
     health := 100; damage := 15; defense := 8; magic_resistance := 3;
     speed := 90.0; attack_speed := 1.2; critical_chance := 0.08;
     critical_multiplier := 1.5; dodge_chance := 0.05; attack_range := 50.0;
     behavior_type := "aggressive"; aggro_range := 150.0;
     color := [0.4; 0.6; 0.3]%float; size_scale := 1.0;
     xp_reward := x; gold_reward := g; drop_chance := 0.06;
     special_abilities := ["charge"] |}.

Definition mob_with_health (h : Z) : MobConfig :=
  {| mob_id := "orc_warrior"; mob_name := "Orc Warrior"; mob_type := "melee";
     health := h; damage := 15; defense := 8; magic_resistance := 3;
     speed := 90.0; attack_speed := 1.2; critical_chance := 0.08;
     critical_multiplier := 1.5; dodge_chance := 0.05; attack_range := 50.0;
     behavior_type := "aggressive"; aggro_range := 150.0;
     color := [0.4; 0.6; 0.3]%float; size_scale := 1.0;
     xp_reward := 15; gold_reward := 8; drop_chance := 0.06;
     special_abilities := ["charge"] |}.

(** A ten-second battle of chapter 1 against one monster, started ten
    seconds after the epoch. *)
Definition sample_log_at (stage power dealt : Z) : BattleLog :=
  {| version := 1;
     battle_start_time := 10000;
     battle_end_time := 20000;
     log_chapter := 1;
     log_stage := stage;
     player_level := 1;
     player_power := power;
     player_class := 1;
     log_stats := {| total_damage_dealt := dealt; total_damage_received := 40;
                     mobs_killed := 1; skills_used := 2; potions_used := 0;
                     duration_ms := 10000 |};
     mob_kills := [{| kill_name := "Orc Warrior"; kill_level := 1;
                      kill_max_health := 100; kill_timestamp := 15000 |}];
     checksum := None |}.

Definition sample_log : Z → Z → BattleLog := sample_log_at 1.

(** Milliseconds of a time in microseconds. *)
Definition ms_of_us (d : datetime) : Z := d / 1000.

Definition sample_item : Item :=
  {| item_type := 0; item_id := "7d2c"; item_name := "Sturdy Helm"; rarity := 1;
     slot := 1; atk := 3; def := 5; upgrade_level := 0; refine_level := 0 |}.

Definition sample_character (hc hs : Z) (done : list string) : Character :=
  {| user_id := "u1"; char_name := "Aria"; character_class := 1; level := 1;
     char_xp := 0; power := 100; char_gold := 100; char_gems := 10;
     free_stat_points := 0;
     char_stats := Some (list_to_map [("strength", 10); ("agility", 10);
                                      ("intelligence", 10); ("vitality", 10);
                                      ("physical_damage", 10); ("magic_damage", 5);
                                      ("defense", 5); ("magic_resistance", 5)]);
     inventory := Some {| inv_items := []; max_slots := 50 |};
     progression :=
       Some {| chapters := Some {| highest_chapter := Some hc;
                                   highest_stage := Some hs;
                                   completed_stages := Some done |};
               dungeons := Some {| unlocked := []; daily_attempts := [] |} |} |}.

(** A session of chapter 1, created at the epoch, that expires after ten
    minutes. *)
Definition sample_session (stage : Z) : BattleSession :=
  {| character_id := "c1"; session_chapter := 1; session_stage := stage;
     mob_config := [mob_with_health 100];
     session_rewards := {| gold := 150; gems := 1; xp := 500; items := [sample_item] |};
     created_at := 0; expires_at := 600000000;
     is_used := false; used_at := None |}.

Definition sample_db (hc hs : Z) (done : list string) (stage : Z) : database :=
  {| characters := {[ "c1" := sample_character hc hs done ]};
     battle_sessions := {[ "tok-1" := sample_session stage ]} |}.

Definition sample_request (stage : Z) : StageCompleteRequest :=
  {| req_session_token := "tok-1"; req_chapter := 1; req_stage := stage;
     battle_log := sample_log_at stage 100 120 |}.

Definition quiet_score (_ : BattleLog) (_ : list MobConfig) : result float :=
  Ok 0%float.

Definition response_of (o : outcome) : option StageCompleteResponse :=
  match o with
  | Response r => Some r
  | _ => None
  end.

(** The first completion of stage 1-1 by a new character, 30 seconds after
    the session was created. *)
Definition first_run : outcome * database :=
  complete_stage ms_of_us quiet_score (sample_db 1 1 [] 1)
    30000000 30000001 "u1" "c1" (sample_request 1).

Definition first_response : StageCompleteResponse :=
  {| success := true; already_completed := false; error := None;
     rewards := Some {| rr_gold := 150; rr_gems := 1; rr_xp := 500;
                        rr_items := [sample_item] |};
     resp_progression := Some {| pu_highest_chapter := 1; pu_highest_stage := 1;
                                 pu_completed_stages := ["1-1"] |};
     level_up := true; new_level := Some 2 |}.

(** The same character with a null [inventory] column, and the same
    request on that row. *)
Definition without_inventory (c : Character) : Character :=
  {| user_id := user_id c; char_name := char_name c;
     character_class := character_class c; level := level c;
     char_xp := char_xp c; power := power c; char_gold := char_gold c;
     char_gems := char_gems c; free_stat_points := free_stat_points c;
     char_stats := char_stats c; inventory := None;
     progression := progression c |}.

Definition null_inventory_run : outcome * database :=
  complete_stage ms_of_us quiet_score
    {| characters := {[ "c1" := without_inventory (sample_character 1 1 []) ]};
       battle_sessions := {[ "tok-1" := sample_session 1 ]} |}
    30000000 30000001 "u1" "c1" (sample_request 1).

(** The same request after the session has expired. *)
Definition expired_run : outcome * database :=
  complete_stage ms_of_us quiet_score (sample_db 1 1 [] 1)
    700000000 700000001 "u1" "c1" (sample_request 1).

(** The stages of chapter [c] up to stage [s], as keys. *)
Definition keys_of_chapter (c s : Z) : list string :=
  (fun k => stage_key c k) <$> seqZ 1 s.

(** The first completion of the boss stage 1-10 by a character that has
    completed 1-1 to 1-9. *)
Definition boss_run : outcome * database :=
  complete_stage ms_of_us quiet_score (sample_db 1 9 (keys_of_chapter 1 9) 10)
    30000000 30000001 "u1" "c1" (sample_request 10).

Definition boss_response : StageCompleteResponse :=
  {| success := true; already_completed := false; error := None;
     rewards := Some {| rr_gold := 150; rr_gems := 1; rr_xp := 500;
                        rr_items := [sample_item] |};
     resp_progression := Some {| pu_highest_chapter := 2; pu_highest_stage := 1;
                                 pu_completed_stages := keys_of_chapter 1 10 |};
     level_up := true; new_level := Some 2 |}.

(** A character that has reached stage 3-4 plays the boss stage 1-10
    again. *)
Definition replay_done : list string :=
  keys_of_chapter 1 10 ++ keys_of_chapter 2 10 ++ keys_of_chapter 3 4.

Definition replay_run : outcome * database :=
  complete_stage ms_of_us quiet_score (sample_db 3 4 replay_done 10)
    30000000 30000001 "u1" "c1" (sample_request 10).



(** The generator with the templates as the class defines them and the
    draws 0, 1, 2, ... *)
Definition sample_world : world :=
  {| heap := class_heap; random_draws := λ n, n; random_pos := 0 |}.

(** An item roll that drops one item and leaves the generator alone. *)
Definition one_drop (_ _ _ : Z) (w : world) : list Item * world :=
  ([sample_item], w).

(** Seconds of a time in microseconds. *)
Definition s_of_us (d : datetime) : Z := d / 1000000.

(** A new character and no session. *)
Definition new_db : database :=
  {| characters := {[ "c1" := sample_character 1 1 [] ]};
     battle_sessions := ∅ |}.

(** The first request for stage 1-1, at the epoch. *)
Definition sample_config : reply StageConfigResponse * database * world :=
  get_stage_config s_of_us one_drop new_db sample_world "tok-2" 0 1000
    "u1" "c1" 1 1.


(** A ten-second battle of chapter 1 against three monsters. *)
Definition long_log (stage : Z) : BattleLog :=
  {| version := 1;
     battle_start_time := 10000;
     battle_end_time := 20000;
     log_chapter := 1;
     log_stage := stage;
     player_level := 1;
     player_power := 100;
     player_class := 1;
     log_stats := {| total_damage_dealt := 300; total_damage_received := 40;
                     mobs_killed := 3; skills_used := 2; potions_used := 0;
                     duration_ms := 10000 |};
     mob_kills := [];
     checksum := None |}.

Definition long_request (token : string) (stage : Z) : StageCompleteRequest :=
  {| req_session_token := token; req_chapter := 1; req_stage := stage;
     battle_log := long_log stage |}.

(** Stage 1-1 and then stage 1-2, each requested and completed. *)
Definition two_stages : list api_call :=
  [ConfigCall sample_world "tok-2" 0 1000 "u1" "c1" 1 1;
   CompleteCall {| call_now := 30000000; call_used_now := 30000001;
                   call_user := "u1"; call_character := "c1";
                   call_request := long_request "tok-2" 1 |};
   ConfigCall sample_world "tok-3" 40000000 40001000 "u1" "c1" 1 2;
   CompleteCall {| call_now := 70000000; call_used_now := 70000001;
                   call_user := "u1"; call_character := "c1";
                   call_request :=
                     {| req_session_token := "tok-3"; req_chapter := 1;
                        req_stage := 2;
                        battle_log :=
                          {| version := 1;
                             battle_start_time := 50000;
                             battle_end_time := 60000;
                             log_chapter := 1;
                             log_stage := 2;
                             player_level := 1;
                             player_power := 100;
                             player_class := 1;
                             log_stats :=
                               {| total_damage_dealt := 300;
                                  total_damage_received := 40;
                                  mobs_killed := 3; skills_used := 2;
                                  potions_used := 0; duration_ms := 10000 |};
                             mob_kills := [];
                             checksum := None |} |} |}].

(** An identifier as [uuid4] may return it; the generator is left alone. *)
Definition sample_uuid4 (w : world) : string * world :=
  ("9b2f6c1e-4d7a-4e0b-8f3a-5c1d2e7a9b40", w).

(** Bonus stats as [_generate_bonus_stats] may return them: the first
    [min (rarity - 1) 4] stat types, each with the smallest value
    [1 * rarity]. *)
Definition sample_bonus_stats (rarity : Z) (w : world)
    : list BonusStat * world :=
  ((λ s, {| stat_type := s; stat_value := inl (1 * rarity) |})
     <$> take (Z.to_nat (Z.min (rarity - 1) 4))
           ["strength"; "agility"; "intelligence"; "vitality"],
   w).

(** Draws that are 0 everywhere but at the second position. *)
Definition draws_with (second : nat) : nat → nat :=
  λ n, if Nat.eqb n 1 then second else 0%nat.

(** The generator whose second draw is [2^52]: the second call of
    [random.random()] returns 0.5. *)
Definition half_roll_world : world :=
  {| heap := class_heap;
     random_draws := draws_with (Z.to_nat (2 ^ 52));
     random_pos := 0 |}.

(** The item that a rarity roll of 0.5 gives in chapter 16. *)
Definition superior_sword : GearDrop :=
  {| gear :=
       {| item_type := GEAR;
          item_id := "9b2f6c1e-4d7a-4e0b-8f3a-5c1d2e7a9b40";
          item_name := "Superior Sword";
          rarity := RARE;
          slot := 0;
          atk := 43;
          def := 0;
          upgrade_level := 0;
          refine_level := 0 |};
     bonus_stats := [{| stat_type := "strength"; stat_value := inl 2 |}] |}.

(** * Properties *)

(** ** The conversion of integers to doubles *)

(** [round_to_double] is the rounding of IEEE 754 ([binary_normalize] of
    the standard library) on the samples, and the threshold of
    [OverflowError] is where that rounding stops being finite. *)
Example round_to_double_is_ieee :
  forallb (fun z =>
             same_value
               (float_value (SF2Prim (binary_normalize prec emax z 0 false)))
               (Some (inject_Z (round_to_double z))))
          conversion_samples = true
  ∧ binary_normalize prec emax double_overflow_threshold 0 false
    = S754_infinity false
  ∧ binary_normalize prec emax (- double_overflow_threshold) 0 false
    = S754_infinity true
  ∧ py_float_of_int double_overflow_threshold = Raise OverflowError
  ∧ py_float_of_int (double_overflow_threshold - 1)
    = Ok 0x1.fffffffffffffp+1023%float.
Proof. repeat split; vm_compute; reflexivity. Qed.

(** [py_int_mul_half] is the product by the double 0.5, on the samples. *)
Example py_int_mul_half_is_float_mul :
  forallb (fun z =>
             match py_int_mul_float z 0.5, py_int_mul_half z with
             | Ok x, Ok q => same_value (float_value x) (Some q)
             | Raise _, Raise _ => true
             | _, _ => false
             end)
          (double_overflow_threshold :: conversion_samples) = true.
Proof. vm_compute. reflexivity. Qed.

(** [int(x)] truncates toward zero. *)
Example py_int_of_float_truncates :
  py_int_of_float 2.7 = Ok 2 ∧ py_int_of_float (-2.7) = Ok (-2)
  ∧ py_int_of_float 0.999 = Ok 0 ∧ py_int_of_float 495.00000000000006 = Ok 495
  ∧ py_int_of_float infinity = Raise OverflowError
  ∧ py_int_of_float nan = Raise ValueError.
Proof. repeat split; vm_compute; reflexivity. Qed.

Lemma round_to_double_exact (z : Z) : Z.abs z <= 2 ^ 53 → round_to_double z = z.
Proof.
  intros Hz. unfold round_to_double.
  destruct (Z.ltb_spec (Z.abs z) (2 ^ 53)) as [| Hge]; [reflexivity |].
  assert (Habs : Z.abs z = 2 ^ 53) by lia.
  rewrite Habs.
  destruct (Z.abs_eq_or_opp z) as [Hp | Hn].
  - rewrite <- Hp, Habs. vm_compute. reflexivity.
  - assert (z = - 2 ^ 53) by lia. subst z. vm_compute. reflexivity.
Qed.

(** ** Levelling *)

Lemma level_loop_step total_xp level :
  level_loop total_xp level =
  if Z_le_gt_dec (xp_for_level (level + 1)) total_xp
  then level_loop total_xp (level + 1) else level.
Proof. rewrite level_loop_equation_1. destruct (Z_le_gt_dec _ _); reflexivity. Qed.

Lemma level_loop_runs total_xp level :
  ∃ n : nat, loop_runs total_xp level n
             ∧ level_loop total_xp level = level + Z.of_nat n.
Proof.
  remember (Z.to_nat (total_xp - level)) as m eqn:Hm.
  revert level Hm.
  induction m as [m IH] using lt_wf_ind. intros level Hm.
  rewrite level_loop_step.
  destruct (Z_le_gt_dec (xp_for_level (level + 1)) total_xp) as [Hle | Hgt].
  - assert (Hlt : (Z.to_nat (total_xp - (level + 1)) < m)%nat).
    { unfold xp_for_level in Hle.
      assert (level + 1 <= (level + 1) * (level + 1)) by nia.
      assert (0 <= (level + 1) * (level + 1)) by nia.
      lia. }
    destruct (IH _ Hlt (level + 1) eq_refl) as (n & [Hg Hstop] & Heq).
    exists (S n). split; [split |].
    + intros k Hk. destruct k as [| k].
      * replace (level + Z.of_nat 0 + 1) with (level + 1) by lia. exact Hle.
      * replace (level + Z.of_nat (S k) + 1) with (level + 1 + Z.of_nat k + 1) by lia.
        apply Hg. lia.
    + replace (level + Z.of_nat (S n) + 1) with (level + 1 + Z.of_nat n + 1) by lia.
      exact Hstop.
    + rewrite Heq. lia.
  - exists O. split; [split |].
    + intros k Hk. lia.
    + replace (level + Z.of_nat 0 + 1) with (level + 1) by lia. lia.
    + lia.
Qed.

Lemma xp_for_level_mono a b : 0 <= a → a <= b → xp_for_level a <= xp_for_level b.
Proof. unfold xp_for_level. nia. Qed.

Lemma calculate_level_largest total_xp :
  largest_level total_xp (calculate_level_from_xp total_xp).
Proof.
  unfold calculate_level_from_xp.
  destruct (level_loop_runs total_xp 1) as (n & [Hg Hstop] & ->).
  split; [lia |]. split.
  - intros L' HL' Hxp.
    destruct (Z_le_gt_dec L' (1 + Z.of_nat n)) as [| Hgt]; [assumption |].
    assert (xp_for_level (1 + Z.of_nat n + 1) <= xp_for_level L')
      by (apply xp_for_level_mono; lia).
    lia.
  - destruct n as [| n].
    + destruct (Z_le_gt_dec (xp_for_level 1) total_xp) as [| Hlow].
      * left. assumption.
      * right. split; [reflexivity |]. intros L' HL'.
        assert (xp_for_level 1 <= xp_for_level L')
          by (apply xp_for_level_mono; lia).
        lia.
    + left. specialize (Hg n ltac:(lia)).
      replace (1 + Z.of_nat (S n)) with (1 + Z.of_nat n + 1) by lia. exact Hg.
Qed.

(** C8: on non-negative experience and a level of at least 1, [apply_xp]
    returns the new total, the largest level [L >= 1] with
    [100 * L^2 <= total] (1 when there is none), and whether [L] exceeds
    the current level; [apply_xp(0, 1, 150) = (150, 1, False)] and
    [apply_xp(0, 1, 500) = (500, 2, True)]. *)
Theorem apply_xp_spec (current_xp current_level xp_gained : Z) :
  0 <= current_xp → 1 <= current_level → 0 <= xp_gained →
  ∃ L, apply_xp current_xp current_level xp_gained
       = (current_xp + xp_gained, L, bool_decide (L > current_level))
       ∧ largest_level (current_xp + xp_gained) L
       ∧ (∀ L', 1 <= L' → 100 * L' ^ 2 <= current_xp + xp_gained → L' <= L)
       ∧ apply_xp 0 1 150 = (150, 1, false)
       ∧ apply_xp 0 1 500 = (500, 2, true).
Proof.
  intros _ _ _.
  exists (calculate_level_from_xp (current_xp + xp_gained)).
  pose proof (calculate_level_largest (current_xp + xp_gained)) as HL.
  split; [| split; [exact HL | split; [| split; reflexivity]]].
  - unfold apply_xp. f_equal.
    destruct (Z.ltb_spec current_level
                (calculate_level_from_xp (current_xp + xp_gained)));
      [rewrite bool_decide_eq_true_2 | rewrite bool_decide_eq_false_2];
      (reflexivity || lia).
  - intros L' H1 H2. destruct HL as (_ & Hmax & _). apply Hmax; [assumption |].
    unfold xp_for_level. nia.
Qed.

Lemma apply_xp_spec_witness :
  ∃ L, apply_xp 350 1 700 = (1050, L, bool_decide (L > 1))
       ∧ largest_level 1050 L
       ∧ (∀ L', 1 <= L' → 100 * L' ^ 2 <= 350 + 700 → L' <= L)
       ∧ apply_xp 0 1 150 = (150, 1, false)
       ∧ apply_xp 0 1 500 = (500, 2, true).
Proof. apply (apply_xp_spec 350 1 700); lia. Defined.

(** C10: [calculate_level_from_xp] terminates on every integer: the guard
    [xp_for_level(level + 1) <= total_xp] holds for some finite number [n]
    of iterations and then fails, the result is [1 + n >= 1], and it is 1
    whenever [total_xp < 400], in particular below 100 and on negative
    values. *)
Theorem calculate_level_from_xp_terminates (total_xp : Z) :
  (∃ n : nat, loop_runs total_xp 1 n
              ∧ calculate_level_from_xp total_xp = 1 + Z.of_nat n)
  ∧ 1 <= calculate_level_from_xp total_xp
  ∧ (total_xp < 400 → calculate_level_from_xp total_xp = 1).
Proof.
  unfold calculate_level_from_xp.
  destruct (level_loop_runs total_xp 1) as (n & Hruns & Heq).
  split; [exists n; split; assumption |]. split; [lia |].
  intros Hsmall. destruct n as [| n]; [lia |].
  destruct Hruns as [Hg _]. specialize (Hg O ltac:(lia)).
  unfold xp_for_level in Hg. simpl in Hg. lia.
Qed.

(** ** Stage generation *)

Ltac enumerate_range x lo hi :=
  let rec go n k :=
    lazymatch k with
    | O => exfalso; lia
    | S ?k' =>
        let H := fresh "Hcase" in
        destruct (Z.eq_dec x n) as [H | H];
        [subst x | go (Z.succ n) k']
    end in
  let k := eval vm_compute in (Z.to_nat (hi - lo + 1)) in
  go lo k.


Example difficulty_examples :
  get_difficulty_multiplier 1 1 = Ok 1.0%float
  ∧ get_difficulty_multiplier 1 5 = Ok 1.65%float
  ∧ get_difficulty_multiplier 1 10 = Ok 2.4%float
  ∧ get_difficulty_multiplier 3 7 = Ok 2.6%float
  ∧ get_difficulty_multiplier 20 10 = Ok 11.9%float.
Proof. repeat split; vm_compute; reflexivity. Qed.

(** On the grid of stages that the router admits, the order in which the
    three terms are added does not change the double. *)
Lemma difficulty_order_irrelevant (chapter stage : Z) :
  1 <= chapter <= 20 → 1 <= stage <= 10 →
  get_difficulty_multiplier chapter stage = difficulty_left_to_right chapter stage.
Proof.
  intros Hc Hs.
  enumerate_range chapter 1 20; enumerate_range stage 1 10;
    vm_compute; reflexivity.
Qed.

Lemma py_float_of_int_defined (z : Z) :
  Z.abs z < double_overflow_threshold → ∃ x, py_float_of_int z = Ok x.
Proof.
  intros Hz. unfold py_float_of_int, py_float_of_int_value.
  destruct (Z.leb_spec double_overflow_threshold (Z.abs z)) as [Hge | _]; [lia |].
  eexists. reflexivity.
Qed.

(** The multiplier is computed for every chapter and stage whose
    predecessor a double can hold. *)
Lemma get_difficulty_multiplier_defined (chapter stage : Z) :
  Z.abs (chapter - 1) < double_overflow_threshold →
  Z.abs (stage - 1) < double_overflow_threshold →
  ∃ d, get_difficulty_multiplier chapter stage = Ok d.
Proof.
  intros Hc Hs. unfold get_difficulty_multiplier, py_int_mul_float.
  destruct (py_float_of_int_defined _ Hc) as [x ->].
  destruct (py_float_of_int_defined _ Hs) as [y ->].
  simpl. eexists. reflexivity.
Qed.

Lemma small_below_threshold (z : Z) : Z.abs z < 2 ^ 53 → Z.abs z < double_overflow_threshold.
Proof.
  intros Hz. unfold double_overflow_threshold.
  assert (2 ^ 53 < 2 ^ 1024 - 2 ^ 970) by (vm_compute; reflexivity).
  lia.
Qed.

Lemma forallb_seqZ (P : Z → bool) (lo n x : Z) :
  forallb P (seqZ lo n) = true → lo <= x < lo + n → P x = true.
Proof.
  intros H Hx. rewrite forallb_forall in H. apply H.
  apply list_elem_of_In, elem_of_seqZ. lia.
Qed.



(** *** Small integers as doubles *)

Lemma digits2_pos_bounds (k : positive) :
  2 ^ (Z.pos (digits2_pos k) - 1) <= Z.pos k < 2 ^ Z.pos (digits2_pos k).
Proof.
  induction k as [k IH | k IH |]; cbn [digits2_pos].
  - rewrite Pos2Z.inj_succ, (Pos2Z.inj_xI k).
    replace (Z.succ (Z.pos (digits2_pos k)) - 1)
      with (Z.succ (Z.pos (digits2_pos k) - 1)) by lia.
    rewrite !Z.pow_succ_r by lia.
    generalize dependent (2 ^ (Z.pos (digits2_pos k) - 1)).
    generalize (2 ^ Z.pos (digits2_pos k)). intros; lia.
  - rewrite Pos2Z.inj_succ, (Pos2Z.inj_xO k).
    replace (Z.succ (Z.pos (digits2_pos k)) - 1)
      with (Z.succ (Z.pos (digits2_pos k) - 1)) by lia.
    rewrite !Z.pow_succ_r by lia.
    generalize dependent (2 ^ (Z.pos (digits2_pos k) - 1)).
    generalize (2 ^ Z.pos (digits2_pos k)). intros; lia.
  - cbn. lia.
Qed.

Lemma digits2_pos_small (k : positive) :
  Z.pos k < 2 ^ 53 → Z.pos (digits2_pos k) <= 53.
Proof.
  intros Hk. pose proof (digits2_pos_bounds k) as [Hlo _].
  destruct (Z_le_gt_dec (Z.pos (digits2_pos k)) 53) as [H | H]; [exact H |].
  exfalso.
  assert (2 ^ 53 <= 2 ^ (Z.pos (digits2_pos k) - 1))
    by (apply Z.pow_le_mono_r; lia).
  lia.
Qed.

Lemma iter_xO_spec (k j : positive) :
  Z.pos (Pos.iter xO k j) = Z.pos k * 2 ^ Z.pos j
  ∧ digits2_pos (Pos.iter xO k j) = (digits2_pos k + j)%positive.
Proof.
  induction j as [| j IH] using Pos.peano_ind.
  - cbn. split; [lia |]. rewrite Pos.add_1_r. reflexivity.
  - rewrite Pos.iter_succ. cbn [digits2_pos]. destruct IH as [IH1 IH2].
    rewrite Pos2Z.inj_xO, IH1, IH2, Pos2Z.inj_succ, Z.pow_succ_r by lia.
    split; [lia |]. rewrite Pos.add_succ_r. reflexivity.
Qed.

(** The double nearest to an integer below [2^53] is that integer, with
    the significand shifted to 53 digits. *)
Lemma binary_normalize_small (k : positive) :
  Z.pos k < 2 ^ 53 →
  ∃ m e, binary_normalize prec emax (Z.pos k) 0 false = S754_finite false m e
         ∧ e <= 0 ∧ Z.pos m = Z.pos k * 2 ^ (- e).
Proof.
  intros Hk. pose proof (digits2_pos_small k Hk) as Hd.
  assert (Hfinal : ∀ m e,
            Z.pos (digits2_pos m) = 53 → -1074 <= e <= 0 →
            binary_round_aux prec emax false (Z.pos m) e loc_Exact
            = S754_finite false m e).
  { intros m e Hm He. unfold binary_round_aux, shr_fexp.
    cbn [Zdigits2 shr_record_of_loc]. rewrite Hm.
    assert (Hf : fexp prec emax (53 + e) - e = 0)
      by (unfold fexp, SpecFloat.emin, prec, emax; lia).
    rewrite Hf. cbn [shr shr_m loc_of_shr_record round_nearest_even Zdigits2].
    rewrite Hm, Hf. cbn [shr shr_m].
    replace (e <=? emax - prec) with true
      by (symmetry; apply Z.leb_le; unfold emax, prec; lia).
    reflexivity. }
  cbn [binary_normalize]. unfold binary_round, shl_align.
  assert (Hfe : fexp prec emax (Z.pos (digits2_pos k) + 0)
                = Z.pos (digits2_pos k) - 53)
    by (unfold fexp, SpecFloat.emin, prec, emax; lia).
  rewrite Hfe.
  destruct (Z.pos (digits2_pos k) - 53 - 0) as [| p | p] eqn:Hshift.
  - exists k, 0. rewrite Hfinal by lia. split; [reflexivity |]. split; lia.
  - exfalso. lia.
  - destruct (iter_xO_spec k p) as [Hval Hdig].
    exists (Pos.iter xO k p), (Z.pos (digits2_pos k) - 53).
    rewrite Hfinal.
    + split; [reflexivity |]. split; [lia |].
      rewrite Hval. f_equal. f_equal. lia.
    + rewrite Hdig, Pos2Z.inj_add. lia.
    + lia.
Qed.

Lemma py_int_of_float_of_uint63 (n : Z) :
  0 <= n < 2 ^ 53 → py_int_of_float (of_uint63 (Uint63.of_Z n)) = Ok n.
Proof.
  intros Hn. unfold py_int_of_float.
  rewrite of_uint63_spec, Uint63.of_Z_spec.
  rewrite Z.mod_small by (change Uint63.wB with (2 ^ 63); lia).
  destruct n as [| k | k]; [reflexivity | | lia].
  destruct (binary_normalize_small k ltac:(lia)) as (m & e & -> & He & Hm).
  destruct (Z.leb_spec 0 e) as [H0 | H0].
  - assert (e = 0) as -> by lia. cbn in Hm. f_equal. lia.
  - rewrite Hm. f_equal. apply Z.div_mul. apply Z.pow_nonzero; lia.
Qed.

Lemma double_of_Z_of_uint63 (n : Z) :
  0 <= n < 2 ^ 53 → double_of_Z n = of_uint63 (Uint63.of_Z n).
Proof.
  intros Hn. unfold double_of_Z.
  rewrite <- (SF2Prim_Prim2SF (of_uint63 (Uint63.of_Z n))).
  rewrite of_uint63_spec, Uint63.of_Z_spec.
  rewrite Z.mod_small; [reflexivity |].
  change Uint63.wB with (2 ^ 63). lia.
Qed.

(** Two doubles that compare equal convert to the same integer. *)
Lemma py_int_of_float_eqb (a b : float) :
  (a =? b)%float = true → py_int_of_float a = py_int_of_float b.
Proof.
  rewrite FloatAxioms.eqb_spec. unfold py_int_of_float, SFeqb, SFcompare.
  destruct (Prim2SF a) as [sa | sa | | sa ma ea],
           (Prim2SF b) as [sb | sb | | sb mb eb];
    try reflexivity; try discriminate;
    try (destruct sa; discriminate); try (destruct sb; discriminate);
    try (destruct sa, sb; discriminate).
  destruct sa, sb; try discriminate;
    (destruct (ea ?= eb) eqn:He; try discriminate;
     apply Z.compare_eq in He; subst eb;
     destruct (Pos.compare_cont Eq ma mb) eqn:Hm; try discriminate;
     apply (Pos.compare_eq ma mb) in Hm; subst mb; reflexivity).
Qed.

Lemma scaled_of_uint63 (n : Z) (m : float) :
  0 <= n < 2 ^ 53 →
  scaled n m = py_int_of_float (of_uint63 (Uint63.of_Z n) * m)%float.
Proof.
  intros Hn. unfold scaled, py_int_mul_float, py_float_of_int,
    py_float_of_int_value.
  replace (double_overflow_threshold <=? Z.abs n) with false.
  2:{ symmetry. apply Z.leb_gt. unfold double_overflow_threshold.
      assert (2 ^ 53 < 2 ^ 1024 - 2 ^ 970) by (vm_compute; reflexivity). lia. }
  cbn [mbind result_bind].
  rewrite round_to_double_exact by lia.
  rewrite double_of_Z_of_uint63 by lia. reflexivity.
Qed.

(** The products of the integers below [2^14] with the three reward
    multipliers, checked on the machine doubles. *)
Lemma scaled_exact_table :
  forallb (λ a,
    forallb (λ b,
      let n := 128 * a + b in
      let x := of_uint63 (Uint63.of_Z n) in
      (x * 1.0 =? x)%float
      && (x * 2.0 =? of_uint63 (Uint63.of_Z (2 * n)))%float
      && (x * 3.0 =? of_uint63 (Uint63.of_Z (3 * n)))%float)
      (seqZ 0 128))
    (seqZ 0 128) = true.
Proof. vm_compute. reflexivity. Qed.

Lemma scaled_exact (n stage : Z) :
  0 <= n < 16384 →
  scaled n (if stage =? 10 then 3.0%float
            else if stage =? 5 then 2.0%float else 1.0%float)
  = Ok (reward_factor stage * n).
Proof.
  intros Hn. rewrite scaled_of_uint63 by lia.
  pose proof scaled_exact_table as H.
  apply (forallb_seqZ _ _ _ (n / 128)) in H.
  2:{ split; [apply Z.div_pos; lia | apply Z.div_lt_upper_bound; lia]. }
  apply (forallb_seqZ _ _ _ (n mod 128)) in H.
  2:{ pose proof (Z.mod_pos_bound n 128 ltac:(lia)). lia. }
  cbn beta zeta in H.
  rewrite <- (Z.div_mod n 128) in H by lia.
  apply andb_prop in H as [H H3]. apply andb_prop in H as [H1 H2].
  unfold reward_factor.
  destruct (stage =? 10); [| destruct (stage =? 5)].
  - rewrite (py_int_of_float_eqb _ _ H3).
    apply py_int_of_float_of_uint63. lia.
  - rewrite (py_int_of_float_eqb _ _ H2).
    apply py_int_of_float_of_uint63. lia.
  - rewrite (py_int_of_float_eqb _ _ H1).
    rewrite py_int_of_float_of_uint63 by lia. f_equal. lia.
Qed.

Lemma stage_rewards_exact (chapter stage : Z) (mobs : list MobConfig) :
  1 <= chapter <= 20 → 1 <= stage <= 10 →
  0 <= list_sum (gold_reward <$> mobs) < 14000 →
  0 <= list_sum (xp_reward <$> mobs) < 14000 →
  generate_stage_rewards chapter stage mobs
  = Ok {| gold := reward_factor stage
                  * (100 * chapter + 10 * stage + list_sum (gold_reward <$> mobs));
          gems := reward_factor stage * (chapter + stage / 5);
          xp := reward_factor stage
                * (50 * chapter + 5 * stage + list_sum (xp_reward <$> mobs));
          items := [] |}.
Proof.
  intros Hc Hs Hg Hx. unfold generate_stage_rewards.
  destruct (get_difficulty_multiplier_defined chapter stage) as [d ->];
    [apply small_below_threshold; change (2 ^ 53) with 9007199254740992; lia .. |].
  cbn [mbind result_bind].
  assert (0 <= stage / 5 <= 2).
  { split; [apply Z.div_pos; lia |]. apply Z.div_le_upper_bound; lia. }
  rewrite !scaled_exact by lia. reflexivity.
Qed.




Example rewards_chapter1_boss_one_mob :
  generate_stage_rewards 1 10 [sample_mob 19 36] =
    Ok {| gold := 657; gems := 9; xp := 408; items := [] |}.
Proof. vm_compute. reflexivity. Qed.

(** The example of the specification: chapter 1, stage 10, no monster
    contribution. *)
Example rewards_chapter1_boss :
  generate_stage_rewards 1 10 [] = Ok {| gold := 600; gems := 9; xp := 300; items := [] |}.
Proof. vm_compute. reflexivity. Qed.

(** *** Boss stages *)

Lemma generate_mob_run mob_id l d chapter w t :
  heap w !! l = Some t →
  generate_mob mob_id l d chapter w = (mob_of_template mob_id t d chapter, w).
Proof.
  intros Hl. unfold generate_mob, mbind, M_bind, deref, lift. rewrite Hl. 
  destruct (mob_of_template mob_id t d chapter); reflexivity.
Qed.

Lemma generate_boss_stage_run chapter w d b l t :
  get_difficulty_multiplier chapter 10 = Ok d →
  boss_for_chapter chapter = Ok b →
  dict_get BOSS_TEMPLATES b = Ok l →
  heap w !! l = Some t →
  generate_stage_mobs chapter 10 w =
    (m ← mob_of_template b t d chapter; Ok [m], w).
Proof.
  intros Hd Hb Hl Ht. unfold generate_stage_mobs.
  change (10 =? 10) with true. cbv iota.
  unfold mbind at 1, M_bind at 1. unfold lift at 1. rewrite Hd.
  unfold mbind at 1, M_bind at 1. unfold lift at 1. rewrite Hb.
  unfold mbind at 1, M_bind at 1. unfold lift at 1. rewrite Hl.
  unfold mbind at 1, M_bind at 1. rewrite (generate_mob_run _ _ _ _ _ _ Ht).
  destruct (mob_of_template b t d chapter); reflexivity.
Qed.

(** Every chapter has a boss, and its template is one of the class. *)
Lemma boss_for_chapter_defined chapter :
  ∃ b l t, boss_for_chapter chapter = Ok b
           ∧ dict_get BOSS_TEMPLATES b = Ok l
           ∧ class_heap !! l = Some t
           ∧ (t = orc_warlord ∨ t = lich_king ∨ t = dragon).
Proof.
  unfold boss_for_chapter. simpl length.
  pose proof (Z.mod_pos_bound (chapter - 1) 3 ltac:(lia)) as Hm.
  change (Z.of_nat 3) with 3.
  remember ((chapter - 1) mod 3) as k eqn:Hk. clear Hk.
  assert (Hcases : k = 0 ∨ k = 1 ∨ k = 2) by lia.
  destruct Hcases as [-> | [-> | ->]].
  - exists "orc_warlord", 5%nat, orc_warlord. repeat split; auto.
  - exists "lich_king", 6%nat, lich_king. repeat split; auto.
  - exists "dragon", 7%nat, dragon. repeat split; auto.
Qed.

Lemma generate_boss_stage_defined chapter w :
  1 <= chapter <= 20 → class_heap ⊆ heap w →
  ∃ m, generate_stage_mobs chapter 10 w = (Ok [m], w).
Proof.
  intros Hc Hsub.
  assert (Hrun : ∀ d b l t,
            get_difficulty_multiplier chapter 10 = Ok d →
            boss_for_chapter chapter = Ok b →
            dict_get BOSS_TEMPLATES b = Ok l →
            class_heap !! l = Some t →
            generate_stage_mobs chapter 10 w =
              (m ← mob_of_template b t d chapter; Ok [m], w)).
  { intros d b l t Hd Hb Hl Ht.
    apply (generate_boss_stage_run chapter w d b l t); try assumption.
    eapply lookup_weaken; eassumption. }
  enumerate_range chapter 1 20;
    match goal with
    | |- context [generate_stage_mobs ?c 10 w] =>
        let d := eval vm_compute in (get_difficulty_multiplier c 10) in
        let b := eval vm_compute in (boss_for_chapter c) in
        lazymatch d with
        | Ok ?d' =>
            lazymatch b with
            | Ok ?b' =>
                let l := eval vm_compute in (dict_get BOSS_TEMPLATES b') in
                lazymatch l with
                | Ok ?l' =>
                    let t := eval vm_compute in (class_heap !! l') in
                    lazymatch t with
                    | Some ?t' =>
                        rewrite (Hrun d' b' l' t');
                        [| vm_compute; reflexivity ..]
                    end
                end
            end
        end
    end;
    vm_compute; eexists; reflexivity.
Qed.

(** The property as the specification states it, refuted at chapter 1: the
    multiplier of stage 1-10 is 2.4, not 1.5. *)
Lemma boss_difficulty_claim_fails :
  1 <= 1 <= 20
  ∧ get_difficulty_multiplier 1 10 = Ok 2.4%float
  ∧ claimed_boss_difficulty 1 = Ok 1.5%float
  ∧ ¬ (get_mob_count 1 10 = 1
       ∧ get_difficulty_multiplier 1 10 = claimed_boss_difficulty 1).
Proof.
  split; [lia |]. split; [vm_compute; reflexivity |].
  split; [vm_compute; reflexivity |].
  intros [_ H]. apply (f_equal float_repr) in H. vm_compute in H. discriminate.
Qed.

(** C5, amended: on stage 10 of every chapter in [1..20] there is exactly
    one monster, and the difficulty multiplier is
    [1 + (chapter-1)*0.5 + (10-1)*0.1 + 0.5], which is the double nearest
    to [(5*chapter + 19) / 10]. *)
Theorem boss_stage_spec (chapter : Z) :
  1 <= chapter <= 20 →
  get_mob_count chapter 10 = 1
  ∧ (∀ w, class_heap ⊆ heap w →
          ∃ m, generate_stage_mobs chapter 10 w = (Ok [m], w))
  ∧ get_difficulty_multiplier chapter 10 = boss_difficulty chapter
  ∧ get_difficulty_multiplier chapter 10
    = Ok (double_of_Z (5 * chapter + 19) / 10)%float.
Proof.
  intros Hc. split; [reflexivity |]. split.
  - intros w Hsub. apply generate_boss_stage_defined; assumption.
  - split; enumerate_range chapter 1 20; vm_compute; reflexivity.
Qed.

Lemma boss_stage_spec_witness :
  get_mob_count 7 10 = 1
  ∧ (∀ w, class_heap ⊆ heap w →
          ∃ m, generate_stage_mobs 7 10 w = (Ok [m], w))
  ∧ get_difficulty_multiplier 7 10 = boss_difficulty 7
  ∧ get_difficulty_multiplier 7 10 = Ok (double_of_Z (5 * 7 + 19) / 10)%float.
Proof. apply (boss_stage_spec 7); lia. Defined.

(** *** Mini-boss stages and the shared templates *)

Lemma unchanged_in_refl w : unchanged_in w w.
Proof. intros l t H. exact H. Qed.

Lemma fresh_not_in_heap (h : gmap loc Template) : h !! fresh (dom h) = None.
Proof. apply not_elem_of_dom. apply is_fresh. Qed.

Lemma generate_miniboss_stage chapter w r w' :
  generate_stage_mobs chapter 5 w = (r, w') →
  unchanged_in w w'
  ∧ ∀ mobs, r = Ok mobs →
      ∃ mini support, mobs = [mini; support]
                      ∧ miniboss_of chapter (heap w) = Ok mini.
Proof.
  intros H. unfold generate_stage_mobs in H.
  change (5 =? 10) with false in H. change (5 =? 5) with true in H. cbv iota in H.
  unfold mbind at 1, M_bind at 1, lift at 1 in H.
  destruct (get_difficulty_multiplier chapter 5) as [d | e] eqn:Hd;
    [| injection H as <- <-; split; [apply unchanged_in_refl | discriminate]].
  unfold mbind at 1, M_bind at 1, lift at 1 in H.
  destruct (boss_for_chapter chapter) as [b | e] eqn:Hb;
    [| injection H as <- <-; split; [apply unchanged_in_refl | discriminate]].
  unfold mbind at 1, M_bind at 1, lift at 1 in H.
  destruct (dict_get BOSS_TEMPLATES b) as [l | e] eqn:Hdl;
    [| injection H as <- <-; split; [apply unchanged_in_refl | discriminate]].
  unfold mbind at 1, M_bind at 1, dict_copy at 1 in H.
  destruct (heap w !! l) as [t |] eqn:Hl;
    [| injection H as <- <-; split; [apply unchanged_in_refl | discriminate]].
  set (l' := fresh (dom (heap w))) in H.
  assert (Hfresh : heap w !! l' = None) by apply fresh_not_in_heap.
  assert (Hext : ∀ t' draws pos,
            unchanged_in w {| heap := <[l' := t']> (heap w);
                              random_draws := draws; random_pos := pos |}).
  { intros t' draws pos k u Hk. cbn [heap].
    rewrite lookup_insert_ne; [exact Hk | congruence]. }
  unfold set_heap in H; cbn [heap random_draws random_pos] in H.
  unfold mbind at 1, M_bind at 1, deref at 1 in H. cbn [heap] in H.
  rewrite lookup_insert_eq in H.
  unfold mbind at 1, M_bind at 1, lift at 1 in H.
  destruct (scaled (t_base_health t) 0.6) as [h | e] eqn:Hh;
    [| injection H as <- <-; split; [apply Hext | discriminate]].
  unfold mbind at 1, M_bind at 1, dict_update at 1 in H. cbn [heap] in H.
  rewrite lookup_insert_eq in H.
  unfold set_heap in H; cbn [heap random_draws random_pos] in H.
  rewrite insert_insert_eq in H.
  unfold mbind at 1, M_bind at 1, deref at 1 in H. cbn [heap] in H.
  rewrite lookup_insert_eq in H.
  unfold mbind at 1, M_bind at 1, lift at 1 in H.
  change (t_base_damage (set_base_health h t)) with (t_base_damage t) in H.
  destruct (scaled (t_base_damage t) 0.6) as [dm | e] eqn:Hdm;
    [| injection H as <- <-; split; [apply Hext | discriminate]].
  unfold mbind at 1, M_bind at 1, dict_update at 1 in H. cbn [heap] in H.
  rewrite lookup_insert_eq in H.
  unfold set_heap in H; cbn [heap random_draws random_pos] in H.
  rewrite insert_insert_eq in H.
  unfold mbind at 1, M_bind at 1 in H.
  rewrite (generate_mob_run _ _ _ _ _ (set_base_damage dm (set_base_health h t))) in H;
    [| cbn [heap]; apply lookup_insert_eq].
  destruct (mob_of_template (b +:+ "_mini") _ d chapter) as [mini | e] eqn:Hmini;
    [| injection H as <- <-; split; [apply Hext | discriminate]].
  unfold mbind at 1, M_bind at 1, random_choice at 1 in H.
  cbn [heap random_draws random_pos] in H.
  destruct (chapter_theme chapter !! _) as [mob_id |];
    [| injection H as <- <-; split; [apply Hext | discriminate]].
  unfold mbind at 1, M_bind at 1, lift at 1 in H.
  destruct (dict_get MOB_TEMPLATES mob_id) as [lm | e];
    [| injection H as <- <-; split; [apply Hext | discriminate]].
  unfold mbind at 1, M_bind at 1, generate_mob at 1 in H.
  unfold mbind at 1, M_bind at 1, deref at 1, lift at 1 in H.
  cbn [heap] in H.
  destruct (<[l' := _]> (heap w) !! lm) as [tm |];
    [| injection H as <- <-; split; [apply Hext | discriminate]].
  unfold mret, M_ret in H.
  destruct (mob_of_template mob_id tm d chapter) as [support | e];
    injection H as <- <-; (split; [apply Hext |]); [| discriminate].
  intros mobs [= <-]. exists mini, support. split; [reflexivity |].
  unfold miniboss_of, miniboss_template, mbind, result_bind.
  rewrite Hd, Hb, Hdl, Hl, Hh, Hdm. exact Hmini.
Qed.

Lemma generate_miniboss_stage_run chapter w d b l t t' mini mob_id lm tm support :
  get_difficulty_multiplier chapter 5 = Ok d →
  boss_for_chapter chapter = Ok b →
  dict_get BOSS_TEMPLATES b = Ok l →
  heap w !! l = Some t →
  miniboss_template t = Ok t' →
  mob_of_template (b +:+ "_mini") t' d chapter = Ok mini →
  chapter_theme chapter
    !! (random_draws w (random_pos w) mod length (chapter_theme chapter))%nat
    = Some mob_id →
  dict_get MOB_TEMPLATES mob_id = Ok lm →
  heap w !! lm = Some tm →
  mob_of_template mob_id tm d chapter = Ok support →
  ∃ w', generate_stage_mobs chapter 5 w = (Ok [mini; support], w').
Proof.
  intros Hd Hb Hdl Hl Ht' Hmini Hchoice Hlm Htm Hsupport.
  unfold miniboss_template, mbind, result_bind in Ht'.
  destruct (scaled (t_base_health t) 0.6) as [h |] eqn:Hh; [| discriminate].
  destruct (scaled (t_base_damage t) 0.6) as [dm |] eqn:Hdm; [| discriminate].
  injection Ht' as <-.
  set (l' := fresh (dom (heap w))).
  assert (Hfresh : heap w !! l' = None) by apply fresh_not_in_heap.
  eexists. unfold generate_stage_mobs.
  change (5 =? 10) with false. change (5 =? 5) with true. cbv iota.
  unfold mbind at 1, M_bind at 1, lift at 1. rewrite Hd.
  unfold mbind at 1, M_bind at 1, lift at 1. rewrite Hb.
  unfold mbind at 1, M_bind at 1, lift at 1. rewrite Hdl.
  unfold mbind at 1, M_bind at 1, dict_copy at 1. rewrite Hl.
  fold l'. unfold set_heap; cbn [heap random_draws random_pos].
  unfold mbind at 1, M_bind at 1, deref at 1. cbn [heap].
  rewrite lookup_insert_eq.
  unfold mbind at 1, M_bind at 1, lift at 1. rewrite Hh.
  unfold mbind at 1, M_bind at 1, dict_update at 1. cbn [heap].
  rewrite lookup_insert_eq.
  unfold set_heap; cbn [heap random_draws random_pos].
  rewrite insert_insert_eq.
  unfold mbind at 1, M_bind at 1, deref at 1. cbn [heap].
  rewrite lookup_insert_eq.
  unfold mbind at 1, M_bind at 1, lift at 1.
  change (t_base_damage (set_base_health h t)) with (t_base_damage t).
  rewrite Hdm.
  unfold mbind at 1, M_bind at 1, dict_update at 1. cbn [heap].
  rewrite lookup_insert_eq.
  unfold set_heap; cbn [heap random_draws random_pos].
  rewrite insert_insert_eq.
  unfold mbind at 1, M_bind at 1.
  rewrite (generate_mob_run _ _ _ _ _ (set_base_damage dm (set_base_health h t)));
    [| cbn [heap]; apply lookup_insert_eq].
  rewrite Hmini.
  unfold mbind at 1, M_bind at 1, random_choice at 1.
  cbn [heap random_draws random_pos]. rewrite Hchoice.
  unfold mbind at 1, M_bind at 1, lift at 1. rewrite Hlm.
  unfold mbind at 1, M_bind at 1.
  rewrite (generate_mob_run _ _ _ _ _ tm);
    [| cbn [heap]; rewrite lookup_insert_ne; [exact Htm | congruence]].
  rewrite Hsupport. reflexivity.
Qed.

(** Stepping through the members of a theme: the drawn index is below
    the length of the theme. *)
Lemma drawn_index_bound {A} (theme : list A) (n : nat) :
  theme ≠ [] → (n mod length theme < length theme)%nat.
Proof.
  intros Hne. apply Nat.mod_upper_bound. destruct theme; [congruence | simpl; lia].
Qed.

Ltac miniboss_case c w Hsub :=
  let d := eval vm_compute in (get_difficulty_multiplier c 5) in
  let b := eval vm_compute in (boss_for_chapter c) in
  lazymatch d with
  | Ok ?d' =>
    lazymatch b with
    | Ok ?b' =>
      let l := eval vm_compute in (dict_get BOSS_TEMPLATES b') in
      lazymatch l with
      | Ok ?l' =>
        let t := eval vm_compute in (class_heap !! l') in
        lazymatch t with
        | Some ?t' =>
          let mt := eval vm_compute in (miniboss_template t') in
          lazymatch mt with
          | Ok ?mt' =>
            let mini := eval vm_compute in (mob_of_template (b' +:+ "_mini") mt' d' c) in
            lazymatch mini with
            | Ok ?mini' =>
              lazymatch goal with
              | Hch : chapter_theme c !! _ = Some ?mob_id |- _ =>
                let lm := eval vm_compute in (dict_get MOB_TEMPLATES mob_id) in
                lazymatch lm with
                | Ok ?lm' =>
                  let tm := eval vm_compute in (class_heap !! lm') in
                  lazymatch tm with
                  | Some ?tm' =>
                    let sup := eval vm_compute in (mob_of_template mob_id tm' d' c) in
                    lazymatch sup with
                    | Ok ?sup' =>
                      destruct (generate_miniboss_stage_run c w d' b' l' t' mt'
                                  mini' mob_id lm' tm' sup') as [w' Hrun];
                      [ vm_compute; reflexivity
                      | vm_compute; reflexivity
                      | vm_compute; reflexivity
                      | apply (lookup_weaken class_heap (heap w) l' t');
                        [vm_compute; reflexivity | exact Hsub]
                      | vm_compute; reflexivity
                      | vm_compute; reflexivity
                      | exact Hch
                      | vm_compute; reflexivity
                      | apply (lookup_weaken class_heap (heap w) lm' tm');
                        [vm_compute; reflexivity | exact Hsub]
                      | vm_compute; reflexivity
                      | exists mini', sup', w'; exact Hrun ]
                    end
                  end
                end
              end
            end
          end
        end
      end
    end
  end.

Lemma generate_miniboss_stage_defined chapter w :
  1 <= chapter <= 20 → class_heap ⊆ heap w →
  ∃ mini support w', generate_stage_mobs chapter 5 w = (Ok [mini; support], w').
Proof.
  intros Hc Hsub.
  enumerate_range chapter 1 20;
    match goal with
    | |- context [generate_stage_mobs ?c 5 w] =>
        let th := eval vm_compute in (chapter_theme c) in
        pose proof (drawn_index_bound (chapter_theme c)
                      (random_draws w (random_pos w))) as Hbound;
        destruct (chapter_theme c
                    !! (random_draws w (random_pos w) mod length (chapter_theme c))%nat)
          as [mob_id |] eqn:Hch;
        [ | apply lookup_ge_None in Hch;
            specialize (Hbound ltac:(discriminate)); lia ];
        clear Hbound;
        pose proof (list_elem_of_lookup_2 _ _ _ Hch) as Hin;
        change (chapter_theme c) with th in Hin;
        repeat (apply elem_of_cons in Hin as [-> | Hin]);
        [ .. | apply elem_of_nil in Hin; destruct Hin ];
        miniboss_case c w Hsub
    end.
Qed.

Lemma unchanged_in_trans w1 w2 w3 :
  unchanged_in w1 w2 → unchanged_in w2 w3 → unchanged_in w1 w3.
Proof. intros H12 H23 l t Hl. apply H23, H12, Hl. Qed.

Lemma unchanged_in_class_heap w w' :
  unchanged_in w w' → class_heap ⊆ heap w → class_heap ⊆ heap w'.
Proof.
  intros Hun Hsub. apply map_subseteq_spec. intros l t Hl.
  apply Hun. eapply lookup_weaken; eassumption.
Qed.

Lemma miniboss_of_unchanged chapter w w' mini :
  unchanged_in w w' →
  miniboss_of chapter (heap w) = Ok mini →
  miniboss_of chapter (heap w') = Ok mini.
Proof.
  intros Hun. unfold miniboss_of, mbind, result_bind.
  destruct (get_difficulty_multiplier chapter 5) as [d |]; [| discriminate].
  destruct (boss_for_chapter chapter) as [b |]; [| discriminate].
  destruct (dict_get BOSS_TEMPLATES b) as [l |]; [| discriminate].
  destruct (heap w !! l) as [t |] eqn:Hl; [| discriminate].
  rewrite (Hun _ _ Hl). trivial.
Qed.

(** C9: generating a mini-boss stage leaves every template object of the
    store as it was (the 60% scaling is written to a copy), so a second
    call for the same chapter starts from the same templates and produces
    the same mini-boss, with the same health and damage; on the chapters
    of the game both calls return two monsters. *)
Theorem miniboss_scaling_not_compounded (chapter : Z) (w : world) :
  let first := generate_stage_mobs chapter 5 w in
  let second := generate_stage_mobs chapter 5 first.2 in
  unchanged_in w first.2
  ∧ unchanged_in w second.2
  ∧ (class_heap ⊆ heap w → class_heap ⊆ heap first.2 ∧ class_heap ⊆ heap second.2)
  ∧ (∀ mobs1 mobs2, first.1 = Ok mobs1 → second.1 = Ok mobs2 →
       ∃ mini support1 support2,
         mobs1 = [mini; support1] ∧ mobs2 = [mini; support2])
  ∧ (1 <= chapter <= 20 → class_heap ⊆ heap w →
       ∃ mini support1 support2,
         first.1 = Ok [mini; support1] ∧ second.1 = Ok [mini; support2]
         ∧ miniboss_of chapter class_heap = Ok mini).
Proof.
  intros first second.
  destruct first as [r1 w1] eqn:H1. destruct second as [r2 w2] eqn:H2.
  subst first second. cbn [fst snd] in *.
  destruct (generate_miniboss_stage _ _ _ _ H1) as [Hun1 Hmobs1].
  destruct (generate_miniboss_stage _ _ _ _ H2) as [Hun2 Hmobs2].
  assert (Hun12 : unchanged_in w w2) by (eapply unchanged_in_trans; eassumption).
  assert (Hsame : ∀ mobs1 mobs2, r1 = Ok mobs1 → r2 = Ok mobs2 →
            ∃ mini support1 support2,
              mobs1 = [mini; support1] ∧ mobs2 = [mini; support2]
              ∧ miniboss_of chapter (heap w) = Ok mini).
  { intros mobs1 mobs2 Hr1 Hr2.
    destruct (Hmobs1 _ Hr1) as (mini1 & s1 & -> & Hm1).
    destruct (Hmobs2 _ Hr2) as (mini2 & s2 & -> & Hm2).
    rewrite (miniboss_of_unchanged _ _ _ _ Hun1 Hm1) in Hm2.
    injection Hm2 as <-. exists mini1, s1, s2. auto. }
  split; [exact Hun1 |]. split; [exact Hun12 |]. split; [| split].
  - intros Hsub. split; eapply unchanged_in_class_heap; eassumption.
  - intros mobs1 mobs2 Hr1 Hr2.
    destruct (Hsame _ _ Hr1 Hr2) as (mini & s1 & s2 & -> & -> & _).
    exists mini, s1, s2. auto.
  - intros Hc Hsub.
    destruct (generate_miniboss_stage_defined chapter w Hc Hsub)
      as (m1 & s1 & w1' & Hd1).
    rewrite Hd1 in H1. injection H1 as <- <-.
    assert (Hsub1 : class_heap ⊆ heap w1')
      by (eapply unchanged_in_class_heap; eassumption).
    destruct (generate_miniboss_stage_defined chapter w1' Hc Hsub1)
      as (m2 & s2 & w2' & Hd2).
    rewrite Hd2 in H2. injection H2 as <- <-.
    destruct (Hsame _ _ eq_refl eq_refl) as (mini & t1 & t2 & [= -> ->] & [= -> ->] & Hm).
    exists mini, t1, t2. split; [reflexivity |]. split; [reflexivity |].
    revert Hm. unfold miniboss_of, mbind, result_bind.
    destruct (get_difficulty_multiplier chapter 5) as [d |]; [| discriminate].
    destruct (boss_for_chapter_defined chapter) as (b & l & t & -> & -> & Hl & _).
    rewrite Hl, (lookup_weaken _ _ _ _ Hl Hsub). trivial.
Qed.

(** The first chapter: the orc warlord has 500 health and 40 damage, its
    mini-boss [int(int(500*0.6) * 1.65) = 495] and [int(int(40*0.6) * 1.65) = 39],
    on the first call and on every later one. *)
Example miniboss_chapter1 :
  ∃ mini, miniboss_of 1 class_heap = Ok mini ∧ health mini = 495 ∧ damage mini = 39.
Proof. eexists. split; [vm_compute; reflexivity |]. split; reflexivity. Qed.

(** ** Battle-log validation *)

Lemma py_int_mul_half_exact (z : Z) :
  Z.abs z <= 2 ^ 53 → py_int_mul_half z = Ok (Qmake z 2).
Proof.
  intros Hz. unfold py_int_mul_half, py_float_of_int_value.
  assert (2 ^ 53 < double_overflow_threshold) by (vm_compute; reflexivity).
  destruct (Z.leb_spec double_overflow_threshold (Z.abs z)); [lia |].
  simpl. rewrite round_to_double_exact by assumption. reflexivity.
Qed.

Lemma py_int_mul_half_defined (z : Z) :
  Z.abs z < double_overflow_threshold → ∃ q, py_int_mul_half z = Ok q.
Proof.
  intros Hz. unfold py_int_mul_half, py_float_of_int_value.
  destruct (Z.leb_spec double_overflow_threshold (Z.abs z)); [lia |].
  eexists. reflexivity.
Qed.

Lemma py_int_lt_half (a z : Z) : py_int_lt_float a (Qmake z 2) = (2 * a <? z).
Proof.
  unfold py_int_lt_float, Qle_bool. simpl.
  destruct (Z.leb_spec (z * 1) (a * 2)), (Z.ltb_spec (2 * a) z); simpl; lia.
Qed.

Lemma half_le_iff (a z : Z) : (Qmake 1 2 * inject_Z z <= inject_Z a)%Q ↔ z <= 2 * a.
Proof. unfold Qle. simpl. lia. Qed.

Lemma py_format_int_cases (n : Z) :
  (Z.abs n < 10 ^ int_max_str_digits ∧ py_format_int n = Ok (py_str n))
  ∨ (10 ^ int_max_str_digits <= Z.abs n ∧ py_format_int n = Raise ValueError).
Proof.
  unfold py_format_int.
  destruct (Z.leb_spec (10 ^ int_max_str_digits) (Z.abs n)); auto.
Qed.

Section ValidatorProperties.

Variable timestamp_ms : datetime → Z.

(** What [validate_battle_log] returns when none of its float conversions
    overflows: it decides the six conditions, unless the number that the
    reason would quote is too long to be formatted. *)
Lemma validate_battle_log_decides (log : BattleLog) (mobs : list MobConfig)
    (created : datetime) :
  Z.abs (player_power log) < double_overflow_threshold →
  Z.abs (list_sum (health <$> mobs)) <= 2 ^ 53 →
  (plausible (timestamp_ms created) log mobs
   ∧ validate_battle_log timestamp_ms log (log_chapter log) (log_stage log)
       mobs created = Ok (true, None))
  ∨ (¬ plausible (timestamp_ms created) log mobs
     ∧ ((∃ reason,
           validate_battle_log timestamp_ms log (log_chapter log) (log_stage log)
             mobs created = Ok (false, Some reason))
        ∨ (validate_battle_log timestamp_ms log (log_chapter log) (log_stage log)
             mobs created = Raise ValueError
           ∧ (10 ^ int_max_str_digits
              <= Z.abs (battle_end_time log - battle_start_time log)
              ∨ 10 ^ int_max_str_digits <= Z.abs (mobs_killed (log_stats log)))))).
Proof.
  intros Hpower Hhealth. unfold validate_battle_log, plausible.
  rewrite !Z.eqb_refl. cbn [negb orb].
  rewrite half_le_iff.
  destruct (py_int_mul_half_defined _ Hpower) as [q ->].
  rewrite (py_int_mul_half_exact _ Hhealth).
  unfold MIN_BATTLE_DURATION_MS, MAX_BATTLE_DURATION_MS, MAX_DAMAGE_PER_POWER.
  destruct (Z.ltb_spec (battle_end_time log - battle_start_time log) 5000).
  { right. split; [lia |].
    destruct (py_format_int_cases (battle_end_time log - battle_start_time log))
      as [[_ ->] | [Hlong ->]]; cbn; eauto. }
  destruct (Z.ltb_spec 600000 (battle_end_time log - battle_start_time log)).
  { right. split; [lia |].
    destruct (py_format_int_cases (battle_end_time log - battle_start_time log))
      as [[_ ->] | [Hlong ->]]; cbn; eauto. }
  destruct (Z.ltb_spec (battle_start_time log) (timestamp_ms created - 5000)).
  { right. split; [lia | eauto]. }
  destruct (Z.eqb_spec (mobs_killed (log_stats log)) (Z.of_nat (length mobs)));
    cbn [negb].
  2:{ right. split; [lia |].
      destruct (py_format_int_cases (mobs_killed (log_stats log)))
        as [[_ ->] | [Hlong ->]]; cbn; eauto. }
  unfold mbind, result_bind. rewrite py_int_lt_half.
  repeat match goal with
         | |- context [if ?a <? ?b then _ else _] =>
             destruct (Z.ltb_spec a b);
             [right; split; [lia | left; eexists; reflexivity] |]
         end.
  left. split; [lia | reflexivity].
Qed.

End ValidatorProperties.

(** C3: the battle log of a ten-second battle that reports
    [player_power = 2^1024], one kill and 120 damage, against a session
    with one monster of health 100, meets the six conditions, and
    [validate_battle_log] does not accept it: it raises [OverflowError]
    where [player_power * MIN_DAMAGE_PER_POWER] is computed, a product
    that nothing reads. The same log with the largest power that a double
    can hold is accepted. *)
Theorem validate_battle_log_overflow :
  plausible (ms_of_us 0) (sample_log (2 ^ 1024) 120) [mob_with_health 100]
  ∧ validate_battle_log ms_of_us (sample_log (2 ^ 1024) 120) 1 1
      [mob_with_health 100] 0 = Raise OverflowError
  ∧ validate_battle_log ms_of_us (sample_log (2 ^ 1024 - 2 ^ 970 - 1) 120) 1 1
      [mob_with_health 100] 0 = Ok (true, None).
Proof.
  split; [| split].
  - unfold plausible. rewrite half_le_iff.
    repeat split; try (vm_compute; intros H; discriminate H).
  - vm_compute. reflexivity.
  - vm_compute. reflexivity.
Qed.

(** ** Stage completion *)

(** *** What the commit stores *)

Lemma written_scalar (old new : Z) :
  default old (written (other_object old new)) = new.
Proof. cbn. destruct (decide (new = old)); cbn; congruence. Qed.

(** The JSON columns are written only when the column was null or empty,
    and then with the value that the handler computed. *)
Lemma written_inventory character session :
  default (inventory character) (written (assigned_inventory character session))
  = match inventory character with
    | Some _ => inventory character
    | None => inventory (apply_rewards character session)
    end.
Proof.
  unfold assigned_inventory.
  destruct (inventory character) eqn:Hi; [reflexivity |].
  unfold apply_rewards. destruct (apply_xp _ _ _) as [[? ?] ?]. reflexivity.
Qed.

Lemma written_progression character session :
  default (progression character)
    (written (assigned_progression character session))
  = if progression_is_truthy (progression character) then progression character
    else progression (apply_rewards character session).
Proof.
  unfold assigned_progression.
  destruct (progression_is_truthy (progression character)) eqn:Ht; [reflexivity |].
  unfold apply_rewards. destruct (apply_xp _ _ _) as [[? ?] ?].
  cbn [progression written].
  destruct (decide _) as [Heq | _]; [| reflexivity].
  rewrite <- Heq in Ht. discriminate Ht.
Qed.

(** The row of the character after the UPDATE of an accepted completion:
    the scalar columns are those of the object in memory. *)
Lemma stored_row character session :
  let stored := apply_update (character_update character session) character in
  let after := apply_rewards character session in
  user_id stored = user_id character
  ∧ char_name stored = char_name character
  ∧ character_class stored = character_class character
  ∧ char_stats stored = char_stats character
  ∧ level stored = level after
  ∧ char_xp stored = char_xp after
  ∧ power stored = power after
  ∧ char_gold stored = char_gold after
  ∧ char_gems stored = char_gems after
  ∧ free_stat_points stored = free_stat_points after
  ∧ inventory stored
    = match inventory character with
      | Some _ => inventory character
      | None => inventory after
      end
  ∧ progression stored
    = if progression_is_truthy (progression character)
      then progression character else progression after.
Proof.
  cbn zeta. unfold apply_update, character_update.
  cbn [user_id char_name character_class char_stats level char_xp power
       char_gold char_gems free_stat_points inventory progression
       set_level set_xp set_power set_gold set_gems set_free_stat_points
       set_inventory set_progression].
  rewrite !written_scalar, written_inventory, written_progression.
  repeat split; reflexivity.
Qed.

(** The scalar values of the object in memory. *)
Lemma apply_rewards_scalars character session :
  let after := apply_rewards character session in
  user_id after = user_id character
  ∧ char_gold after = char_gold character + gold (session_rewards session)
  ∧ char_gems after = char_gems character + gems (session_rewards session)
  ∧ char_xp after = char_xp character + xp (session_rewards session)
  ∧ inventory after
    = Some (add_items (inventory character) (items (session_rewards session)))
  ∧ progression after
    = Some (update_progression (progression character)
              (session_chapter session) (session_stage session)).
Proof. cbn zeta. unfold apply_rewards, apply_xp. cbn. auto 10. Qed.

Lemma alter_present {A} (f : A → A) (m : gmap string A) (k : string) (x : A) :
  m !! k = Some x → alter f k m = <[k := f x]> m.
Proof.
  intros Hk. apply map_eq. intros i.
  destruct (decide (i = k)) as [-> | Hne].
  - rewrite lookup_alter_eq, lookup_insert_eq, Hk. reflexivity.
  - rewrite lookup_alter_ne, lookup_insert_ne by congruence. reflexivity.
Qed.

(** A commit that succeeds writes the two rows that were loaded. *)
Lemma commit_rows db cid character session token used_now db' :
  characters db !! cid = Some character →
  battle_sessions db !! token = Some session →
  commit db cid (character_update character session) token used_now = Ok db' →
  update_fits (character_update character session) = true
  ∧ db' = {| characters :=
               <[cid := apply_update (character_update character session)
                          character]> (characters db);
             battle_sessions :=
               <[token := consume used_now session]> (battle_sessions db) |}.
Proof.
  intros Hc Hs. unfold commit.
  destruct (update_fits _); [| discriminate].
  intros [= <-]. split; [reflexivity |].
  rewrite (alter_present _ _ _ _ Hc), (alter_present _ _ _ _ Hs). reflexivity.
Qed.


Section ProgressionProperties.

Variable timestamp_ms : datetime → Z.
Variable calculate_suspicion_score : BattleLog → list MobConfig → result float.

Abbreviation complete := (complete_stage timestamp_ms calculate_suspicion_score).

(** Either nothing is committed, and a response is a refusal, or the five
    guards passed and the commit went through. *)
Lemma complete_stage_inv db now used_now current_user cid request out db' :
  complete db now used_now current_user cid request = (out, db') →
  (db' = db
   ∧ ∀ r, out = Response r →
       success r = false
       ∧ rewards r = None
       ∧ (already_completed r = true
          ∨ (already_completed r = false
             ∧ rejection_reason (error r)
             ∧ ∃ session,
                 battle_sessions db !! req_session_token request = Some session
                 ∧ is_used session = false)))
  ∨ (∃ character session,
       accepted timestamp_ms db now current_user cid request character session
       ∧ commit db cid (character_update character session)
           (req_session_token request) used_now = Ok db'
       ∧ match build_response session character with
         | Ok r => out = Response r
         | Raise e => out = Unhandled e
         end).
Proof.
  unfold complete_stage, get_character_for_user.
  destruct (characters db !! cid) as [character |] eqn:Hc;
    [| intros [= <- <-]; left; split; [reflexivity | discriminate]].
  destruct (String.eqb_spec (user_id character) current_user) as [Hu | Hu];
    [| intros [= <- <-]; left; split; [reflexivity | discriminate]].
  destruct (battle_sessions db !! req_session_token request) as [session |] eqn:Hs;
    [| intros [= <- <-]; left; split; [reflexivity | discriminate]].
  destruct (String.eqb_spec (character_id session) cid) as [Ho | Ho]; cbn [negb];
    [| intros [= <- <-]; left; split; [reflexivity | discriminate]].
  destruct (is_used session) eqn:Hused.
  { intros [= <- <-]. left. split; [reflexivity |].
    intros r [= <-]. cbn. auto. }
  destruct (is_expired now session) eqn:Hexp.
  { intros [= <- <-]. left. split; [reflexivity |].
    intros r [= <-]. cbn. do 2 (split; [reflexivity |]). right.
    split; [reflexivity |]. split; [left; reflexivity | eauto]. }
  destruct (Z.eqb_spec (session_chapter session) (req_chapter request)) as [Hch | Hch];
    cbn [negb orb];
    [| intros [= <- <-]; left; split; [reflexivity |];
       intros r [= <-]; cbn; do 2 (split; [reflexivity |]); right;
       split; [reflexivity |]; split; [right; left; reflexivity | eauto]].
  destruct (Z.eqb_spec (session_stage session) (req_stage request)) as [Hst | Hst];
    cbn [negb];
    [| intros [= <- <-]; left; split; [reflexivity |];
       intros r [= <-]; cbn; do 2 (split; [reflexivity |]); right;
       split; [reflexivity |]; split; [right; left; reflexivity | eauto]].
  destruct (validate_battle_log _ _ _ _ _ _) as [[[|] msg] | e] eqn:Hv.
  - destruct (commit _ _ _ _ _) as [db1 | e] eqn:Hcommit.
    + intros H. right. exists character, session. split.
      * constructor; eauto.
      * destruct (build_response session character); injection H as <- <-; auto.
    + intros [= <- <-]. left. split; [reflexivity | discriminate].
  - destruct (calculate_suspicion_score _ _);
      intros [= <- <-]; left; (split; [reflexivity |]); [| discriminate].
    intros r [= <-]. cbn. do 2 (split; [reflexivity |]). right.
    split; [reflexivity |]. split; [right; right; eauto | eauto].
  - intros [= <- <-]. left. split; [reflexivity | discriminate].
Qed.

Lemma build_response_success session character r :
  build_response session character = Ok r →
  success r = true
  ∧ already_completed r = false
  ∧ rewards r = Some {| rr_gold := gold (session_rewards session);
                        rr_gems := gems (session_rewards session);
                        rr_xp := xp (session_rewards session);
                        rr_items := items (session_rewards session) |}.
Proof.
  unfold build_response.
  destruct (apply_xp _ _ _) as [[? ?] ?].
  destruct (highest_chapter _); [| discriminate].
  destruct (highest_stage _); [| discriminate].
  destruct (completed_stages _); [| discriminate].
  intros [= <-]. cbn. auto.
Qed.

(** A response with [success = true] comes from the committing branch. *)
Lemma complete_stage_success db now used_now current_user cid request r db' :
  complete db now used_now current_user cid request = (Response r, db') →
  success r = true →
  ∃ character session,
    accepted timestamp_ms db now current_user cid request character session
    ∧ commit db cid (character_update character session)
        (req_session_token request) used_now = Ok db'
    ∧ build_response session character = Ok r.
Proof.
  intros H Hok. apply complete_stage_inv in H as [[_ Hrej] | Hacc].
  - destruct (Hrej r eq_refl) as [Hfalse _]. congruence.
  - destruct Hacc as (character & session & Ha & Hcommit & Hr).
    exists character, session. split; [assumption |]. split; [assumption |].
    destruct (build_response session character); congruence.
Qed.

(** The tables after a commit that succeeded. *)
Lemma accepted_commit db now used_now current_user cid request character
    session db' :
  accepted timestamp_ms db now current_user cid request character session →
  commit db cid (character_update character session)
    (req_session_token request) used_now = Ok db' →
  update_fits (character_update character session) = true
  ∧ db' = {| characters :=
               <[cid := apply_update (character_update character session)
                          character]> (characters db);
             battle_sessions :=
               <[req_session_token request := consume used_now session]>
                 (battle_sessions db) |}.
Proof.
  intros [Hc _ Hs _ _ _ _ _ _]. apply commit_rows; assumption.
Qed.

(** C2: a completion attempt that is answered with [success = false]
    commits nothing: the tables are as before, so the character's gold,
    gems, experience, level, inventory and progression are unchanged; when
    the reason is an expired session, a chapter/stage mismatch or a failed
    validation, the session is still there with [is_used = false] and the
    [used_at] it had. *)
Theorem rejection_mutates_nothing db now used_now current_user cid request r db' :
  complete db now used_now current_user cid request = (Response r, db') →
  success r = false →
  db' = db
  ∧ rewards r = None
  ∧ (already_completed r = true
     ∨ (already_completed r = false
        ∧ rejection_reason (error r)
        ∧ ∃ session,
            battle_sessions db !! req_session_token request = Some session
            ∧ battle_sessions db' !! req_session_token request = Some session
            ∧ is_used session = false)).
Proof.
  intros H Hfail. apply complete_stage_inv in H as [[-> Hrej] | Hacc].
  - destruct (Hrej r eq_refl) as (_ & Hrw & Hcases).
    split; [reflexivity |]. split; [assumption |].
    destruct Hcases as [| (Hno & Hwhy & session & Hs & Hunused)]; [auto |].
    right. eauto 10.
  - destruct Hacc as (character & session & _ & _ & Hr).
    destruct (build_response session character) as [r0 |] eqn:Hb; [| discriminate].
    injection Hr as <-.
    apply build_response_success in Hb as [? _]. congruence.
Qed.

(** The other refusals: an [HTTPException] commits nothing, and an
    exception that nothing catches either commits nothing or is the
    [KeyError] of the response after the commit. *)
Lemma refusal_commits_nothing db now used_now current_user cid request out db' :
  complete db now used_now current_user cid request = (out, db') →
  match out with
  | Response r => success r = false → db' = db
  | HTTPException _ _ => db' = db
  | Unhandled e =>
      db' = db
      ∨ ∃ character session,
          accepted timestamp_ms db now current_user cid request character session
          ∧ build_response session character = Raise e
  end.
Proof.
  intros H. pose proof H as H0.
  apply complete_stage_inv in H as [[-> _] | Hacc].
  - destruct out; auto.
  - destruct Hacc as (character & session & Ha & _ & Hr).
    destruct (build_response session character) as [r0 | e] eqn:Hb; subst out.
    + intros Hfail. apply build_response_success in Hb as [? _]. congruence.
    + right. eauto.
Qed.

Lemma record_completed_highest cp key :
  highest_chapter (record_completed cp key) = highest_chapter cp
  ∧ highest_stage (record_completed cp key) = highest_stage cp.
Proof. unfold record_completed. case_bool_decide; auto. Qed.


Lemma advance_highest_completed cp chapter stage :
  completed_stages (advance_highest cp chapter stage) = completed_stages cp.
Proof.
  unfold advance_highest.
  repeat match goal with |- context [if ?b then _ else _] => destruct b end;
    reflexivity.
Qed.



(** A row that has the two keys is truthy, so the commit leaves its
    [progression] column alone. *)
Lemma has_highest_truthy character :
  has_highest character → progression_is_truthy (progression character) = true.
Proof.
  intros (p & cp & hc & hs & -> & Hcp & _).
  destruct p as [[?|] [?|]]; cbn in *; congruence.
Qed.


(** *** Progression *)

Lemma advance_highest_last_stage cp chapter :
  chapter = (highest cp).1 → (highest cp).2 <= 10 →
  highest (advance_highest cp chapter 10) = (chapter + 1, 1).
Proof.
  unfold highest, advance_highest, STAGES_PER_CHAPTER. cbn [fst snd].
  intros -> Hs.
  rewrite Z.ltb_irrefl, Z.eqb_refl.
  destruct (Z.leb_spec (default 1 (highest_stage cp)) 10); [| lia].
  reflexivity.
Qed.

Lemma advance_highest_earlier_chapter cp chapter stage :
  chapter < (highest cp).1 → advance_highest cp chapter stage = cp.
Proof.
  unfold highest, advance_highest. cbn [fst]. intros Hlt.
  destruct (Z.ltb_spec (default 1 (highest_chapter cp)) chapter); [lia |].
  destruct (Z.eqb_spec chapter (default 1 (highest_chapter cp))); [lia |].
  reflexivity.
Qed.

(** A chapter beyond the highest one becomes the highest, with the stage
    that was completed. *)
Lemma advance_highest_later_chapter cp chapter stage :
  (highest cp).1 < chapter →
  highest (advance_highest cp chapter stage) = (chapter, stage).
Proof.
  unfold highest, advance_highest. cbn [fst]. intros Hlt.
  destruct (Z.ltb_spec (default 1 (highest_chapter cp)) chapter); [| lia].
  reflexivity.
Qed.

Lemma advance_highest_not_behind cp chapter stage :
  not_behind (highest cp) (highest (advance_highest cp chapter stage)).
Proof.
  unfold not_behind, highest, advance_highest, STAGES_PER_CHAPTER. cbn [fst snd].
  destruct (Z.ltb_spec (default 1 (highest_chapter cp)) chapter); cbn; [lia |].
  destruct (Z.eqb_spec chapter (default 1 (highest_chapter cp))); cbn; [| lia].
  destruct (Z.leb_spec (default 1 (highest_stage cp)) stage); cbn; [| lia].
  destruct (Z.eqb_spec stage 10); cbn; lia.
Qed.

Lemma record_completed_list cp key :
  completed (record_completed cp key)
  = if bool_decide (key ∈ completed cp) then completed cp
    else completed cp ++ [key].
Proof.
  unfold completed, record_completed. case_bool_decide; reflexivity.
Qed.

Lemma record_completed_elem cp key : key ∈ completed (record_completed cp key).
Proof.
  rewrite record_completed_list. case_bool_decide; [assumption |].
  apply elem_of_app. right. apply elem_of_cons. left. reflexivity.
Qed.

(** C4, amended: after an accepted completion of stage [s] of chapter [c],
    the progression that the handler has computed and returns in the
    response has the key ["c-s"] in [completed_stages] (appended if it was
    absent), its pair (highest_chapter, highest_stage) has not moved
    backward, and if [s = 10] and [c] is the character's current highest
    chapter, the pair is [(c + 1, 1)]; if [c] is below the current highest
    chapter (a replay), the pair is left as it was. *)
Theorem accepted_completion_progression db now used_now current_user cid request r db' :
  complete db now used_now current_user cid request = (Response r, db') →
  success r = true →
  ∃ character session after,
    characters db !! cid = Some character
    ∧ battle_sessions db !! req_session_token request = Some session
    ∧ after = update_chapters (progression character)
                (session_chapter session) (session_stage session)
    ∧ resp_progression r
      = Some {| pu_highest_chapter := (highest after).1;
                pu_highest_stage := (highest after).2;
                pu_completed_stages := completed after |}
    ∧ (session_stage session = 10 →
       session_chapter session = (highest (chapters_before character)).1 →
       (highest (chapters_before character)).2 <= 10 →
       highest after = (session_chapter session + 1, 1))
    ∧ (session_chapter session < (highest (chapters_before character)).1 →
       highest after = highest (chapters_before character))
    ∧ not_behind (highest (chapters_before character)) (highest after)
    ∧ stage_key (session_chapter session) (session_stage session) ∈ completed after
    ∧ completed after
      = if bool_decide (stage_key (session_chapter session) (session_stage session)
                        ∈ completed (chapters_before character))
        then completed (chapters_before character)
        else completed (chapters_before character)
             ++ [stage_key (session_chapter session) (session_stage session)].
Proof.
  intros H Hok.
  destruct (complete_stage_success _ _ _ _ _ _ _ _ H Hok)
    as (character & session & Ha & _ & Hb).
  destruct Ha as [Hc _ Hs _ _ _ _ _ _].
  set (key := stage_key (session_chapter session) (session_stage session)).
  set (after := update_chapters (progression character)
                  (session_chapter session) (session_stage session)).
  assert (Hafter : after = advance_highest
                     (record_completed (chapters_before character) key)
                     (session_chapter session) (session_stage session))
    by reflexivity.
  assert (Hhigh : ∀ cp, highest (record_completed cp key) = highest cp).
  { intros cp. unfold highest.
    destruct (record_completed_highest cp key) as [-> ->]. reflexivity. }
  assert (Hdone : completed after
                  = completed (record_completed (chapters_before character) key)).
  { unfold completed. rewrite Hafter, advance_highest_completed. reflexivity. }
  exists character, session, after.
  split; [assumption |]. split; [assumption |]. split; [reflexivity |].
  split.
  { unfold build_response in Hb. destruct (apply_xp _ _ _) as [[? ?] ?].
    fold after in Hb. unfold highest, completed.
    destruct (highest_chapter after); [| discriminate].
    destruct (highest_stage after); [| discriminate].
    destruct (completed_stages after); [| discriminate].
    injection Hb as <-. reflexivity. }
  split.
  { intros Hst Hch Hle. rewrite Hafter, Hst.
    apply advance_highest_last_stage; rewrite Hhigh; assumption. }
  split.
  { intros Hlt. rewrite Hafter, advance_highest_earlier_chapter;
      rewrite Hhigh; [reflexivity | assumption]. }
  split.
  { rewrite <- (Hhigh (chapters_before character)), Hafter.
    apply advance_highest_not_behind. }
  split.
  { rewrite Hdone. apply record_completed_elem. }
  rewrite Hdone. apply record_completed_list.
Qed.

End ProgressionProperties.

(** *** The handler on the sample data *)

(** C1: a character as [create_character] makes it completes stage 1-1
    for a session whose snapshot holds 150 gold, 1 gem, 500 experience and
    one item. The answer is [success = true] with these rewards, the
    session is marked used, and gold, gems, experience and level are
    stored; the item is not in the stored inventory and ["1-1"] is not in
    the stored progression, because the handler changed the two loaded
    dictionaries in place and the commit does not write a column whose
    value is the object it held. For a row whose [inventory] column is
    null the same request stores the item. A second request with the
    token is answered [already_completed = true] and changes nothing. *)
Theorem first_completion_loses_items :
  first_run.1 = Response first_response
  ∧ (∃ stored,
       characters first_run.2 !! "c1" = Some stored
       ∧ char_gold stored = 100 + 150
       ∧ char_gems stored = 10 + 1
       ∧ char_xp stored = 0 + 500
       ∧ level stored = 2
       ∧ inventory stored = Some {| inv_items := []; max_slots := 50 |}
       ∧ progression stored = progression (sample_character 1 1 []))
  ∧ is_used <$> battle_sessions first_run.2 !! "tok-1" = Some true
  ∧ null_inventory_run.1 = Response first_response
  ∧ inventory <$> characters null_inventory_run.2 !! "c1"
    = Some (Some {| inv_items := [sample_item]; max_slots := 50 |})
  ∧ complete_stage ms_of_us quiet_score first_run.2 40000000 40000001
      "u1" "c1" (sample_request 1)
    = (Response (failure true "Session already used"), first_run.2).
Proof.
  split; [vm_compute; reflexivity |].
  split.
  { eexists. split; [vm_compute; reflexivity |].
    repeat split; vm_compute; reflexivity. }
  repeat split; vm_compute; reflexivity.
Qed.

Lemma rejection_mutates_nothing_witness :
  expired_run = (Response (failure false "Session expired"), sample_db 1 1 [] 1)
  ∧ sample_db 1 1 [] 1 = sample_db 1 1 [] 1
  ∧ rewards (failure false "Session expired") = None
  ∧ (already_completed (failure false "Session expired") = true
     ∨ (already_completed (failure false "Session expired") = false
        ∧ (Some "Session expired" = Some "Session expired"
           ∨ Some "Session expired" = Some "Chapter/stage mismatch"
           ∨ ∃ why, Some "Session expired"
                    = Some ("Battle validation failed: " +:+ why))
        ∧ ∃ session,
            battle_sessions (sample_db 1 1 [] 1) !! "tok-1" = Some session
            ∧ battle_sessions (sample_db 1 1 [] 1) !! "tok-1" = Some session
            ∧ is_used session = false)).
Proof.
  split; [vm_compute; reflexivity |].
  apply (rejection_mutates_nothing ms_of_us quiet_score (sample_db 1 1 [] 1)
           700000000 700000001 "u1" "c1" (sample_request 1)
           (failure false "Session expired") (sample_db 1 1 [] 1));
    [vm_compute; reflexivity | reflexivity].
Defined.

Lemma accepted_completion_progression_witness :
  boss_run = (Response boss_response, boss_run.2)
  ∧ success boss_response = true
  ∧ ∃ character session after,
      characters (sample_db 1 9 (keys_of_chapter 1 9) 10) !! "c1" = Some character
      ∧ battle_sessions (sample_db 1 9 (keys_of_chapter 1 9) 10)
          !! req_session_token (sample_request 10) = Some session
      ∧ after = update_chapters (progression character)
                  (session_chapter session) (session_stage session)
      ∧ resp_progression boss_response
        = Some {| pu_highest_chapter := (highest after).1;
                  pu_highest_stage := (highest after).2;
                  pu_completed_stages := completed after |}
      ∧ (session_stage session = 10 →
         session_chapter session = (highest (chapters_before character)).1 →
         (highest (chapters_before character)).2 <= 10 →
         highest after = (session_chapter session + 1, 1))
      ∧ (session_chapter session < (highest (chapters_before character)).1 →
         highest after = highest (chapters_before character))
      ∧ not_behind (highest (chapters_before character)) (highest after)
      ∧ stage_key (session_chapter session) (session_stage session) ∈ completed after
      ∧ completed after
        = if bool_decide (stage_key (session_chapter session) (session_stage session)
                          ∈ completed (chapters_before character))
          then completed (chapters_before character)
          else completed (chapters_before character)
               ++ [stage_key (session_chapter session) (session_stage session)].
Proof.
  split; [vm_compute; reflexivity |]. split; [reflexivity |].
  apply (accepted_completion_progression ms_of_us quiet_score
           (sample_db 1 9 (keys_of_chapter 1 9) 10)
           30000000 30000001 "u1" "c1" (sample_request 10)
           boss_response boss_run.2);
    [vm_compute; reflexivity | reflexivity].
Defined.

(** The specification's statement fails on a replay: the completion of
    stage 10 of chapter 1 is accepted, and the progression that the
    response reports is still [(3, 4)], not [(1 + 1, 1)], as is the one
    in the row. *)
Lemma boss_replay_keeps_highest :
  session_chapter (sample_session 10) = 1
  ∧ session_stage (sample_session 10) = 10
  ∧ success <$> response_of replay_run.1 = Some true
  ∧ response_of replay_run.1 ≫= resp_progression
    = Some {| pu_highest_chapter := 3; pu_highest_stage := 4;
              pu_completed_stages := replay_done |}
  ∧ response_of replay_run.1 ≫= resp_progression
    ≠ Some {| pu_highest_chapter := 1 + 1; pu_highest_stage := 1;
              pu_completed_stages := replay_done |}
  ∧ (highest ∘ chapters_before) <$> characters replay_run.2 !! "c1" = Some (3, 4)
  ∧ ¬ ((highest ∘ chapters_before) <$> characters replay_run.2 !! "c1"
       = Some (1 + 1, 1)).
Proof.
  split; [reflexivity |]. split; [reflexivity |].
  split; [vm_compute; reflexivity |]. split; [vm_compute; reflexivity |].
  split; [intros H; vm_compute in H; discriminate H |].
  split; [vm_compute; reflexivity |].
  intros H. vm_compute in H. discriminate H.
Qed.

(** * Further properties *)

(** ** Levelling *)

Lemma calculate_level_interval total_xp :
  (calculate_level_from_xp total_xp = 1 ∧ total_xp < xp_for_level 2)
  ∨ (2 <= calculate_level_from_xp total_xp
     ∧ xp_for_level (calculate_level_from_xp total_xp) <= total_xp
     ∧ total_xp < xp_for_level (calculate_level_from_xp total_xp + 1)).
Proof.
  unfold calculate_level_from_xp.
  destruct (level_loop_runs total_xp 1) as (n & [Hg Hstop] & ->).
  destruct n as [| n].
  - left. split; [reflexivity |].
    replace (1 + Z.of_nat 0 + 1) with 2 in Hstop by lia. exact Hstop.
  - right. split; [lia |]. split; [| exact Hstop].
    specialize (Hg n ltac:(lia)).
    replace (1 + Z.of_nat (S n)) with (1 + Z.of_nat n + 1) by lia. exact Hg.
Qed.

(** X1: the level is a monotone function of the total experience. *)
Theorem calculate_level_from_xp_monotone (xp1 xp2 : Z) :
  xp1 <= xp2 → calculate_level_from_xp xp1 <= calculate_level_from_xp xp2.
Proof.
  intros Hle.
  destruct (calculate_level_largest xp1) as (H1 & _ & Hreach).
  destruct (calculate_level_largest xp2) as (H2 & Hmax & _).
  destruct Hreach as [Hr | [-> _]]; [| assumption].
  apply Hmax; [assumption | lia].
Qed.

Lemma calculate_level_from_xp_monotone_witness :
  calculate_level_from_xp 399 <= calculate_level_from_xp 400.
Proof. apply (calculate_level_from_xp_monotone 399 400). lia. Defined.

Lemma calculate_level_characterised (total_xp L : Z) :
  calculate_level_from_xp total_xp = L
  ↔ (L = 1 ∧ total_xp < 400)
    ∨ (2 <= L ∧ 100 * L ^ 2 <= total_xp < 100 * (L + 1) ^ 2).
Proof.
  pose proof (calculate_level_interval total_xp) as Hint.
  unfold xp_for_level in Hint.
  split.
  - intros <-. destruct Hint as [[-> Hlt] | (H2 & Hlo & Hhi)].
    + left. split; [reflexivity | lia].
    + right. split; [assumption |]. split; nia.
  - intros [[-> Hlt] | (H2 & Hlo & Hhi)].
    + destruct Hint as [[Heq _] | (Hge & Hlo & _)]; [assumption |].
      assert (100 * 2 * 2 <= 100 * calculate_level_from_xp total_xp
                             * calculate_level_from_xp total_xp) by nia.
      lia.
    + destruct Hint as [[Heq Hlt] | (Hge & Hlo' & Hhi')].
      * assert (100 * 2 * 2 <= 100 * L * L) by nia. nia.
      * set (K := calculate_level_from_xp total_xp) in *.
        destruct (Z.lt_trichotomy K L) as [Hlt | [Heq | Hgt]]; [| assumption |].
        -- assert (100 * (K + 1) * (K + 1) <= 100 * L * L) by nia. nia.
        -- assert (100 * (L + 1) * (L + 1) <= 100 * K * K) by nia. nia.
Qed.

(** X2: the level is [L] exactly on the interval
    [100 * L^2 <= xp < 100 * (L + 1)^2], and level 1 also covers every
    total below 100, negative ones included. *)
Theorem calculate_level_from_xp_iff (total_xp L : Z) :
  calculate_level_from_xp total_xp = L
  ↔ (L = 1 ∧ total_xp < 400)
    ∨ (2 <= L ∧ 100 * L ^ 2 <= total_xp < 100 * (L + 1) ^ 2).
Proof. apply calculate_level_characterised. Qed.

(** X3: the thresholds are sharp: the experience required for level [L]
    gives level [L], and one point less gives the level below. *)
Theorem level_of_threshold (L : Z) :
  1 <= L →
  calculate_level_from_xp (xp_for_level L) = L
  ∧ calculate_level_from_xp (xp_for_level L - 1) = Z.max 1 (L - 1).
Proof.
  intros HL. unfold xp_for_level. split.
  - apply calculate_level_characterised.
    destruct (Z.eq_dec L 1) as [-> | Hne]; [left; lia |].
    right. split; [lia |]. split; nia.
  - apply calculate_level_characterised.
    destruct (Z_le_gt_dec L 2) as [Hsmall | Hbig].
    + left. split; [lia |]. nia.
    + right. split; [lia |]. rewrite Z.max_r by lia. split; nia.
Qed.

Lemma level_of_threshold_witness :
  calculate_level_from_xp (xp_for_level 7) = 7
  ∧ calculate_level_from_xp (xp_for_level 7 - 1) = Z.max 1 (7 - 1).
Proof. apply (level_of_threshold 7). lia. Defined.

(** ** The completion handler and the two tables *)

Section HandlerProperties.

Variable timestamp_ms : datetime → Z.
Variable calculate_suspicion_score : BattleLog → list MobConfig → result float.

Abbreviation handle := (complete_stage timestamp_ms calculate_suspicion_score).

(** What one call does to the session table. *)
Lemma complete_stage_sessions db now used_now current_user cid request :
  let db' := (handle db now used_now current_user cid request).2 in
  battle_sessions db' = battle_sessions db
  ∨ ∃ session,
      battle_sessions db !! req_session_token request = Some session
      ∧ is_used session = false
      ∧ battle_sessions db'
        = <[req_session_token request := consume used_now session]>
            (battle_sessions db).
Proof.
  destruct (handle db now used_now current_user cid request) as [out db'] eqn:H.
  cbn. apply complete_stage_inv in H as [[-> _] | Hacc]; [left; reflexivity |].
  destruct Hacc as (character & session & Ha & Hcommit & _).
  destruct (accepted_commit _ _ _ _ _ _ _ _ _ _ Ha Hcommit) as [_ ->].
  destruct Ha as [_ _ Hs _ Hunused _ _ _ _].
  right. exists session. auto.
Qed.

Lemma complete_stage_characters db now used_now current_user cid request :
  let db' := (handle db now used_now current_user cid request).2 in
  characters db' = characters db
  ∨ ∃ character session,
      characters db !! cid = Some character
      ∧ battle_sessions db !! req_session_token request = Some session
      ∧ characters db'
        = <[cid := apply_update (character_update character session) character]>
            (characters db).
Proof.
  destruct (handle db now used_now current_user cid request) as [out db'] eqn:H.
  cbn. apply complete_stage_inv in H as [[-> _] | Hacc]; [left; reflexivity |].
  destruct Hacc as (character & session & Ha & Hcommit & _).
  destruct (accepted_commit _ _ _ _ _ _ _ _ _ _ Ha Hcommit) as [_ ->].
  destruct Ha as [Hc _ Hs _ _ _ _ _ _].
  right. exists character, session. auto.
Qed.

(** X4: a call never adds or deletes a row, and it leaves every
    character other than the requesting one and every session other than
    the one named by the token as they were. *)
Theorem complete_stage_frame db now used_now current_user cid request :
  let db' := (complete_stage timestamp_ms calculate_suspicion_score db now
      used_now current_user cid request).2 in
  dom (characters db') = dom (characters db)
  ∧ dom (battle_sessions db') = dom (battle_sessions db)
  ∧ (∀ other, other ≠ cid → characters db' !! other = characters db !! other)
  ∧ (∀ other, other ≠ req_session_token request →
       battle_sessions db' !! other = battle_sessions db !! other).
Proof.
  intros db'. subst db'.
  destruct (complete_stage_characters db now used_now current_user cid request)
    as [Hc | (character & session & Hc & _ & Hc')];
  destruct (complete_stage_sessions db now used_now current_user cid request)
    as [Hs | (session' & Hs & _ & Hs')].
  - rewrite Hc, Hs. auto.
  - rewrite Hc, Hs'. split; [reflexivity |]. split.
    + apply dom_insert_lookup_L. eauto.
    + split; [auto |]. intros other Hne. apply lookup_insert_ne. congruence.
  - rewrite Hc', Hs. split; [apply dom_insert_lookup_L; eauto |].
    split; [reflexivity |].
    split; [| auto]. intros other Hne. apply lookup_insert_ne. congruence.
  - rewrite Hc', Hs'. split; [apply dom_insert_lookup_L; eauto |].
    split; [apply dom_insert_lookup_L; eauto |].
    split; intros other Hne; apply lookup_insert_ne; congruence.
Qed.

(** What one call does to a session row. *)
Lemma complete_stage_session_row db now used_now current_user cid request
    token session :
  battle_sessions db !! token = Some session →
  ∃ session',
    battle_sessions (handle db now used_now current_user cid request).2 !! token
    = Some session'
    ∧ (session' = session
       ∨ (token = req_session_token request
          ∧ is_used session = false
          ∧ session' = consume used_now session)).
Proof.
  intros Hs.
  destruct (complete_stage_sessions db now used_now current_user cid request)
    as [-> | (s0 & Hs0 & Hunused & ->)].
  - exists session. auto.
  - destruct (decide (token = req_session_token request)) as [-> | Hne].
    + rewrite Hs0 in Hs. injection Hs as ->.
      exists (consume used_now session). rewrite lookup_insert_eq. auto.
    + exists session. rewrite lookup_insert_ne by congruence. auto.
Qed.

(** X5: a session row keeps what it was issued with (owner, chapter,
    stage, monsters, rewards, creation and expiry times) across any call,
    and once [is_used] is true the whole row, [used_at] included, is
    frozen; a row that is still unused after the call is the row as it
    was. *)
Theorem session_contract_is_kept db now used_now current_user cid request
    token session :
  battle_sessions db !! token = Some session →
  ∃ session',
    battle_sessions (complete_stage timestamp_ms calculate_suspicion_score db
        now used_now current_user cid request).2 !! token
    = Some session'
    ∧ same_contract session session'
    ∧ (is_used session = true → session' = session)
    ∧ (is_used session' = false → session' = session).
Proof.
  intros Hs.
  destruct (complete_stage_session_row db now used_now current_user cid request
              token session Hs) as (session' & Hs' & Hcase).
  exists session'. split; [assumption |].
  destruct Hcase as [-> | (_ & Hunused & ->)].
  - unfold same_contract. auto 10.
  - split; [unfold same_contract; cbn; auto 10 |].
    split; [congruence | cbn; discriminate].
Qed.

Lemma is_stage_unlocked_progression character character' :
  progression character' = progression character →
  ∀ chapter stage,
    is_stage_unlocked character' chapter stage
    = is_stage_unlocked character chapter stage.
Proof.
  intros Hp chapter stage. unfold is_stage_unlocked, get_completed_stages.
  rewrite Hp. reflexivity.
Qed.

(** The rows after a granted completion. *)
Lemma granted_rows db now used_now current_user cid request r db' :
  handle db now used_now current_user cid request = (Response r, db') →
  success r = true →
  ∃ character session,
    accepted timestamp_ms db now current_user cid request character session
    ∧ build_response session character = Ok r
    ∧ update_fits (character_update character session) = true
    ∧ db' = {| characters :=
                 <[cid := apply_update (character_update character session)
                            character]> (characters db);
               battle_sessions :=
                 <[req_session_token request := consume used_now session]>
                   (battle_sessions db) |}.
Proof.
  intros H Hsucc.
  apply complete_stage_success in H as (character & session & Ha & Hcommit & Hb);
    [| assumption].
  destruct (accepted_commit _ _ _ _ _ _ _ _ _ _ Ha Hcommit) as [Hfits ->].
  exists character, session. auto.
Qed.

(** X8: what a granted completion stores. The response carries the
    rewards of the session's snapshot; the session is marked used; gold,
    gems and experience are credited and the level follows the
    experience. Of the two JSON columns, each is written only if it was
    null or empty: an inventory or a progression that the row already
    holds, as every row made by [create_character] does, stays as it was,
    so the reward items are not in the stored inventory, the completed
    stage is not recorded and the same stages are unlocked as before. *)
Theorem granted_completion_stores db now used_now current_user cid request r db' :
  complete_stage timestamp_ms calculate_suspicion_score db now used_now
      current_user cid request = (Response r, db') →
  success r = true →
  ∃ character session stored,
    characters db !! cid = Some character
    ∧ battle_sessions db !! req_session_token request = Some session
    ∧ rewards r = Some {| rr_gold := gold (session_rewards session);
                          rr_gems := gems (session_rewards session);
                          rr_xp := xp (session_rewards session);
                          rr_items := items (session_rewards session) |}
    ∧ battle_sessions db' !! req_session_token request
      = Some (consume used_now session)
    ∧ characters db' !! cid = Some stored
    ∧ char_gold stored = char_gold character + gold (session_rewards session)
    ∧ char_gems stored = char_gems character + gems (session_rewards session)
    ∧ char_xp stored = char_xp character + xp (session_rewards session)
    ∧ level stored
      = Z.max (level character) (calculate_level_from_xp (char_xp stored))
    ∧ inventory stored
      = match inventory character with
        | Some _ => inventory character
        | None => Some (add_items None (items (session_rewards session)))
        end
    ∧ progression stored
      = (if progression_is_truthy (progression character)
         then progression character
         else Some (update_progression (progression character)
                      (session_chapter session) (session_stage session)))
    ∧ (progression_is_truthy (progression character) = true →
       ∀ chapter stage,
         is_stage_unlocked stored chapter stage
         = is_stage_unlocked character chapter stage).
Proof.
  intros H Hsucc.
  destruct (granted_rows _ _ _ _ _ _ _ _ H Hsucc)
    as (character & session & Ha & Hb & _ & ->).
  destruct Ha as [Hc _ Hs _ _ _ _ _ _].
  exists character, session,
    (apply_update (character_update character session) character).
  destruct (stored_row character session)
    as (_ & _ & _ & _ & Hlevel & Hxp & _ & Hgold & Hgems & _ & Hinv & Hprog).
  destruct (apply_rewards_scalars character session)
    as (_ & Hg & Hj & Hx & Hi & Hp).
  cbn zeta in *.
  split; [assumption |]. split; [assumption |].
  split; [apply (build_response_success _ _ _ Hb) |].
  split; [cbn; apply lookup_insert_eq |].
  split; [cbn; apply lookup_insert_eq |].
  split; [congruence |]. split; [congruence |]. split; [congruence |].
  split.
  { rewrite Hlevel, Hxp, Hx. unfold apply_rewards, apply_xp. cbn.
    destruct (level character
              <? calculate_level_from_xp
                   (char_xp character + xp (session_rewards session))) eqn:E;
      lia. }
  split.
  { rewrite Hinv. destruct (inventory character) eqn:Hi0; [reflexivity |].
    rewrite Hi. reflexivity. }
  split.
  { rewrite Hprog, Hp. reflexivity. }
  intros Htruthy. apply is_stage_unlocked_progression.
  rewrite Hprog, Htruthy. reflexivity.
Qed.

(** X7: after a granted completion, a request that carries the same
    token and is served next changes nothing and is not granted, whoever
    sends it and for whichever character; sent again by the same user for
    the same character, it is answered [success = false],
    [already_completed = true]. *)
Theorem second_completion_is_refused db now used_now current_user cid request r
    db' now2 used_now2 user2 cid2 request2 :
  complete_stage timestamp_ms calculate_suspicion_score db now used_now
      current_user cid request = (Response r, db') →
  success r = true →
  req_session_token request2 = req_session_token request →
  let second := complete_stage timestamp_ms calculate_suspicion_score db'
                  now2 used_now2 user2 cid2 request2 in
  second.2 = db'
  ∧ (∀ r2, second.1 = Response r2 → success r2 = false ∧ rewards r2 = None)
  ∧ (user2 = current_user → cid2 = cid →
     second.1 = Response (failure true "Session already used")).
Proof.
  intros H Hsucc Htoken. cbn zeta.
  destruct (granted_rows _ _ _ _ _ _ _ _ H Hsucc)
    as (character & session & Ha & _ & _ & ->).
  destruct Ha as [Hc Hu Hs Ho _ _ _ _ _].
  set (db' := {| characters := _; battle_sessions := _ |}).
  assert (Hused : ∀ s, battle_sessions db' !! req_session_token request2 = Some s →
                       is_used s = true).
  { intros s. subst db'. cbn. rewrite Htoken, lookup_insert_eq.
    intros [= <-]. reflexivity. }
  destruct (handle db' now2 used_now2 user2 cid2 request2) as [out db2] eqn:H2.
  cbn [fst snd].
  pose proof H2 as Hinv. apply complete_stage_inv in Hinv as [[-> Hrej] | Hacc].
  - split; [reflexivity |]. split.
    + intros r2 ->. destruct (Hrej r2 eq_refl) as (? & ? & _). auto.
    + intros -> ->. revert H2.
      unfold complete_stage, get_character_for_user. subst db'.
      cbn [characters battle_sessions].
      rewrite Htoken, !lookup_insert_eq.
      destruct (stored_row character session) as (-> & _). cbn zeta.
      rewrite Hu, String.eqb_refl.
      cbn [character_id consume is_used]. rewrite Ho, String.eqb_refl.
      cbn [negb]. intros [= <-]. reflexivity.
  - destruct Hacc as (ch2 & s2 & [_ _ Hs2 _ Hunused _ _ _ _] & _).
    apply Hused in Hs2. congruence.
Qed.




(** X9: a completion is granted only to the owner of the character, for
    a session of that character that is unused and unexpired, whose
    chapter and stage are those of the request and of the battle log, and
    whose monsters were all killed in a battle of 5 seconds to 10
    minutes. *)
Theorem success_requires db now used_now current_user cid request r db' :
  complete_stage timestamp_ms calculate_suspicion_score db now used_now
      current_user cid request = (Response r, db') →
  success r = true →
  ∃ character session,
    characters db !! cid = Some character
    ∧ user_id character = current_user
    ∧ battle_sessions db !! req_session_token request = Some session
    ∧ character_id session = cid
    ∧ is_valid now session = true
    ∧ req_chapter request = session_chapter session
    ∧ req_stage request = session_stage session
    ∧ log_chapter (battle_log request) = session_chapter session
    ∧ log_stage (battle_log request) = session_stage session
    ∧ mobs_killed (log_stats (battle_log request))
      = Z.of_nat (length (mob_config session))
    ∧ 5000 <= battle_end_time (battle_log request)
              - battle_start_time (battle_log request) <= 600000.
Proof.
  intros H Hsucc.
  apply complete_stage_success in H as (character & session & Ha & _);
    [| assumption].
  destruct Ha as [Hc Hu Hs Ho Hunused Halive Hch Hst [msg Hv]].
  exists character, session.
  repeat (split; [first [assumption | congruence] |]).
  split. { unfold is_valid. rewrite Hunused, Halive. reflexivity. }
  split; [congruence |]. split; [congruence |].
  revert Hv. unfold validate_battle_log.
  destruct (log_chapter (battle_log request) =? session_chapter session) eqn:E1;
    [| discriminate].
  destruct (log_stage (battle_log request) =? session_stage session) eqn:E2;
    [| discriminate].
  cbn [negb orb].
  unfold MIN_BATTLE_DURATION_MS, MAX_BATTLE_DURATION_MS.
  destruct (_ <? 5000) eqn:E3; [destruct (py_format_int _); discriminate |].
  destruct (600000 <? _) eqn:E4; [destruct (py_format_int _); discriminate |].
  destruct (_ <? timestamp_ms _ - 5000) eqn:E5; [discriminate |].
  destruct (mobs_killed _ =? _) eqn:E6;
    [| destruct (py_format_int _); discriminate].
  intros _. lia.
Qed.

(** X10: the only HTTP errors are 404 "Character not found", raised
    exactly when the character does not exist or belongs to another user
    (whatever the token), and 400 "Invalid session token", raised exactly
    when the character is the caller's and the token is unknown or names
    a session of another character; neither changes the tables. *)
Theorem complete_stage_http_errors db now used_now current_user cid request :
  let run := complete_stage timestamp_ms calculate_suspicion_score db now
      used_now current_user cid request in
  let owned := ∃ character,
    characters db !! cid = Some character ∧ user_id character = current_user in
  let issued := ∃ session,
    battle_sessions db !! req_session_token request = Some session
    ∧ character_id session = cid in
  (run.1 = HTTPException 404 "Character not found" ↔ ¬ owned)
  ∧ (run.1 = HTTPException 400 "Invalid session token" ↔ owned ∧ ¬ issued)
  ∧ (∀ code detail, run.1 = HTTPException code detail →
       run.2 = db
       ∧ ((code = 404 ∧ detail = "Character not found")
          ∨ (code = 400 ∧ detail = "Invalid session token"))).
Proof.
  cbn zeta. unfold complete_stage, get_character_for_user.
  destruct (characters db !! cid) as [character |] eqn:Hc.
  2:{ cbn. split; [| split].
      - split; [intros _ (ch & Hch & _); discriminate | reflexivity].
      - split; [discriminate | intros [(ch & Hch & _) _]; discriminate].
      - intros code detail [= <- <-]. auto. }
  destruct (String.eqb_spec (user_id character) current_user) as [Hu | Hu].
  2:{ cbn. split; [| split].
      - split; [intros _ (ch & [= <-] & Hch); contradiction | reflexivity].
      - split; [discriminate | intros [(ch & [= <-] & Hch) _]; contradiction].
      - intros code detail [= <- <-]. auto. }
  assert (Howned : ∃ ch, Some character = Some ch ∧ user_id ch = current_user)
    by eauto.
  destruct (battle_sessions db !! req_session_token request) as [session |] eqn:Hs.
  2:{ cbn. split; [| split].
      - split; [discriminate | intros Hn; contradiction].
      - split; [intros _; split; [assumption | intros (s & Hs' & _); discriminate]
               | reflexivity].
      - intros code detail [= <- <-]. auto. }
  destruct (String.eqb_spec (character_id session) cid) as [Ho | Ho]; cbn [negb].
  2:{ cbn. split; [| split].
      - split; [discriminate | intros Hn; contradiction].
      - split; [intros _; split; [assumption |
                  intros (s & [= <-] & Hs'); contradiction]
               | reflexivity].
      - intros code detail [= <- <-]. auto. }
  assert (Hissued : ∃ s, Some session = Some s ∧ character_id s = cid) by eauto.
  assert (Hnot : ∀ code detail,
    (handle db now used_now current_user cid request).1 ≠ HTTPException code detail).
  { intros code detail Heq.
    destruct (handle db now used_now current_user cid request) as [out db'] eqn:H.
    cbn in Heq. subst out.
    unfold complete_stage, get_character_for_user in H.
    rewrite Hc, Hs in H.
    destruct (String.eqb_spec (user_id character) current_user); [| contradiction].
    destruct (String.eqb_spec (character_id session) cid); [| contradiction].
    cbn [negb] in H.
    repeat match type of H with
           | (if ?b then _ else _) = _ => destruct b; [discriminate |]
           | (if ?b then _ else _) = _ => destruct b; [| discriminate]
           | match ?x with _ => _ end = _ => destruct x; try discriminate
           end. }
  unfold complete_stage, get_character_for_user in Hnot.
  rewrite Hc, Hs in Hnot.
  destruct (String.eqb_spec (user_id character) current_user); [| contradiction].
  destruct (String.eqb_spec (character_id session) cid); [| contradiction].
  cbn [negb] in Hnot.
  split; [| split].
  - split; [intros H; exfalso; exact (Hnot _ _ H) | intros Hn; contradiction].
  - split; [intros H; exfalso; exact (Hnot _ _ H) | intros [_ Hn]; contradiction].
  - intros code detail H. exfalso. exact (Hnot _ _ H).
Qed.


End HandlerProperties.

(** ** Rewards on the character row *)

(** X12: the level after a completion is the larger of the stored level
    and the level of the new experience total, so it never goes down; the
    character gets 5 stat points when the level rises, however many levels
    are gained at once, and none otherwise; the stored power is the power
    of the updated row and is at least 100. *)
Theorem apply_rewards_level character session :
  let character' := apply_rewards character session in
  level character'
  = Z.max (level character)
      (calculate_level_from_xp (char_xp character + xp (session_rewards session)))
  ∧ free_stat_points character'
    = free_stat_points character
      + (if level character <? level character' then 5 else 0)
  ∧ power character' = calculate_power character'
  ∧ 100 <= power character'.
Proof.
  cbn zeta. unfold apply_rewards, apply_xp. cbn.
  destruct (level character
            <? calculate_level_from_xp
                 (char_xp character + xp (session_rewards session))) eqn:E.
  - split; [lia |]. rewrite E. split; [reflexivity |].
    split; [reflexivity |]. unfold calculate_power. lia.
  - split; [lia |]. rewrite Z.ltb_irrefl. split; [lia |].
    split; [reflexivity |]. unfold calculate_power. lia.
Qed.

Lemma fold_add_item new : ∀ inv,
  inv_items (fold_left add_item new inv)
  = inv_items inv
    ++ take (Z.to_nat (max_slots inv - Z.of_nat (length (inv_items inv)))) new
  ∧ max_slots (fold_left add_item new inv) = max_slots inv.
Proof.
  induction new as [| item new IH]; intros inv; cbn [fold_left].
  - rewrite take_nil, app_nil_r. auto.
  - destruct (IH (add_item inv item)) as [-> ->].
    unfold add_item.
    destruct (Z.of_nat (length (inv_items inv)) <? max_slots inv) eqn:E; cbn.
    + split; [| reflexivity].
      rewrite length_app. cbn.
      replace (Z.to_nat (max_slots inv - Z.of_nat (length (inv_items inv))))
        with (S (Z.to_nat (max_slots inv
                           - Z.of_nat (length (inv_items inv) + 1)))) by lia.
      cbn. rewrite <- app_assoc. reflexivity.
    + split; [| reflexivity].
      replace (Z.to_nat (max_slots inv - Z.of_nat (length (inv_items inv))))
        with 0%nat by lia.
      reflexivity.
Qed.

(** X13: the reward items go to the free slots of the inventory, in
    order, and the ones that do not fit are dropped without an error; the
    items already held and [max_slots] are kept, also when the inventory
    is over its limit. A null inventory counts as empty with 50 slots. *)
Theorem add_items_fills_free_slots inv new_items :
  let old := default {| inv_items := []; max_slots := 50 |} inv in
  let free := Z.to_nat (max_slots old - Z.of_nat (length (inv_items old))) in
  inv_items (add_items inv new_items) = inv_items old ++ take free new_items
  ∧ max_slots (add_items inv new_items) = max_slots old
  ∧ length (inv_items (add_items inv new_items))
    = (length (inv_items old) + min free (length new_items))%nat.
Proof.
  cbn zeta. unfold add_items.
  destruct inv as [i |]; cbn [default from_option id];
    (match goal with |- context [fold_left add_item new_items ?i] =>
       destruct (fold_add_item new_items i) as [-> ->] end);
    (split; [reflexivity |]; split; [reflexivity |]);
    rewrite length_app, length_take; reflexivity.
Qed.

(** ** The validator on every input *)

Section ValidatorOutcomes.

Variable timestamp_ms : datetime → Z.

(** Closes a case in which the verdict is known. *)
Ltac verdict_case :=
  repeat match goal with
         | |- _ ∧ _ => split
         | |- _ ↔ _ => split
         | |- ∀ _, _ => intro
         | |- _ → _ => intro
         | H : _ ∧ _ |- _ => destruct H
         | H : _ ∨ _ |- _ => destruct H
         | H : Ok _ = Ok _ |- _ => injection H as H; subst
         | H : (_, _) = (_, _) |- _ => injection H as H; subst
         | H : Raise _ = Raise _ |- _ => injection H as H; subst
         | H : Ok _ = Raise _ |- _ => discriminate H
         | H : Raise _ = Ok _ |- _ => discriminate H
         | H : OverflowError = ValueError |- _ => discriminate H
         | H : ValueError = OverflowError |- _ => discriminate H
         | H : true = false |- _ => discriminate H
         | H : false = true |- _ => discriminate H
         end;
  try first [ reflexivity | assumption | contradiction | lia
            | (eexists; reflexivity) | (left; reflexivity)
            | (right; reflexivity) | (exfalso; lia)
            | (exfalso; congruence) ].

(** X14: the verdict on every input. A log is accepted only if its
    chapter and stage are the expected ones, the battle lasted 5 seconds
    to 10 minutes, started no earlier than 5 seconds before the session,
    killed every monster, dealt at least half of the summed health as a
    double holds it and at most 5000 damage per power, and reports its
    duration within one second. A rejection always carries a reason.
    There are two exceptions: [ValueError], raised exactly when the
    reason would quote a duration or a kill count of more than 4300
    digits, and [OverflowError], raised exactly when the first four checks
    pass and the power or the summed health is beyond the range of a
    double. *)
Theorem validate_battle_log_outcomes (log : BattleLog)
    (expected_chapter expected_stage : Z) (mobs : list MobConfig)
    (created : datetime) :
  let verdict := validate_battle_log timestamp_ms log expected_chapter
                   expected_stage mobs created in
  let duration := battle_end_time log - battle_start_time log in
  let kills := mobs_killed (log_stats log) in
  let dealt := total_damage_dealt (log_stats log) in
  let matching :=
    log_chapter log = expected_chapter ∧ log_stage log = expected_stage in
  let early :=
    matching ∧ 5000 <= duration <= 600000
    ∧ timestamp_ms created - 5000 <= battle_start_time log
    ∧ kills = Z.of_nat (length mobs) in
  (∀ msg, verdict = Ok (true, msg) →
     msg = None ∧ early
     ∧ round_to_double (list_sum (health <$> mobs)) <= 2 * dealt
     ∧ dealt <= 5000 * player_power log
     ∧ Z.abs (duration_ms (log_stats log) - duration) <= 1000)
  ∧ (∀ msg, verdict = Ok (false, msg) → ∃ reason, msg = Some reason)
  ∧ (verdict = Raise ValueError
     ↔ matching
       ∧ ((¬ 5000 <= duration <= 600000
           ∧ 10 ^ int_max_str_digits <= Z.abs duration)
          ∨ (5000 <= duration <= 600000
             ∧ timestamp_ms created - 5000 <= battle_start_time log
             ∧ kills ≠ Z.of_nat (length mobs)
             ∧ 10 ^ int_max_str_digits <= Z.abs kills)))
  ∧ (verdict = Raise OverflowError
     ↔ early
       ∧ (double_overflow_threshold <= Z.abs (player_power log)
          ∨ double_overflow_threshold <= Z.abs (list_sum (health <$> mobs))))
  ∧ (∀ e, verdict = Raise e → e = ValueError ∨ e = OverflowError).
Proof.
  cbn zeta. unfold validate_battle_log.
  unfold MIN_BATTLE_DURATION_MS, MAX_BATTLE_DURATION_MS, MAX_DAMAGE_PER_POWER.
  set (duration := battle_end_time log - battle_start_time log).
  set (kills := mobs_killed (log_stats log)).
  set (dealt := total_damage_dealt (log_stats log)).
  assert (Hlimit : 0 < 10 ^ int_max_str_digits)
    by (apply Z.pow_pos_nonneg; unfold int_max_str_digits; lia).
  destruct (Z.eqb_spec (log_chapter log) expected_chapter) as [E1 | E1];
    cbn [negb orb]; [| verdict_case].
  destruct (Z.eqb_spec (log_stage log) expected_stage) as [E2 | E2];
    cbn [negb]; [| verdict_case].
  destruct (Z.ltb_spec duration 5000) as [E3 | E3].
  { destruct (py_format_int_cases duration) as [[Hd ->] | [Hd ->]];
      cbn [mbind result_bind]; verdict_case;
      try (left; split; lia). }
  destruct (Z.ltb_spec 600000 duration) as [E4 | E4].
  { destruct (py_format_int_cases duration) as [[Hd ->] | [Hd ->]];
      cbn [mbind result_bind]; verdict_case;
      try (left; split; lia). }
  destruct (Z.ltb_spec (battle_start_time log) (timestamp_ms created - 5000))
    as [E5 | E5]; [verdict_case |].
  destruct (Z.eqb_spec kills (Z.of_nat (length mobs))) as [E6 | E6]; cbn [negb].
  2:{ destruct (py_format_int_cases kills) as [[Hk ->] | [Hk ->]];
        cbn [mbind result_bind]; verdict_case;
        try (right; repeat split; first [assumption | lia]). }
  unfold py_int_mul_half, py_float_of_int_value.
  destruct (Z.leb_spec double_overflow_threshold (Z.abs (player_power log)))
    as [E7 | E7]; cbn [mbind result_bind]; [verdict_case |].
  destruct (Z.leb_spec double_overflow_threshold
              (Z.abs (list_sum (health <$> mobs)))) as [E8 | E8];
    cbn [mbind result_bind]; [verdict_case |].
  rewrite py_int_lt_half.
  destruct (Z.ltb_spec (2 * dealt) (round_to_double (list_sum (health <$> mobs))))
    as [E9 | E9]; [verdict_case |].
  destruct (Z.ltb_spec (player_power log * 50 * 100) dealt) as [E10 | E10];
    [verdict_case |].
  destruct (Z.ltb_spec 1000 (Z.abs (duration_ms (log_stats log) - duration)))
    as [E11 | E11]; verdict_case.
Qed.

(** X30: for a battle log whose chapter and stage are the session's,
    whose [player_power] a double can hold (magnitude below
    [2^1024 - 2^970]) and against monsters whose summed health a double
    holds exactly (magnitude at most [2^53]), the log is accepted if and
    only if the six conditions hold: duration of 5 seconds to 10 minutes,
    start no earlier than 5 seconds before the session, every monster
    killed, damage of at least half the summed health and at most 5000
    per power, and reported duration within one second. Otherwise it is
    rejected with a reason, or the number that the reason would quote is
    too long and [ValueError] is raised. *)
Theorem validate_battle_log_spec (log : BattleLog) (expected_chapter expected_stage : Z)
    (mobs : list MobConfig) (created : datetime) :
  log_chapter log = expected_chapter →
  log_stage log = expected_stage →
  Z.abs (player_power log) < 2 ^ 1024 - 2 ^ 970 →
  Z.abs (list_sum (health <$> mobs)) <= 2 ^ 53 →
  let verdict := validate_battle_log timestamp_ms log expected_chapter
                   expected_stage mobs created in
  (verdict = Ok (true, None) ↔ plausible (timestamp_ms created) log mobs)
  ∧ (¬ plausible (timestamp_ms created) log mobs →
     (∃ reason, verdict = Ok (false, Some reason))
     ∨ (verdict = Raise ValueError
        ∧ (10 ^ int_max_str_digits
           <= Z.abs (battle_end_time log - battle_start_time log)
           ∨ 10 ^ int_max_str_digits <= Z.abs (mobs_killed (log_stats log))))).
Proof.
  intros <- <- Hpower Hhealth. cbn zeta.
  destruct (validate_battle_log_decides timestamp_ms log mobs created Hpower
              Hhealth) as [[Hp Hv] | [Hnp Hv]].
  - rewrite Hv. split; [tauto | contradiction].
  - split.
    + split; [| contradiction].
      destruct Hv as [[reason Hv] | [Hv _]]; rewrite Hv; discriminate.
    + intros _. exact Hv.
Qed.

End ValidatorOutcomes.

(** ** Stage keys *)

Lemma all_digits_uint (d : Decimal.uint) :
  all_digits (NilEmpty.string_of_uint d) = true.
Proof. induction d; cbn; auto. Qed.

Lemma string_of_uint_nonempty (d : Decimal.uint) :
  d ≠ Decimal.Nil → NilEmpty.string_of_uint d ≠ "".
Proof. destruct d; cbn; congruence. Qed.

(** [str(n)] is a non-empty run of digits, after a minus sign when [n]
    is negative. *)
Lemma py_str_shape (n : Z) :
  ∃ d, all_digits d = true ∧ d ≠ ""
       ∧ py_str n = (if n <? 0 then "-" else "") +:+ d.
Proof.
  unfold py_str. destruct n as [| p | p]; cbn.
  - exists "0". auto.
  - exists (NilEmpty.string_of_uint (Pos.to_uint p)).
    split; [apply all_digits_uint |].
    pose proof (DecimalPos.Unsigned.to_uint_nonnil p) as Hn.
    split; [apply string_of_uint_nonempty; assumption |].
    unfold NilZero.string_of_uint.
    destruct (Pos.to_uint p); first [reflexivity | exfalso; apply Hn; reflexivity].
  - exists (NilEmpty.string_of_uint (Pos.to_uint p)).
    split; [apply all_digits_uint |].
    pose proof (DecimalPos.Unsigned.to_uint_nonnil p) as Hn.
    split; [apply string_of_uint_nonempty; assumption |].
    unfold NilZero.string_of_uint.
    destruct (Pos.to_uint p); first [reflexivity | exfalso; apply Hn; reflexivity].
Qed.

Lemma py_str_inj (a b : Z) : py_str a = py_str b → a = b.
Proof.
  unfold py_str. intros H. apply DecimalZ.to_int_inj.
  assert (Hnn : ∀ n, Z.to_int n ≠ Decimal.Pos Decimal.Nil
                     ∧ Z.to_int n ≠ Decimal.Neg Decimal.Nil).
  { intros [| p | p]; cbn; split; try discriminate;
      intros [= Hp]; exact (DecimalPos.Unsigned.to_uint_nonnil p Hp). }
  destruct (Hnn a) as [Ha1 Ha2]. destruct (Hnn b) as [Hb1 Hb2].
  pose proof (NilZero.isi _ Ha1 Ha2) as Ia.
  pose proof (NilZero.isi _ Hb1 Hb2) as Ib.
  rewrite H in Ia. congruence.
Qed.

(** Two strings that begin with a run of digits followed by a character
    that is not a digit agree on the run and on the rest. *)
Lemma digit_run_split (a : string) : ∀ a' x x' r r',
  all_digits a = true → all_digits a' = true →
  is_digit x = false → is_digit x' = false →
  a +:+ String x r = a' +:+ String x' r' →
  a = a' ∧ x = x' ∧ r = r'.
Proof.
  induction a as [| c a IH]; intros [| c' a'] x x' r r' Ha Ha' Hx Hx'; cbn.
  - intros [= -> ->]. auto.
  - intros [= -> _]. cbn in Ha'. apply andb_prop in Ha' as [Hc _]. congruence.
  - intros [= -> _]. cbn in Ha. apply andb_prop in Ha as [Hc _]. congruence.
  - intros [= -> H]. cbn in Ha, Ha'.
    apply andb_prop in Ha as [_ Ha]. apply andb_prop in Ha' as [_ Ha'].
    destruct (IH a' x x' r r' Ha Ha' Hx Hx' H) as (-> & -> & ->). auto.
Qed.

Lemma signed_run_split (n n' : Z) (x x' : Ascii.ascii) (r r' : string) :
  is_digit x = false → is_digit x' = false →
  py_str n +:+ String x r = py_str n' +:+ String x' r' →
  n = n' ∧ x = x' ∧ r = r'.
Proof.
  intros Hx Hx'.
  destruct (py_str_shape n) as (d & Hd & Hne & En).
  destruct (py_str_shape n') as (d' & Hd' & Hne' & En').
  intros H.
  assert (Hgoal : py_str n = py_str n' ∧ x = x' ∧ r = r').
  { rewrite En, En' in H |- *.
    destruct (n <? 0), (n' <? 0); cbn in H |- *.
    - injection H as H.
      destruct (digit_run_split _ _ _ _ _ _ Hd Hd' Hx Hx' H) as (-> & -> & ->).
      auto.
    - destruct d' as [| c' d']; [congruence |]. cbn in H, Hd'.
      injection H as <- _. cbn in Hd'. discriminate.
    - destruct d as [| c d]; [congruence |]. cbn in H, Hd.
      injection H as -> _. cbn in Hd. discriminate.
    - destruct (digit_run_split _ _ _ _ _ _ Hd Hd' Hx Hx' H) as (-> & -> & ->).
      auto. }
  destruct Hgoal as (Hn & -> & ->). apply py_str_inj in Hn. auto.
Qed.

Lemma stage_key_eq (chapter stage chapter' stage' : Z) :
  stage_key chapter stage = stage_key chapter' stage' ↔
  chapter = chapter' ∧ stage = stage'.
Proof.
  split; [| intros [-> ->]; reflexivity].
  unfold stage_key. intros H.
  apply signed_run_split in H as (-> & _ & H); [| reflexivity | reflexivity].
  apply py_str_inj in H. auto.
Qed.

(** X15: the key ["c-s"] determines the chapter and the stage, for all
    integers, negative ones included: two different stages never share a
    key. *)
Theorem stage_key_inj (chapter stage chapter' stage' : Z) :
  stage_key chapter stage = stage_key chapter' stage' ↔
  chapter = chapter' ∧ stage = stage'.
Proof. apply stage_key_eq. Qed.

Lemma prefix_spec (p : string) : ∀ s,
  String.prefix p s = true ↔ ∃ r, s = p +:+ r.
Proof.
  induction p as [| a p IH]; intros s.
  - destruct s; cbn; split; eauto.
  - destruct s as [| b s]; cbn; [split; [discriminate | intros [r [=]]] |].
    destruct (Ascii.ascii_dec a b) as [-> | Hne].
    + rewrite IH. split; intros [r Hr]; exists r;
        [rewrite Hr; reflexivity | injection Hr as Hr; exact Hr].
    + split; [discriminate | intros [r Hr]; injection Hr as Hr _; congruence].
Qed.

Lemma string_app_assoc (a b c : string) : (a +:+ b) +:+ c = a +:+ (b +:+ c).
Proof.
  induction a as [| x a IH]; [reflexivity |].
  change (String x ((a +:+ b) +:+ c) = String x (a +:+ (b +:+ c))).
  rewrite IH. reflexivity.
Qed.

(** A key begins with ["ch-"] exactly when it is a key of chapter [ch]. *)
Lemma prefix_stage_key (ch chapter stage : Z) :
  String.prefix (py_str ch +:+ "-") (stage_key chapter stage) = true ↔ chapter = ch.
Proof.
  rewrite prefix_spec. unfold stage_key. split.
  - intros [r Hr]. rewrite string_app_assoc in Hr. cbn in Hr.
    apply signed_run_split in Hr as (-> & _); reflexivity.
  - intros ->. exists (py_str stage). rewrite string_app_assoc. reflexivity.
Qed.

Lemma py_str_not_miniboss (n : Z) : py_str n ≠ "5 (Mini-Boss)".
Proof.
  destruct (py_str_shape n) as (d & Hd & _ & ->).
  destruct (n <? 0); cbn; [discriminate |].
  intros H. change (d = "5 (Mini-Boss)") in H. subst d.
  vm_compute in Hd. discriminate.
Qed.

(** X16: two different stages never share a name: the name of a stage
    determines its chapter and its stage. *)
Theorem get_stage_name_inj (chapter stage chapter' stage' : Z) :
  get_stage_name chapter stage = get_stage_name chapter' stage' ↔
  chapter = chapter' ∧ stage = stage'.
Proof.
  split; [| intros [-> ->]; reflexivity].
  unfold get_stage_name.
  destruct (Z.eqb_spec stage 10) as [-> | H10];
    destruct (Z.eqb_spec stage' 10) as [-> | H10'].
  - intros [= H]. apply signed_run_split in H as (-> & _); auto.
  - destruct (stage' =? 5); intros [= H];
      apply signed_run_split in H as (_ & [=] & _); reflexivity.
  - destruct (stage =? 5); intros [= H];
      apply signed_run_split in H as (_ & [=] & _); reflexivity.
  - destruct (Z.eqb_spec stage 5) as [-> | H5];
      destruct (Z.eqb_spec stage' 5) as [-> | H5'].
    + intros [= H]. apply signed_run_split in H as (-> & _); auto.
    + intros [= H]. apply signed_run_split in H as (_ & _ & H); try reflexivity.
      symmetry in H. apply py_str_not_miniboss in H. destruct H.
    + intros [= H]. apply signed_run_split in H as (_ & _ & H); try reflexivity.
      apply py_str_not_miniboss in H. destruct H.
    + intros [= H]. fold (stage_key chapter stage) in H.
      fold (stage_key chapter' stage') in H. apply stage_key_eq in H. exact H.
Qed.

Lemma count_chapter_keys (ch : Z) (stages : list (Z * Z)) :
  length (filter (λ s, String.prefix (py_str ch +:+ "-") s = true)
            ((λ p, stage_key p.1 p.2) <$> stages))
  = length (filter (λ p, p.1 = ch) stages).
Proof.
  induction stages as [| [c s] stages IH]; [reflexivity |].
  cbn [fmap list_fmap fst snd].
  destruct (decide (c = ch)) as [-> | Hne].
  - rewrite filter_cons_True by (apply prefix_stage_key; reflexivity).
    rewrite (filter_cons_True (λ p : Z * Z, p.1 = ch)) by reflexivity.
    cbn. f_equal. exact IH.
  - rewrite filter_cons_False by (rewrite prefix_stage_key; exact Hne).
    rewrite (filter_cons_False (λ p : Z * Z, p.1 = ch)) by exact Hne.
    exact IH.
Qed.

(** X17: the chapter list has one entry for each of the chapters 1 to
    20, in order; the number of completed stages that an entry reports,
    which is counted by the prefix ["ch-"], is exactly the number of
    completed stages of that chapter (chapter 1 does not count the stages
    of chapters 10 to 19); and the unlocked chapters are an initial
    segment: below an unlocked chapter every chapter is unlocked. *)
Theorem get_chapter_progress_chapters db current_user cid r :
  get_chapter_progress db current_user cid = Body r →
  length (cpr_chapters r) = 20%nat
  ∧ ∀ ch, 1 <= ch <= 20 →
      ∃ info,
        cpr_chapters r !! Z.to_nat (ch - 1) = Some info
        ∧ ci_chapter info = ch
        ∧ (∀ stages : list (Z * Z),
             cpr_completed_stages r = (λ p, stage_key p.1 p.2) <$> stages →
             ci_stages_completed info
             = Z.of_nat (length (filter (λ p, p.1 = ch) stages)))
        ∧ (ci_is_unlocked info = true →
           ∀ ch', 1 <= ch' <= ch →
             ∃ info', cpr_chapters r !! Z.to_nat (ch' - 1) = Some info'
                      ∧ ci_is_unlocked info' = true).
Proof.
  unfold get_chapter_progress.
  destruct (get_character_for_user db cid current_user) as [character |];
    [| discriminate].
  intros [= <-]. cbn [cpr_chapters cpr_completed_stages].
  set (hc := default 1 (highest_chapter _)).
  set (done := default [] (completed_stages _)).
  split; [reflexivity |].
  assert (Hlookup : ∀ ch, 1 <= ch <= 20 →
            (chapter_info hc done <$> seqZ 1 TOTAL_CHAPTERS) !! Z.to_nat (ch - 1)
            = Some (chapter_info hc done ch)).
  { intros ch Hch. rewrite list_lookup_fmap.
    rewrite (lookup_seqZ_lt 1 TOTAL_CHAPTERS (Z.to_nat (ch - 1)))
      by (unfold TOTAL_CHAPTERS; lia).
    cbn. f_equal. f_equal. lia. }
  intros ch Hch. exists (chapter_info hc done ch).
  split; [apply Hlookup; assumption |]. split; [reflexivity |]. split.
  - intros stages Hstages. cbn. rewrite Hstages, count_chapter_keys. reflexivity.
  - intros Hun ch' Hch'. exists (chapter_info hc done ch').
    split; [apply Hlookup; lia |].
    cbn in Hun |- *.
    destruct (Z.eq_dec ch' ch) as [-> | Hne]; [exact Hun |].
    apply orb_true_iff. left. apply Z.leb_le.
    apply orb_true_iff in Hun as [Hle | Hnext].
    + apply Z.leb_le in Hle. lia.
    + apply andb_true_iff in Hnext as [Heq _]. apply Z.eqb_eq in Heq. lia.
Qed.

(** ** The stage generator *)

(** One turn of the loop of a regular stage. *)
Lemma regular_mobs_step n theme d chapter acc w :
  regular_mobs (S n) theme d chapter acc w
  = match theme !! (random_draws w (random_pos w) mod length theme)%nat with
    | None => (Raise IndexError, w)
    | Some mob_id =>
        let w1 := {| heap := heap w; random_draws := random_draws w;
                     random_pos := S (random_pos w) |} in
        match dict_get MOB_TEMPLATES mob_id with
        | Raise e => (Raise e, w1)
        | Ok l =>
            match heap w !! l with
            | None => (Raise (KeyError "<dangling reference>"), w1)
            | Some t =>
                match mob_of_template mob_id t d chapter with
                | Raise e => (Raise e, w1)
                | Ok m => regular_mobs n theme d chapter (acc ++ [m]) w1
                end
            end
        end
    end.
Proof.
  cbn [regular_mobs]. unfold mbind, M_bind, random_choice.
  destruct (theme !! _) as [mob_id |]; [| reflexivity].
  unfold lift. destruct (dict_get MOB_TEMPLATES mob_id) as [l | e]; [| reflexivity].
  unfold generate_mob, mbind, M_bind, deref. cbn [heap].
  destruct (heap w !! l) as [t |]; [| reflexivity].
  unfold lift. destruct (mob_of_template mob_id t d chapter); reflexivity.
Qed.

Lemma mob_of_template_id id t d chapter m :
  mob_of_template id t d chapter = Ok m → mob_id m = id.
Proof.
  unfold mob_of_template, mbind, result_bind.
  repeat (match goal with
          | |- match ?x with _ => _ end = _ → _ => destruct x; [| discriminate]
          end).
  intros [= <-]. reflexivity.
Qed.

Lemma regular_mobs_run n theme d chapter : ∀ acc w mobs w',
  regular_mobs n theme d chapter acc w = (Ok mobs, w') →
  heap w' = heap w
  ∧ random_draws w' = random_draws w
  ∧ random_pos w' = (random_pos w + n)%nat
  ∧ ∃ new, mobs = acc ++ new ∧ length new = n
           ∧ Forall (drawn_from theme (heap w) d chapter) new.
Proof.
  induction n as [| n IH]; intros acc w mobs w'.
  - cbn. intros [= <- <-]. repeat split; [lia |].
    exists []. rewrite app_nil_r. auto.
  - rewrite regular_mobs_step.
    destruct (theme !! _) as [mob_id |] eqn:Hid; [| discriminate].
    destruct (dict_get MOB_TEMPLATES mob_id) as [l |] eqn:Hl; [| discriminate].
    destruct (heap w !! l) as [t |] eqn:Ht; [| discriminate].
    destruct (mob_of_template mob_id t d chapter) as [m |] eqn:Hm; [| discriminate].
    cbn zeta. intros H. apply IH in H as (Hh & Hd & Hp & new & -> & Hlen & Hall).
    cbn in Hh, Hd, Hp, Hall.
    split; [assumption |]. split; [assumption |]. split; [lia |].
    exists (m :: new). rewrite <- app_assoc. split; [reflexivity |].
    split; [cbn; lia |].
    constructor; [| assumption].
    pose proof (mob_of_template_id _ _ _ _ _ Hm) as Hmid.
    unfold drawn_from. rewrite Hmid.
    split; [eapply list_elem_of_lookup_2; eassumption |].
    exists l, t. auto.
Qed.

Lemma generate_stage_mobs_regular chapter stage w :
  stage ≠ 10 → stage ≠ 5 →
  generate_stage_mobs chapter stage w
  = match get_difficulty_multiplier chapter stage with
    | Raise e => (Raise e, w)
    | Ok d =>
        regular_mobs (Z.to_nat (get_mob_count chapter stage))
          (chapter_theme chapter) d chapter [] w
    end.
Proof.
  intros H10 H5. unfold generate_stage_mobs, mbind at 1, M_bind at 1, lift.
  destruct (get_difficulty_multiplier chapter stage) as [d | e]; [| reflexivity].
  destruct (Z.eqb_spec stage 10); [contradiction |].
  destruct (Z.eqb_spec stage 5); [contradiction |].
  reflexivity.
Qed.

(** X18: every monster of a regular stage (any stage other than 5 and
    10) is a template of the chapter's theme, picked by one random draw
    and scaled by the stage's difficulty; the templates are left as they
    were, and one draw is consumed per monster. *)
Theorem regular_stage_mobs chapter stage w mobs w' :
  stage ≠ 10 → stage ≠ 5 →
  generate_stage_mobs chapter stage w = (Ok mobs, w') →
  ∃ d, get_difficulty_multiplier chapter stage = Ok d
       ∧ Forall (drawn_from (chapter_theme chapter) (heap w) d chapter) mobs
       ∧ heap w' = heap w
       ∧ random_draws w' = random_draws w
       ∧ random_pos w' = (random_pos w + length mobs)%nat.
Proof.
  intros H10 H5. rewrite generate_stage_mobs_regular by assumption.
  destruct (get_difficulty_multiplier chapter stage) as [d | e]; [| discriminate].
  intros H. apply regular_mobs_run in H as (Hh & Hd & Hp & new & -> & Hlen & Hall).
  exists d. cbn [app]. rewrite Hlen. auto.
Qed.

Lemma generate_stage_mobs_boss_length chapter w mobs w' :
  generate_stage_mobs chapter 10 w = (Ok mobs, w') → length mobs = 1%nat.
Proof.
  unfold generate_stage_mobs, mbind, M_bind, lift. cbn [Z.eqb Pos.eqb].
  repeat (match goal with
          | |- (let (_, _) := ?x in _) = _ → _ => destruct x as [[] ?]
          | |- match ?x with _ => _ end = _ → _ => destruct x; try discriminate
          end; try discriminate).
  unfold mret, M_ret. intros [= <- _]. reflexivity.
Qed.

Lemma stage_mobs_length chapter stage w mobs w' :
  generate_stage_mobs chapter stage w = (Ok mobs, w') →
  Z.of_nat (length mobs) = Z.max 0 (get_mob_count chapter stage)
  ∧ get_mob_count chapter stage <= 10
  ∧ (stage = 10 → length mobs = 1%nat)
  ∧ (stage = 5 → length mobs = 2%nat).
Proof.
  intros H.
  assert (Hle : get_mob_count chapter stage <= 10).
  { unfold get_mob_count. destruct (stage =? 10); [lia |].
    destruct (stage =? 5); lia. }
  destruct (Z.eq_dec stage 10) as [-> | H10].
  { apply generate_stage_mobs_boss_length in H. rewrite H.
    unfold get_mob_count. cbn. repeat split; lia. }
  destruct (Z.eq_dec stage 5) as [-> | H5].
  { apply generate_miniboss_stage in H as [_ H].
    destruct (H mobs eq_refl) as (mini & support & -> & _).
    unfold get_mob_count. cbn. repeat split; lia. }
  rewrite generate_stage_mobs_regular in H by assumption.
  destruct (get_difficulty_multiplier chapter stage) as [d | e]; [| discriminate].
  apply regular_mobs_run in H as (_ & _ & _ & new & -> & Hlen & _).
  cbn [app]. rewrite Hlen. repeat split; lia.
Qed.

(** X19: a stage that is generated has [get_mob_count] monsters (none if
    that number is negative), which is 1 on stage 10, 2 on stage 5, and
    never more than 10. *)
Theorem generate_stage_mobs_length chapter stage w mobs w' :
  generate_stage_mobs chapter stage w = (Ok mobs, w') →
  Z.of_nat (length mobs) = Z.max 0 (get_mob_count chapter stage)
  ∧ get_mob_count chapter stage <= 10
  ∧ (stage = 10 → length mobs = 1%nat)
  ∧ (stage = 5 → length mobs = 2%nat).
Proof. apply stage_mobs_length. Qed.

Ltac in_list := repeat (apply elem_of_cons; first [left; reflexivity | right]).

Lemma chapter_theme_keys chapter :
  chapter_theme chapter ≠ []
  ∧ ∀ id, id ∈ chapter_theme chapter → id ∈ dict_keys MOB_TEMPLATES.
Proof.
  unfold chapter_theme, CHAPTER_THEMES. cbn [List.find fst].
  repeat (destruct (_ =? chapter);
          [split; [discriminate | intros id Hin;
             repeat (apply elem_of_cons in Hin as [-> | Hin]);
             [.. | apply elem_of_nil in Hin; destruct Hin];
             unfold dict_keys, MOB_TEMPLATES; cbn [fmap list_fmap fst]; in_list] |]).
  split; [discriminate | auto].
Qed.

Lemma mob_template_defined id :
  id ∈ dict_keys MOB_TEMPLATES →
  ∃ l t, dict_get MOB_TEMPLATES id = Ok l ∧ class_heap !! l = Some t.
Proof.
  intros Hin. vm_compute in Hin.
  repeat (apply elem_of_cons in Hin as [-> | Hin]);
    [.. | apply elem_of_nil in Hin; destruct Hin];
    eexists _, _; split; vm_compute; reflexivity.
Qed.

Lemma regular_mob_of_drawn chapter stage theme w d m :
  class_heap ⊆ heap w →
  get_difficulty_multiplier chapter stage = Ok d →
  (∀ id, id ∈ theme → id ∈ dict_keys MOB_TEMPLATES) →
  drawn_from theme (heap w) d chapter m →
  regular_mob_of chapter stage (mob_id m) = Ok m.
Proof.
  intros Hsub Hd Hkeys (Hin & l & t & Hl & Ht & Hm).
  unfold regular_mob_of. rewrite Hd, Hl. cbn [mbind result_bind].
  destruct (mob_template_defined _ (Hkeys _ Hin)) as (l' & t' & Hl' & Ht').
  rewrite Hl in Hl'. injection Hl' as <-.
  rewrite Ht'. pose proof (lookup_weaken _ _ _ _ Ht' Hsub) as Ht''.
  rewrite Ht in Ht''. injection Ht'' as <-. exact Hm.
Qed.

Lemma regular_mobs_defined n theme d chapter : ∀ acc w,
  theme ≠ [] →
  (∀ id, id ∈ theme →
     ∃ l t m, dict_get MOB_TEMPLATES id = Ok l ∧ heap w !! l = Some t
              ∧ mob_of_template id t d chapter = Ok m) →
  ∃ mobs w', regular_mobs n theme d chapter acc w = (Ok mobs, w').
Proof.
  induction n as [| n IH]; intros acc w Hne Hall.
  - eexists _, _. reflexivity.
  - rewrite regular_mobs_step.
    destruct (theme !! _) as [id |] eqn:Hid.
    2:{ apply lookup_ge_None in Hid.
        pose proof (drawn_index_bound theme (random_draws w (random_pos w)) Hne).
        lia. }
    destruct (Hall id (list_elem_of_lookup_2 _ _ _ Hid)) as (l & t & m & -> & -> & ->).
    cbn zeta. apply IH; assumption.
Qed.

Lemma generate_boss_stage_of chapter w :
  class_heap ⊆ heap w →
  generate_stage_mobs chapter 10 w = (m ← boss_of chapter; Ok [m], w).
Proof.
  intros Hsub. unfold generate_stage_mobs, boss_of.
  change (10 =? 10) with true. cbv iota.
  unfold mbind at 1, M_bind at 1, lift at 1.
  destruct (get_difficulty_multiplier chapter 10) as [d | e]; [| reflexivity].
  unfold mbind at 1, M_bind at 1, lift at 1.
  destruct (boss_for_chapter_defined chapter) as (b & l & t & -> & Hl & Ht & _).
  unfold mbind at 1, M_bind at 1, lift at 1. rewrite Hl.
  unfold mbind at 1, M_bind at 1.
  rewrite (generate_mob_run _ _ _ _ _ t) by (eapply lookup_weaken; eassumption).
  cbn [mbind result_bind]. rewrite Hl. cbn [mbind result_bind]. rewrite Ht.
  destruct (mob_of_template b t d chapter); reflexivity.
Qed.

Lemma miniboss_of_class chapter w :
  class_heap ⊆ heap w → miniboss_of chapter (heap w) = miniboss_of chapter class_heap.
Proof.
  intros Hsub. unfold miniboss_of.
  destruct (get_difficulty_multiplier chapter 5) as [d | e]; [| reflexivity].
  destruct (boss_for_chapter_defined chapter) as (b & l & t & -> & Hl & Ht & _).
  cbn [mbind result_bind]. rewrite Hl. cbn [mbind result_bind].
  rewrite Ht, (lookup_weaken _ _ _ _ Ht Hsub). reflexivity.
Qed.

(** The supporting monster of a mini-boss stage. *)
Lemma generate_miniboss_support chapter w mobs w' :
  generate_stage_mobs chapter 5 w = (Ok mobs, w') →
  ∃ d mini support,
    get_difficulty_multiplier chapter 5 = Ok d
    ∧ mobs = [mini; support]
    ∧ drawn_from (chapter_theme chapter) (heap w') d chapter support
    ∧ random_draws w' = random_draws w
    ∧ random_pos w' = S (random_pos w).
Proof.
  intros H. unfold generate_stage_mobs in H.
  change (5 =? 10) with false in H. change (5 =? 5) with true in H. cbv iota in H.
  unfold mbind at 1, M_bind at 1, lift at 1 in H.
  destruct (get_difficulty_multiplier chapter 5) as [d | e] eqn:Hd; [| discriminate].
  unfold mbind at 1, M_bind at 1, lift at 1 in H.
  destruct (boss_for_chapter chapter) as [b | e] eqn:Hb; [| discriminate].
  unfold mbind at 1, M_bind at 1, lift at 1 in H.
  destruct (dict_get BOSS_TEMPLATES b) as [l | e] eqn:Hdl; [| discriminate].
  unfold mbind at 1, M_bind at 1, dict_copy at 1 in H.
  destruct (heap w !! l) as [t |] eqn:Hl; [| discriminate].
  set (l' := fresh (dom (heap w))) in H.
  unfold set_heap in H; cbn [heap random_draws random_pos] in H.
  unfold mbind at 1, M_bind at 1, deref at 1 in H. cbn [heap] in H.
  rewrite lookup_insert_eq in H.
  unfold mbind at 1, M_bind at 1, lift at 1 in H.
  destruct (scaled (t_base_health t) 0.6) as [h | e] eqn:Hh; [| discriminate].
  unfold mbind at 1, M_bind at 1, dict_update at 1 in H. cbn [heap] in H.
  rewrite lookup_insert_eq in H.
  unfold set_heap in H; cbn [heap random_draws random_pos] in H.
  rewrite insert_insert_eq in H.
  unfold mbind at 1, M_bind at 1, deref at 1 in H. cbn [heap] in H.
  rewrite lookup_insert_eq in H.
  unfold mbind at 1, M_bind at 1, lift at 1 in H.
  change (t_base_damage (set_base_health h t)) with (t_base_damage t) in H.
  destruct (scaled (t_base_damage t) 0.6) as [dm | e] eqn:Hdm; [| discriminate].
  unfold mbind at 1, M_bind at 1, dict_update at 1 in H. cbn [heap] in H.
  rewrite lookup_insert_eq in H.
  unfold set_heap in H; cbn [heap random_draws random_pos] in H.
  rewrite insert_insert_eq in H.
  unfold mbind at 1, M_bind at 1 in H.
  rewrite (generate_mob_run _ _ _ _ _ (set_base_damage dm (set_base_health h t))) in H;
    [| cbn [heap]; apply lookup_insert_eq].
  destruct (mob_of_template (b +:+ "_mini") _ d chapter) as [mini | e] eqn:Hmini;
    [| discriminate].
  unfold mbind at 1, M_bind at 1, random_choice at 1 in H.
  cbn [heap random_draws random_pos] in H.
  destruct (chapter_theme chapter !! _) as [id |] eqn:Hid; [| discriminate].
  unfold mbind at 1, M_bind at 1, lift at 1 in H.
  destruct (dict_get MOB_TEMPLATES id) as [lm | e] eqn:Hlm; [| discriminate].
  unfold mbind at 1, M_bind at 1, generate_mob at 1 in H.
  unfold mbind at 1, M_bind at 1, deref at 1, lift at 1 in H.
  cbn [heap] in H.
  destruct (<[l' := _]> (heap w) !! lm) as [tm |] eqn:Htm; [| discriminate].
  unfold mret, M_ret in H.
  destruct (mob_of_template id tm d chapter) as [support | e] eqn:Hsup;
    [| discriminate].
  injection H as <- <-.
  exists d, mini, support. split; [reflexivity |]. split; [reflexivity |].
  cbn [heap random_draws random_pos].
  split; [| auto].
  pose proof (mob_of_template_id _ _ _ _ _ Hsup) as Hmid.
  unfold drawn_from. rewrite Hmid.
  split; [eapply list_elem_of_lookup_2; eassumption |].
  exists lm, tm. auto.
Qed.

Lemma regular_stage_in_range :
  forallb (λ chapter,
    forallb (λ stage,
      forallb (λ id, generated_in_range (regular_mob_of chapter stage id))
        (dict_keys MOB_TEMPLATES))
      game_stages)
    game_chapters = true.
Proof. vm_compute. reflexivity. Qed.

Lemma boss_stage_in_range :
  forallb (λ chapter,
    generated_in_range (boss_of chapter)
    && generated_in_range (miniboss_of chapter class_heap))
    game_chapters = true.
Proof. vm_compute. reflexivity. Qed.

Lemma regular_mob_in_range chapter stage id :
  1 <= chapter <= 20 → 1 <= stage <= 10 → id ∈ dict_keys MOB_TEMPLATES →
  ∃ m, regular_mob_of chapter stage id = Ok m ∧ stats_in_range m = true.
Proof.
  intros Hc Hs Hin.
  pose proof regular_stage_in_range as H.
  apply (forallb_seqZ _ _ _ chapter) in H; [| unfold TOTAL_CHAPTERS; lia].
  apply (forallb_seqZ _ _ _ stage) in H; [| unfold STAGES_PER_CHAPTER; lia].
  rewrite forallb_forall in H.
  specialize (H id ltac:(apply list_elem_of_In; assumption)).
  destruct (regular_mob_of chapter stage id) as [m |]; [| discriminate].
  eauto.
Qed.

Lemma generate_stage_mobs_defined chapter stage w :
  1 <= chapter <= 20 → 1 <= stage <= 10 → class_heap ⊆ heap w →
  ∃ mobs w',
    generate_stage_mobs chapter stage w = (Ok mobs, w')
    ∧ Forall (λ m, stats_in_range m = true) mobs
    ∧ class_heap ⊆ heap w'.
Proof.
  intros Hc Hs Hsub.
  pose proof boss_stage_in_range as Hboss.
  apply (forallb_seqZ _ _ _ chapter) in Hboss; [| unfold TOTAL_CHAPTERS; lia].
  apply andb_prop in Hboss as [Hboss Hmini].
  destruct (chapter_theme_keys chapter) as [Hne Hkeys].
  destruct (Z.eq_dec stage 10) as [-> | H10].
  { rewrite generate_boss_stage_of by assumption.
    destruct (boss_of chapter) as [m |]; [| discriminate].
    exists [m], w. cbn. auto. }
  destruct (Z.eq_dec stage 5) as [-> | H5].
  { destruct (generate_miniboss_stage_defined chapter w Hc Hsub)
      as (mini & support & w' & Hrun).
    pose proof (generate_miniboss_stage _ _ _ _ Hrun) as [Hun Hmobs].
    destruct (Hmobs _ eq_refl) as (mini' & support' & [= <- <-] & Hof).
    pose proof (unchanged_in_class_heap _ _ Hun Hsub) as Hsub'.
    destruct (generate_miniboss_support _ _ _ _ Hrun)
      as (d & mini' & support' & Hd & [= <- <-] & Hdrawn & _).
    exists [mini; support], w'. split; [assumption |]. split; [| assumption].
    constructor.
    - rewrite miniboss_of_class in Hof by assumption.
      rewrite Hof in Hmini. exact Hmini.
    - constructor; [| constructor].
      pose proof (regular_mob_of_drawn chapter 5 _ w' d support Hsub' Hd Hkeys Hdrawn)
        as Hreg.
      destruct (regular_mob_in_range chapter 5 (mob_id support) Hc ltac:(lia))
        as (m & Hm & Hpos).
      { apply Hkeys. apply Hdrawn. }
      congruence. }
  rewrite generate_stage_mobs_regular by assumption.
  destruct (regular_mob_in_range chapter stage "troll" Hc Hs ltac:(unfold dict_keys, MOB_TEMPLATES; cbn [fmap list_fmap fst]; in_list))
    as (m0 & Hm0 & _).
  unfold regular_mob_of in Hm0.
  destruct (get_difficulty_multiplier chapter stage) as [d |] eqn:Hd; [| discriminate].
  destruct (regular_mobs_defined (Z.to_nat (get_mob_count chapter stage))
              (chapter_theme chapter) d chapter [] w Hne) as (mobs & w' & Hrun).
  { intros id Hin.
    destruct (regular_mob_in_range chapter stage id Hc Hs (Hkeys _ Hin))
      as (m & Hm & _).
    unfold regular_mob_of in Hm. rewrite Hd in Hm. cbn [mbind result_bind] in Hm.
    destruct (dict_get MOB_TEMPLATES id) as [l |]; [| discriminate].
    cbn [mbind result_bind] in Hm.
    destruct (class_heap !! l) as [t |] eqn:Ht; [| discriminate].
    exists l, t, m. split; [reflexivity |].
    split; [eapply lookup_weaken; eassumption | assumption]. }
  exists mobs, w'. split; [assumption |].
  apply regular_mobs_run in Hrun as (Hh & _ & _ & new & -> & _ & Hall).
  split; [| rewrite Hh; assumption].
  cbn [app]. eapply Forall_impl; [exact Hall |].
  intros m Hdrawn.
  pose proof (regular_mob_of_drawn chapter stage _ w d m Hsub Hd Hkeys Hdrawn) as Hreg.
  destruct (regular_mob_in_range chapter stage (mob_id m) Hc Hs) as (m' & Hm' & Hpos).
  { apply Hkeys. apply Hdrawn. }
  congruence.
Qed.

(** X20: for every chapter and stage of the game, generation from the
    class templates never raises, whatever the random draws, and every
    monster it returns has positive health and damage and a positive
    experience and gold reward below 1400; the class templates are still
    in place afterwards, so this holds for every later call too. *)
Theorem generate_stage_mobs_total chapter stage w :
  1 <= chapter <= 20 → 1 <= stage <= 10 → class_heap ⊆ heap w →
  ∃ mobs w',
    generate_stage_mobs chapter stage w = (Ok mobs, w')
    ∧ Forall (λ m, stats_in_range m = true) mobs
    ∧ class_heap ⊆ heap w'.
Proof. apply generate_stage_mobs_defined. Qed.

Lemma difficulty_defined_table :
  forallb (λ chapter,
    forallb (λ stage,
      match get_difficulty_multiplier chapter stage with
      | Ok _ => true
      | Raise _ => false
      end) game_stages) game_chapters = true.
Proof. vm_compute. reflexivity. Qed.

Lemma difficulty_defined chapter stage :
  1 <= chapter <= 20 → 1 <= stage <= 10 →
  ∃ d, get_difficulty_multiplier chapter stage = Ok d.
Proof.
  intros Hc Hs. pose proof difficulty_defined_table as H.
  apply (forallb_seqZ _ _ _ chapter) in H; [| unfold TOTAL_CHAPTERS; lia].
  apply (forallb_seqZ _ _ _ stage) in H; [| unfold STAGES_PER_CHAPTER; lia].
  cbn beta in H.
  destruct (get_difficulty_multiplier chapter stage) as [d |]; [eauto | discriminate].
Qed.

(** X21: for every chapter and stage of the game and monsters whose
    gold and experience sum to less than 14000 each, the rewards are
    computed without any rounding: gold, gems and experience are the
    integer sums, taken once on a regular stage, twice on stage 5 and
    three times on stage 10, and no items. *)
Theorem generate_stage_rewards_exact (chapter stage : Z) (mobs : list MobConfig) :
  1 <= chapter <= 20 → 1 <= stage <= 10 →
  0 <= list_sum (gold_reward <$> mobs) < 14000 →
  0 <= list_sum (xp_reward <$> mobs) < 14000 →
  generate_stage_rewards chapter stage mobs
  = Ok {| gold := reward_factor stage
                  * (100 * chapter + 10 * stage + list_sum (gold_reward <$> mobs));
          gems := reward_factor stage * (chapter + stage / 5);
          xp := reward_factor stage
                * (50 * chapter + 5 * stage + list_sum (xp_reward <$> mobs));
          items := [] |}.
Proof. apply stage_rewards_exact. Qed.

Lemma difficulty_order_table :
  forallb (λ chapter,
    forallb (λ stage,
      difficulty_le (Ok 1%float) (get_difficulty_multiplier chapter stage)
      && difficulty_le (get_difficulty_multiplier chapter stage) (Ok 11.9%float)
      && difficulty_lt (get_difficulty_multiplier chapter stage)
           (get_difficulty_multiplier (chapter + 1) stage)
      && ((stage =? 5) || (stage =? 10)
          || difficulty_lt (get_difficulty_multiplier chapter stage)
               (get_difficulty_multiplier chapter (stage + 1))))
      game_stages
    && difficulty_lt (get_difficulty_multiplier chapter 6)
         (get_difficulty_multiplier chapter 5)
    && difficulty_lt (get_difficulty_multiplier chapter 7)
         (get_difficulty_multiplier chapter 5)
    && difficulty_lt (get_difficulty_multiplier chapter 5)
         (get_difficulty_multiplier chapter 8))
    game_chapters = true.
Proof. vm_compute. reflexivity. Qed.

(** X22: over the chapters and stages of the game the difficulty lies
    between 1.0 and 11.9 and rises with the chapter; within a chapter it
    rises from each stage to the next except after the mini-boss: stages 6
    and 7 are easier than stage 5, and stage 8 is the first that is
    harder. *)
Theorem difficulty_order (chapter stage : Z) :
  1 <= chapter <= 20 → 1 <= stage <= 10 →
  let d := get_difficulty_multiplier in
  difficulty_le (Ok 1%float) (d chapter stage) = true
  ∧ difficulty_le (d chapter stage) (Ok 11.9%float) = true
  ∧ difficulty_lt (d chapter stage) (d (chapter + 1) stage) = true
  ∧ (stage ≠ 5 → stage ≠ 10 →
     difficulty_lt (d chapter stage) (d chapter (stage + 1)) = true)
  ∧ difficulty_lt (d chapter 6) (d chapter 5) = true
  ∧ difficulty_lt (d chapter 7) (d chapter 5) = true
  ∧ difficulty_lt (d chapter 5) (d chapter 8) = true.
Proof.
  intros Hc Hs. cbn zeta. pose proof difficulty_order_table as H.
  apply (forallb_seqZ _ _ _ chapter) in H; [| unfold TOTAL_CHAPTERS; lia].
  apply andb_prop in H as [H H58]. apply andb_prop in H as [H H75].
  apply andb_prop in H as [H H65].
  apply (forallb_seqZ _ _ _ stage) in H; [| unfold STAGES_PER_CHAPTER; lia].
  apply andb_prop in H as [H Hnext]. apply andb_prop in H as [H Hchap].
  apply andb_prop in H as [Hlo Hhi].
  repeat (split; [assumption |]).
  split; [| auto].
  intros H5 H10.
  destruct (Z.eqb_spec stage 5); [contradiction |].
  destruct (Z.eqb_spec stage 10); [contradiction |].
  exact Hnext.
Qed.

(** X23: the boss of a chapter is taken from the roster orc warlord,
    lich king, dragon by the residue of [chapter - 1] modulo 3, so it
    repeats every three chapters; the lookup never fails, also for a
    chapter of zero or below. *)
Theorem boss_for_chapter_cycle (chapter : Z) :
  boss_for_chapter chapter = Ok (boss_roster chapter)
  ∧ boss_for_chapter (chapter + 3) = boss_for_chapter chapter
  ∧ ∃ l t, dict_get BOSS_TEMPLATES (boss_roster chapter) = Ok l
           ∧ class_heap !! l = Some t.
Proof.
  assert (Hroster : ∀ c, boss_for_chapter c = Ok (boss_roster c)).
  { intros c. unfold boss_for_chapter, boss_roster.
    cbn [dict_keys BOSS_TEMPLATES fmap list_fmap fst length].
    change (Z.of_nat 3) with 3.
    pose proof (Z.mod_pos_bound (c - 1) 3 ltac:(lia)) as Hm.
    assert (Hcases : (c - 1) mod 3 = 0 ∨ (c - 1) mod 3 = 1 ∨ (c - 1) mod 3 = 2)
      by lia.
    destruct Hcases as [E | [E | E]]; rewrite E; reflexivity. }
  split; [apply Hroster |]. split.
  - rewrite !Hroster. unfold boss_roster.
    replace (chapter + 3 - 1) with (chapter - 1 + 1 * 3) by lia.
    rewrite Z.mod_add by lia. reflexivity.
  - unfold boss_roster.
    pose proof (Z.mod_pos_bound (chapter - 1) 3 ltac:(lia)) as Hm.
    assert (Hcases : (chapter - 1) mod 3 = 0 ∨ (chapter - 1) mod 3 = 1
                     ∨ (chapter - 1) mod 3 = 2) by lia.
    destruct Hcases as [E | [E | E]]; rewrite E;
      eexists _, _; split; vm_compute; reflexivity.
Qed.

(** ** Issuing sessions *)

Section ConfigProperties.

Variable timestamp_ms : datetime → Z.
Variable calculate_suspicion_score : BattleLog → list MobConfig → result float.
Variable timestamp_s : datetime → Z.
Variable generate_stage_item_drops : Z → Z → Z → world → list Item * world.

Abbreviation config := (get_stage_config timestamp_s generate_stage_item_drops).
Abbreviation finish := (complete_stage timestamp_ms calculate_suspicion_score).

Lemma in_game_dec chapter stage :
  (chapter <? 1) || (TOTAL_CHAPTERS <? chapter) = false
  ∧ (stage <? 1) || (STAGES_PER_CHAPTER <? stage) = false
  ↔ in_game chapter stage.
Proof. unfold in_game. rewrite !orb_false_iff, !Z.ltb_ge. lia. Qed.

(** What one call does. *)
Lemma get_stage_config_inv db w session_token now created_now current_user cid
    chapter stage out db' w' :
  config db w session_token now created_now current_user cid chapter stage
  = (out, db', w') →
  (db' = db ∧ ∀ r, out ≠ Body r)
  ∨ ∃ character mobs base w1,
      in_game chapter stage
      ∧ get_character_for_user db cid current_user = Some character
      ∧ is_stage_unlocked character chapter stage = true
      ∧ generate_stage_mobs chapter stage w = (Ok mobs, w1)
      ∧ generate_stage_rewards chapter stage mobs = Ok base
      ∧ battle_sessions db !! session_token = None
      ∧ let drops := generate_stage_item_drops chapter stage
                       (Z.of_nat (length mobs)) w1 in
        let rewards := {| gold := gold base; gems := gems base; xp := xp base;
                          items := drops.1 |} in
        w' = drops.2
        ∧ db' = store_session db session_token
                  (issued_session cid chapter stage mobs rewards now created_now)
        ∧ match get_difficulty_multiplier chapter stage with
          | Raise e => out = Failed e
          | Ok d =>
              out = Body {| cfg_session_token := session_token;
                            cfg_expires_at :=
                              timestamp_s (plus_seconds now
                                             battle_session_expiry_seconds);
                            cfg_chapter := chapter;
                            cfg_stage := stage;
                            cfg_stage_name := get_stage_name chapter stage;
                            cfg_is_boss := stage =? STAGES_PER_CHAPTER;
                            cfg_is_miniboss := stage =? 5;
                            cfg_difficulty_multiplier := d;
                            cfg_time_limit_seconds := get_time_limit chapter stage;
                            cfg_mobs := mobs;
                            cfg_rewards := rewards |}
          end.
Proof.
  unfold get_stage_config.
  destruct ((chapter <? 1) || (TOTAL_CHAPTERS <? chapter)) eqn:Hch;
    [intros [= <- <- <-]; left; split; [reflexivity | discriminate] |].
  destruct ((stage <? 1) || (STAGES_PER_CHAPTER <? stage)) eqn:Hst;
    [intros [= <- <- <-]; left; split; [reflexivity | discriminate] |].
  assert (Hgame : in_game chapter stage) by (apply in_game_dec; auto).
  destruct (get_character_for_user db cid current_user) as [character |];
    [| intros [= <- <- <-]; left; split; [reflexivity | discriminate]].
  destruct (is_stage_unlocked character chapter stage) eqn:Hun; cbn [negb];
    [| intros [= <- <- <-]; left; split; [reflexivity | discriminate]].
  destruct (generate_stage_mobs chapter stage w) as [[mobs | e] w1] eqn:Hmobs;
    [| intros [= <- <- <-]; left; split; [reflexivity | discriminate]].
  destruct (generate_stage_rewards chapter stage mobs) as [base | e] eqn:Hbase;
    [| intros [= <- <- <-]; left; split; [reflexivity | discriminate]].
  destruct (generate_stage_item_drops chapter stage (Z.of_nat (length mobs)) w1)
    as [drops w2] eqn:Hdrops.
  destruct (battle_sessions db !! session_token) eqn:Htok;
    [intros [= <- <- <-]; left; split; [reflexivity | discriminate] |].
  intros H. right. exists character, mobs, base, w1.
  repeat (split; [first [assumption | reflexivity] |]).
  cbn zeta. rewrite Hdrops. cbn [fst snd].
  destruct (get_difficulty_multiplier chapter stage);
    injection H as <- <- <-; auto.
Qed.

(** X24: [get_stage_config] checks the chapter and the stage before it
    looks at the character: outside 1..20 and 1..10 the answer is 400
    also for a character that does not exist; inside, it is 404 for a
    character that does not exist or belongs to another user, and 403 for
    a stage that is locked. A refusal stores no session and leaves the
    generator as it was. *)
Theorem get_stage_config_refusals db w session_token now created_now current_user
    cid chapter stage :
  let run := get_stage_config timestamp_s generate_stage_item_drops db w
      session_token now created_now current_user cid
               chapter stage in
  (¬ (1 <= chapter <= 20) →
     run = (Refused 400 ("Invalid chapter: " +:+ py_str chapter), db, w))
  ∧ (1 <= chapter <= 20 → ¬ (1 <= stage <= 10) →
     run = (Refused 400 ("Invalid stage: " +:+ py_str stage), db, w))
  ∧ (in_game chapter stage →
     get_character_for_user db cid current_user = None →
     run = (Refused 404 "Character not found", db, w))
  ∧ (in_game chapter stage →
     ∀ character,
       get_character_for_user db cid current_user = Some character →
       is_stage_unlocked character chapter stage = false →
       run = (Refused 403 "Stage not unlocked", db, w))
  ∧ (∀ code detail, run.1.1 = Refused code detail → run.1.2 = db ∧ run.2 = w).
Proof.
  cbn zeta. unfold get_stage_config, in_game, TOTAL_CHAPTERS, STAGES_PER_CHAPTER.
  split; [| split; [| split; [| split]]].
  - intros Hch.
    replace ((chapter <? 1) || (20 <? chapter)) with true
      by (symmetry; apply orb_true_iff; lia).
    reflexivity.
  - intros Hch Hst.
    replace ((chapter <? 1) || (20 <? chapter)) with false
      by (symmetry; apply orb_false_iff; lia).
    replace ((stage <? 1) || (10 <? stage)) with true
      by (symmetry; apply orb_true_iff; lia).
    reflexivity.
  - intros [Hch Hst] ->.
    replace ((chapter <? 1) || (20 <? chapter)) with false
      by (symmetry; apply orb_false_iff; lia).
    replace ((stage <? 1) || (10 <? stage)) with false
      by (symmetry; apply orb_false_iff; lia).
    reflexivity.
  - intros [Hch Hst] character -> ->.
    replace ((chapter <? 1) || (20 <? chapter)) with false
      by (symmetry; apply orb_false_iff; lia).
    replace ((stage <? 1) || (10 <? stage)) with false
      by (symmetry; apply orb_false_iff; lia).
    reflexivity.
  - intros code detail.
    destruct ((chapter <? 1) || (20 <? chapter)); [intros _; auto |].
    destruct ((stage <? 1) || (10 <? stage)); [intros _; auto |].
    destruct (get_character_for_user db cid current_user) as [character |];
      [| intros _; auto].
    destruct (is_stage_unlocked character chapter stage); cbn [negb];
      [| intros _; auto].
    destruct (generate_stage_mobs chapter stage w) as [[mobs | e] w1];
      [| discriminate].
    destruct (generate_stage_rewards chapter stage mobs) as [base | e];
      [| discriminate].
    destruct (generate_stage_item_drops chapter stage (Z.of_nat (length
        mobs)) w1)
      as [drops w2].
    destruct (battle_sessions db !! session_token); [discriminate |].
    destruct (get_difficulty_multiplier chapter stage); discriminate.
Qed.

Lemma list_sum_bounds {A} (f : A → Z) (B : Z) (l : list A) :
  Forall (λ x, 0 < f x < B) l →
  0 <= list_sum (f <$> l) ∧ list_sum (f <$> l) <= (B - 1) * Z.of_nat (length l)
  ∧ (l ≠ [] → 0 < list_sum (f <$> l)).
Proof.
  induction 1 as [| x l Hx Hl IH]; cbn [fmap list_fmap list_sum foldr length].
  - split; [lia |]. split; [lia | congruence].
  - fold (list_sum (f <$> l)). destruct IH as (IH1 & IH2 & _).
    split; [lia |]. split; [lia |]. intros _. lia.
Qed.

Lemma get_mob_count_in_game chapter stage :
  in_game chapter stage → 1 <= get_mob_count chapter stage <= 10.
Proof.
  unfold in_game, TOTAL_CHAPTERS, STAGES_PER_CHAPTER, get_mob_count.
  intros [Hc Hs].
  destruct (stage =? 10); [lia |]. destruct (stage =? 5); [lia |].
  assert (0 <= chapter / 2) by (apply Z.div_pos; lia).
  assert (0 <= stage / 3) by (apply Z.div_pos; lia).
  lia.
Qed.

(** X25: for a stage of the game that is unlocked for a character of
    the caller, with the class templates in place and a token that is not
    yet in the table, [get_stage_config] answers with a body and stores
    exactly one new session under the token: unused, owned by the
    character, for the requested chapter and stage, expiring 600 seconds
    after [now], and holding the monsters and the rewards of the body.
    The body has [get_mob_count] monsters, and its gold, gems and
    experience are the integer sums of the stage and of its monsters,
    times 1, 2 or 3; all three are positive. *)
Theorem get_stage_config_issues db w session_token now created_now current_user
    cid chapter stage character :
  in_game chapter stage →
  class_heap ⊆ heap w →
  get_character_for_user db cid current_user = Some character →
  is_stage_unlocked character chapter stage = true →
  battle_sessions db !! session_token = None →
  ∃ r w',
    get_stage_config timestamp_s generate_stage_item_drops db w session_token
        now created_now current_user cid chapter stage
    = (Body r,
       store_session db session_token
         (issued_session cid chapter stage (cfg_mobs r) (cfg_rewards r)
            now created_now),
       w')
    ∧ cfg_session_token r = session_token
    ∧ expires_at (issued_session cid chapter stage (cfg_mobs r) (cfg_rewards r)
                    now created_now) = now + 600 * 1000000
    ∧ Z.of_nat (length (cfg_mobs r)) = get_mob_count chapter stage
    ∧ gold (cfg_rewards r)
      = reward_factor stage
        * (100 * chapter + 10 * stage + list_sum (gold_reward <$> cfg_mobs r))
    ∧ gems (cfg_rewards r) = reward_factor stage * (chapter + stage / 5)
    ∧ xp (cfg_rewards r)
      = reward_factor stage
        * (50 * chapter + 5 * stage + list_sum (xp_reward <$> cfg_mobs r))
    ∧ 0 < gold (cfg_rewards r) ∧ 0 < gems (cfg_rewards r) ∧ 0 < xp (cfg_rewards r).
Proof.
  intros Hgame Hsub Hchar Hun Hfresh.
  pose proof Hgame as [Hc Hs]. unfold TOTAL_CHAPTERS, STAGES_PER_CHAPTER in Hc, Hs.
  destruct (generate_stage_mobs_defined chapter stage w Hc Hs Hsub)
    as (mobs & w1 & Hmobs & Hrange & _).
  pose proof (stage_mobs_length _ _ _ _ _ Hmobs) as (Hlen & _).
  pose proof (get_mob_count_in_game _ _ Hgame) as Hcount.
  assert (Hne : mobs ≠ []) by (intros ->; cbn in Hlen; lia).
  destruct (list_sum_bounds gold_reward 1400 mobs) as (Hg0 & Hg1 & Hg2).
  { eapply Forall_impl; [exact Hrange |]. intros m Hm. unfold stats_in_range in Hm.
    repeat (apply andb_prop in Hm as [Hm ?]). lia. }
  destruct (list_sum_bounds xp_reward 1400 mobs) as (Hx0 & Hx1 & Hx2).
  { eapply Forall_impl; [exact Hrange |]. intros m Hm. unfold stats_in_range in Hm.
    repeat (apply andb_prop in Hm as [Hm ?]). lia. }
  assert (Hbase := stage_rewards_exact chapter stage mobs Hc Hs
                     ltac:(lia) ltac:(lia)).
  destruct (difficulty_defined chapter stage Hc Hs) as [d Hd].
  destruct (config db w session_token now created_now current_user cid chapter stage)
    as [[out db'] w'] eqn:Hrun.
  unfold get_stage_config in Hrun.
  replace ((chapter <? 1) || (TOTAL_CHAPTERS <? chapter)) with false in Hrun
    by (symmetry; apply orb_false_iff; unfold TOTAL_CHAPTERS; lia).
  replace ((stage <? 1) || (STAGES_PER_CHAPTER <? stage)) with false in Hrun
    by (symmetry; apply orb_false_iff; unfold STAGES_PER_CHAPTER; lia).
  rewrite Hchar, Hun, Hmobs, Hbase in Hrun. cbn [negb] in Hrun.
  destruct (generate_stage_item_drops chapter stage (Z.of_nat (length mobs)) w1)
    as [drops w2].
  rewrite Hfresh, Hd in Hrun. cbn [gold gems xp] in Hrun.
  injection Hrun as <- <- <-.
  lazymatch goal with
  | |- ∃ r _, (Body ?b, _, _) = _ ∧ _ => exists b, w2
  end.
  split; [reflexivity |].
  cbn [cfg_session_token cfg_mobs cfg_rewards gold gems xp issued_session
       expires_at].
  split; [reflexivity |].
  split; [unfold plus_seconds, battle_session_expiry_seconds; lia |].
  split; [lia |]. split; [reflexivity |]. split; [reflexivity |].
  split; [reflexivity |].
  assert (1 <= reward_factor stage)
    by (unfold reward_factor; destruct (stage =? 10), (stage =? 5); lia).
  assert (0 <= stage / 5) by (apply Z.div_pos; lia).
  repeat split; nia.
Qed.


(** One request leaves alone the inventory and the progression that a
    row holds. *)
Lemma play_one_keeps_json db c cid character :
  characters db !! cid = Some character →
  progression_is_truthy (progression character) = true →
  inventory character ≠ None →
  ∃ character',
    characters (play_one timestamp_ms calculate_suspicion_score timestamp_s
                  generate_stage_item_drops db c) !! cid = Some character'
    ∧ progression character' = progression character
    ∧ inventory character' = inventory character.
Proof.
  intros Hc Htruthy Hinv.
  destruct c as [w tok now created u cid0 chapter stage | c]; cbn [play_one].
  - destruct (config db w tok now created u cid0 chapter stage)
      as [[out db'] w'] eqn:H.
    cbn [fst snd]. apply get_stage_config_inv in H as [[-> _] | Hissued];
      [eauto |].
    destruct Hissued as (character0 & mobs & base & w1 & _ & _ & _
                         & _ & _ & _ & Hrest).
    cbn zeta in Hrest. destruct Hrest as (_ & -> & _). cbn. eauto.
  - destruct (complete_stage_characters timestamp_ms calculate_suspicion_score
                db (call_now c) (call_used_now c) (call_user c)
                (call_character c) (call_request c))
      as [-> | (character0 & session & Hc0 & _ & ->)]; [eauto |].
    destruct (decide (cid = call_character c)) as [-> | Hne].
    + rewrite Hc in Hc0. injection Hc0 as <-.
      rewrite lookup_insert_eq. eexists. split; [reflexivity |].
      destruct (stored_row character session)
        as (_ & _ & _ & _ & _ & _ & _ & _ & _ & _ & -> & ->).
      rewrite Htruthy. split; [reflexivity |].
      destruct (inventory character); [reflexivity | contradiction].
    + rewrite lookup_insert_ne by congruence. eauto.
Qed.

(** The commit of a request that has loaded a row holding an inventory
    and a progression writes neither column, whatever the tables have
    become since the row was loaded. *)
Lemma finish_completion_keeps_json db used_now cid request character session row :
  progression_is_truthy (progression character) = true →
  inventory character ≠ None →
  characters db !! cid = Some row →
  ∃ row',
    characters (finish_completion db used_now cid request character session).2
      !! cid = Some row'
    ∧ progression row' = progression row
    ∧ inventory row' = inventory row.
Proof.
  intros Htruthy Hinv Hrow. unfold finish_completion, commit.
  destruct (update_fits _); [| eauto].
  set (db' := {| characters := _; battle_sessions := _ |}).
  assert (Hstored : characters db' !! cid
                    = Some (apply_update (character_update character session) row)).
  { subst db'. cbn [characters]. rewrite lookup_alter_eq, Hrow. reflexivity. }
  exists (apply_update (character_update character session) row).
  split; [destruct (build_response _ _); exact Hstored |].
  unfold apply_update, character_update, assigned_progression,
    assigned_inventory.
  cbn [progression inventory set_progression set_inventory].
  rewrite Htruthy.
  destruct (inventory character); [| contradiction]. split; reflexivity.
Qed.

(** X27: the server never records progress for a character that
    [create_character] has made. A row whose [progression] and
    [inventory] columns hold objects keeps both, whatever
    [get_stage_config] and [complete_stage] requests are served one after
    another, by whichever users, with whichever tokens, clocks, generator
    states and battle logs: granted completions credit gold, gems and
    experience, and the stages that are unlocked for the character stay
    the ones that were unlocked at the start. Requests that overlap do
    not change this: the commit of a completion that has loaded the row
    leaves the two columns of the stored row as they are, whatever the
    tables have become in between. *)
Theorem stored_progress_never_changes db calls cid character :
  characters db !! cid = Some character →
  progression_is_truthy (progression character) = true →
  inventory character ≠ None →
  (∃ character',
     characters (play timestamp_ms calculate_suspicion_score timestamp_s
                   generate_stage_item_drops db calls) !! cid = Some character'
     ∧ progression character' = progression character
     ∧ inventory character' = inventory character
     ∧ ∀ chapter stage,
         is_stage_unlocked character' chapter stage
         = is_stage_unlocked character chapter stage)
  ∧ (∀ tables used_now request session row,
       characters tables !! cid = Some row →
       ∃ row',
         characters (finish_completion tables used_now cid request character
                       session).2 !! cid = Some row'
         ∧ progression row' = progression row
         ∧ inventory row' = inventory row).
Proof.
  intros Hc Htruthy Hinv.
  split;
    [| intros tables used_now request session row Hrow;
       apply finish_completion_keeps_json; assumption].
  assert (Hkeep : ∃ character',
            characters (play timestamp_ms calculate_suspicion_score timestamp_s
                          generate_stage_item_drops db calls) !! cid
            = Some character'
            ∧ progression character' = progression character
            ∧ inventory character' = inventory character).
  { revert db character Hc Htruthy Hinv.
    induction calls as [| c calls IH]; intros db character Hc Htruthy Hinv.
    - exists character. auto.
    - cbn [play fold_left].
      destruct (play_one_keeps_json db c cid character Hc Htruthy Hinv)
        as (character1 & Hc1 & Hp1 & Hi1).
      destruct (IH _ character1 Hc1) as (character' & Hc' & Hp' & Hi').
      + rewrite Hp1. assumption.
      + rewrite Hi1. assumption.
      + exists character'. split; [exact Hc' |]. split; congruence. }
  destruct Hkeep as (character' & Hc' & Hp' & Hi').
  exists character'. split; [assumption |]. split; [assumption |].
  split; [assumption |].
  apply is_stage_unlocked_progression. assumption.
Qed.

End ConfigProperties.

(** ** The further properties on the sample data *)

Lemma session_contract_is_kept_witness :
  ∃ session',
    battle_sessions first_run.2 !! "tok-1" = Some session'
    ∧ same_contract (sample_session 1) session'
    ∧ (is_used (sample_session 1) = true → session' = sample_session 1)
    ∧ (is_used session' = false → session' = sample_session 1).
Proof.
  apply (session_contract_is_kept ms_of_us quiet_score (sample_db 1 1 [] 1)
           30000000 30000001 "u1" "c1" (sample_request 1) "tok-1"
           (sample_session 1)).
  reflexivity.
Defined.

Lemma granted_completion_stores_witness :
  ∃ character session stored,
    characters (sample_db 1 1 [] 1) !! "c1" = Some character
    ∧ battle_sessions (sample_db 1 1 [] 1) !! req_session_token (sample_request 1)
      = Some session
    ∧ rewards first_response
      = Some {| rr_gold := gold (session_rewards session);
                rr_gems := gems (session_rewards session);
                rr_xp := xp (session_rewards session);
                rr_items := items (session_rewards session) |}
    ∧ battle_sessions first_run.2 !! req_session_token (sample_request 1)
      = Some (consume 30000001 session)
    ∧ characters first_run.2 !! "c1" = Some stored
    ∧ char_gold stored = char_gold character + gold (session_rewards session)
    ∧ char_gems stored = char_gems character + gems (session_rewards session)
    ∧ char_xp stored = char_xp character + xp (session_rewards session)
    ∧ level stored
      = Z.max (level character) (calculate_level_from_xp (char_xp stored))
    ∧ inventory stored
      = match inventory character with
        | Some _ => inventory character
        | None => Some (add_items None (items (session_rewards session)))
        end
    ∧ progression stored
      = (if progression_is_truthy (progression character)
         then progression character
         else Some (update_progression (progression character)
                      (session_chapter session) (session_stage session)))
    ∧ (progression_is_truthy (progression character) = true →
       ∀ chapter stage,
         is_stage_unlocked stored chapter stage
         = is_stage_unlocked character chapter stage).
Proof.
  apply (granted_completion_stores ms_of_us quiet_score (sample_db 1 1 [] 1)
           30000000 30000001 "u1" "c1" (sample_request 1) first_response
           first_run.2).
  - vm_compute. reflexivity.
  - reflexivity.
Defined.

Lemma second_completion_is_refused_witness :
  let second := complete_stage ms_of_us quiet_score first_run.2
                  40000000 40000001 "u1" "c1" (sample_request 1) in
  second.2 = first_run.2
  ∧ (∀ r2, second.1 = Response r2 → success r2 = false ∧ rewards r2 = None)
  ∧ ("u1" = "u1" → "c1" = "c1" →
     second.1 = Response (failure true "Session already used")).
Proof.
  apply (second_completion_is_refused ms_of_us quiet_score (sample_db 1 1 [] 1)
           30000000 30000001 "u1" "c1" (sample_request 1) first_response
           first_run.2 40000000 40000001 "u1" "c1" (sample_request 1)).
  - vm_compute. reflexivity.
  - reflexivity.
  - reflexivity.
Defined.




Lemma success_requires_witness :
  ∃ character session,
    characters (sample_db 1 1 [] 1) !! "c1" = Some character
    ∧ user_id character = "u1"
    ∧ battle_sessions (sample_db 1 1 [] 1) !! req_session_token (sample_request 1)
      = Some session
    ∧ character_id session = "c1"
    ∧ is_valid 30000000 session = true
    ∧ req_chapter (sample_request 1) = session_chapter session
    ∧ req_stage (sample_request 1) = session_stage session
    ∧ log_chapter (battle_log (sample_request 1)) = session_chapter session
    ∧ log_stage (battle_log (sample_request 1)) = session_stage session
    ∧ mobs_killed (log_stats (battle_log (sample_request 1)))
      = Z.of_nat (length (mob_config session))
    ∧ 5000 <= battle_end_time (battle_log (sample_request 1))
              - battle_start_time (battle_log (sample_request 1)) <= 600000.
Proof.
  apply (success_requires ms_of_us quiet_score (sample_db 1 1 [] 1)
           30000000 30000001 "u1" "c1" (sample_request 1) first_response
           first_run.2).
  - vm_compute. reflexivity.
  - reflexivity.
Defined.



Lemma regular_stage_mobs_witness :
  ∃ mobs w',
    generate_stage_mobs 1 1 sample_world = (Ok mobs, w')
    ∧ ∃ d, get_difficulty_multiplier 1 1 = Ok d
           ∧ Forall (drawn_from (chapter_theme 1) (heap sample_world) d 1) mobs
           ∧ heap w' = heap sample_world
           ∧ random_draws w' = random_draws sample_world
           ∧ random_pos w' = (random_pos sample_world + length mobs)%nat.
Proof.
  let run := eval vm_compute in (generate_stage_mobs 1 1 sample_world) in
  lazymatch run with
  | (Ok ?mobs, ?w') =>
      exists mobs, w'; split; [vm_compute; reflexivity |];
      apply (regular_stage_mobs 1 1 sample_world mobs w');
      [lia | lia | vm_compute; reflexivity]
  end.
Defined.

Lemma generate_stage_mobs_length_witness :
  ∃ mobs w',
    generate_stage_mobs 2 5 sample_world = (Ok mobs, w')
    ∧ Z.of_nat (length mobs) = Z.max 0 (get_mob_count 2 5)
    ∧ get_mob_count 2 5 <= 10
    ∧ (5 = 10 → length mobs = 1%nat)
    ∧ (5 = 5 → length mobs = 2%nat).
Proof.
  let run := eval vm_compute in (generate_stage_mobs 2 5 sample_world) in
  lazymatch run with
  | (Ok ?mobs, ?w') =>
      exists mobs, w'; split; [vm_compute; reflexivity |];
      apply (generate_stage_mobs_length 2 5 sample_world mobs w');
      vm_compute; reflexivity
  end.
Defined.

Lemma sample_world_templates : class_heap ⊆ heap sample_world.
Proof. reflexivity. Qed.

Lemma generate_stage_mobs_total_witness :
  ∃ mobs w',
    generate_stage_mobs 20 9 sample_world = (Ok mobs, w')
    ∧ Forall (λ m, stats_in_range m = true) mobs
    ∧ class_heap ⊆ heap w'.
Proof.
  apply (generate_stage_mobs_total 20 9 sample_world);
    [lia | lia | exact sample_world_templates].
Defined.

Lemma generate_stage_rewards_exact_witness :
  generate_stage_rewards 3 10 [sample_mob 8 15; sample_mob 6 12]
  = Ok {| gold := reward_factor 10
                  * (100 * 3 + 10 * 10
                     + list_sum (gold_reward <$> [sample_mob 8 15; sample_mob 6 12]));
          gems := reward_factor 10 * (3 + 10 / 5);
          xp := reward_factor 10
                * (50 * 3 + 5 * 10
                   + list_sum (xp_reward <$> [sample_mob 8 15; sample_mob 6 12]));
          items := [] |}.
Proof.
  apply (generate_stage_rewards_exact 3 10 [sample_mob 8 15; sample_mob 6 12]);
    cbn; lia.
Defined.

Lemma difficulty_order_witness :
  let d := get_difficulty_multiplier in
  difficulty_le (Ok 1%float) (d 4 6) = true
  ∧ difficulty_le (d 4 6) (Ok 11.9%float) = true
  ∧ difficulty_lt (d 4 6) (d (4 + 1) 6) = true
  ∧ (6 ≠ 5 → 6 ≠ 10 → difficulty_lt (d 4 6) (d 4 (6 + 1)) = true)
  ∧ difficulty_lt (d 4 6) (d 4 5) = true
  ∧ difficulty_lt (d 4 7) (d 4 5) = true
  ∧ difficulty_lt (d 4 5) (d 4 8) = true.
Proof. apply (difficulty_order 4 6); lia. Defined.

Lemma get_chapter_progress_chapters_witness :
  ∃ r,
    get_chapter_progress (sample_db 3 4 replay_done 10) "u1" "c1" = Body r
    ∧ length (cpr_chapters r) = 20%nat
    ∧ ∀ ch, 1 <= ch <= 20 →
        ∃ info,
          cpr_chapters r !! Z.to_nat (ch - 1) = Some info
          ∧ ci_chapter info = ch
          ∧ (∀ stages : list (Z * Z),
               cpr_completed_stages r = (λ p, stage_key p.1 p.2) <$> stages →
               ci_stages_completed info
               = Z.of_nat (length (filter (λ p, p.1 = ch) stages)))
          ∧ (ci_is_unlocked info = true →
             ∀ ch', 1 <= ch' <= ch →
               ∃ info', cpr_chapters r !! Z.to_nat (ch' - 1) = Some info'
                        ∧ ci_is_unlocked info' = true).
Proof.
  let run := eval vm_compute in
    (get_chapter_progress (sample_db 3 4 replay_done 10) "u1" "c1") in
  lazymatch run with
  | Body ?r =>
      exists r; split; [vm_compute; reflexivity |];
      apply (get_chapter_progress_chapters (sample_db 3 4 replay_done 10)
               "u1" "c1" r);
      vm_compute; reflexivity
  end.
Defined.

Lemma get_stage_config_issues_witness :
  ∃ r w',
    sample_config
    = (Body r,
       store_session new_db "tok-2"
         (issued_session "c1" 1 1 (cfg_mobs r) (cfg_rewards r) 0 1000),
       w')
    ∧ cfg_session_token r = "tok-2"
    ∧ expires_at (issued_session "c1" 1 1 (cfg_mobs r) (cfg_rewards r) 0 1000)
      = 0 + 600 * 1000000
    ∧ Z.of_nat (length (cfg_mobs r)) = get_mob_count 1 1
    ∧ gold (cfg_rewards r)
      = reward_factor 1
        * (100 * 1 + 10 * 1 + list_sum (gold_reward <$> cfg_mobs r))
    ∧ gems (cfg_rewards r) = reward_factor 1 * (1 + 1 / 5)
    ∧ xp (cfg_rewards r)
      = reward_factor 1
        * (50 * 1 + 5 * 1 + list_sum (xp_reward <$> cfg_mobs r))
    ∧ 0 < gold (cfg_rewards r) ∧ 0 < gems (cfg_rewards r) ∧ 0 < xp (cfg_rewards r).
Proof.
  apply (get_stage_config_issues s_of_us one_drop new_db sample_world "tok-2"
           0 1000 "u1" "c1" 1 1 (sample_character 1 1 [])).
  - unfold in_game, TOTAL_CHAPTERS, STAGES_PER_CHAPTER. lia.
  - exact sample_world_templates.
  - reflexivity.
  - reflexivity.
  - reflexivity.
Defined.


(** The character of [new_db] completes stage 1-1 and asks for stage 1-2:
    the completion is granted, and the stage is refused as locked. *)
Example second_stage_stays_locked :
  let db1 := play ms_of_us quiet_score s_of_us one_drop new_db
               (take 2 two_stages) in
  (success <$> response_of
     (complete_stage ms_of_us quiet_score sample_config.1.2 30000000 30000001
        "u1" "c1" (long_request "tok-2" 1)).1) = Some true
  ∧ (get_stage_config s_of_us one_drop db1 sample_world "tok-3" 40000000
       40001000 "u1" "c1" 1 2).1.1
    = Refused 403 "Stage not unlocked".
Proof. split; vm_compute; reflexivity. Qed.

Lemma stored_progress_never_changes_witness :
  (∃ character',
     characters (play ms_of_us quiet_score s_of_us one_drop new_db two_stages)
       !! "c1" = Some character'
     ∧ progression character' = progression (sample_character 1 1 [])
     ∧ inventory character' = inventory (sample_character 1 1 [])
     ∧ ∀ chapter stage,
         is_stage_unlocked character' chapter stage
         = is_stage_unlocked (sample_character 1 1 []) chapter stage)
  ∧ (∀ tables used_now request session row,
       characters tables !! "c1" = Some row →
       ∃ row',
         characters (finish_completion tables used_now "c1" request
                       (sample_character 1 1 []) session).2 !! "c1" = Some row'
         ∧ progression row' = progression row
         ∧ inventory row' = inventory row).
Proof.
  apply (stored_progress_never_changes ms_of_us quiet_score s_of_us one_drop
           new_db two_stages "c1" (sample_character 1 1 [])).
  - reflexivity.
  - reflexivity.
  - discriminate.
Defined.

Lemma validate_battle_log_spec_witness :
  let verdict := validate_battle_log ms_of_us (sample_log 100 120) 1 1
                   [mob_with_health 100] 0 in
  (verdict = Ok (true, None)
   ↔ plausible (ms_of_us 0) (sample_log 100 120) [mob_with_health 100])
  ∧ (¬ plausible (ms_of_us 0) (sample_log 100 120) [mob_with_health 100] →
     (∃ reason, verdict = Ok (false, Some reason))
     ∨ (verdict = Raise ValueError
        ∧ (10 ^ int_max_str_digits
           <= Z.abs (battle_end_time (sample_log 100 120)
                     - battle_start_time (sample_log 100 120))
           ∨ 10 ^ int_max_str_digits
             <= Z.abs (mobs_killed (log_stats (sample_log 100 120)))))).
Proof.
  apply (validate_battle_log_spec ms_of_us (sample_log 100 120) 1 1
           [mob_with_health 100] 0);
    [reflexivity | reflexivity | vm_compute; reflexivity
    | vm_compute; intros H; discriminate H].
Defined.

(** ** Item drops *)

(** The double nearest to [k * 2^ex], for [k] below [2^53] and an
    exponent in the normal range, is exact: its significand is [k]
    shifted to 53 digits. *)
Lemma binary_normalize_shift (k : positive) (ex : Z) :
  Z.pos k < 2 ^ 53 → -1021 <= ex <= 0 →
  ∃ m e, binary_normalize prec emax (Z.pos k) ex false = S754_finite false m e
         ∧ -1074 <= e <= ex
         ∧ Z.pos (digits2_pos m) = 53
         ∧ Z.pos m = Z.pos k * 2 ^ (ex - e).
Proof.
  intros Hk Hex. pose proof (digits2_pos_small k Hk) as Hd.
  assert (Hfinal : ∀ m e,
            Z.pos (digits2_pos m) = 53 → -1074 <= e <= 0 →
            binary_round_aux prec emax false (Z.pos m) e loc_Exact
            = S754_finite false m e).
  { intros m e Hm He. unfold binary_round_aux, shr_fexp.
    cbn [Zdigits2 shr_record_of_loc]. rewrite Hm.
    assert (Hf : fexp prec emax (53 + e) - e = 0)
      by (unfold fexp, SpecFloat.emin, prec, emax; lia).
    rewrite Hf. cbn [shr shr_m loc_of_shr_record round_nearest_even Zdigits2].
    rewrite Hm, Hf. cbn [shr shr_m].
    replace (e <=? emax - prec) with true
      by (symmetry; apply Z.leb_le; unfold emax, prec; lia).
    reflexivity. }
  cbn [binary_normalize]. unfold binary_round, shl_align.
  assert (Hfe : fexp prec emax (Z.pos (digits2_pos k) + ex)
                = Z.pos (digits2_pos k) + ex - 53)
    by (unfold fexp, SpecFloat.emin, prec, emax; lia).
  rewrite Hfe.
  destruct (Z.pos (digits2_pos k) + ex - 53 - ex) as [| p | p] eqn:Hshift.
  - exists k, ex. rewrite Hfinal by lia.
    split; [reflexivity |]. split; [lia |]. split; [lia |].
    rewrite Z.sub_diag. lia.
  - exfalso. lia.
  - destruct (iter_xO_spec k p) as [Hval Hdig].
    exists (Pos.iter xO k p), (Z.pos (digits2_pos k) + ex - 53).
    rewrite Hfinal.
    + split; [reflexivity |]. split; [lia |].
      split; [rewrite Hdig, Pos2Z.inj_add; lia |].
      rewrite Hval. f_equal. f_equal. lia.
    + rewrite Hdig, Pos2Z.inj_add. lia.
    + lia.
Qed.

(** [random.random()] is never above 1.0. *)
Lemma random_not_above_one (k : Z) :
  0 <= k < 2 ^ 53 →
  (1.0 <? SF2Prim (binary_normalize prec emax k (-53) false))%float = false.
Proof.
  intros Hk. rewrite FloatAxioms.ltb_spec.
  destruct k as [| k | k]; [vm_compute; reflexivity | | lia].
  destruct (binary_normalize_shift k (-53) ltac:(lia) ltac:(lia))
    as (m & e & -> & He & Hm & _).
  rewrite Prim2SF_SF2Prim.
  - change (Prim2SF 1.0) with (S754_finite false 4503599627370496 (-52)).
    unfold SFltb, SFcompare.
    destruct (Z.compare_spec (-52) e) as [H | H | H];
      first [reflexivity | exfalso; lia].
  - unfold valid_binary, bounded, canonical_mantissa. rewrite Hm.
    apply andb_true_iff. split.
    + unfold fexp, SpecFloat.emin, prec, emax.
      replace (Z.max (53 + e - 53) (3 - 1024 - 53)) with e by lia.
      apply Z.eqb_refl.
    + apply Z.leb_le. unfold emax, prec. lia.
Qed.

Lemma random_random_run (w : world) :
  ∃ r, random_random w
       = (Ok r, {| heap := heap w; random_draws := random_draws w;
                   random_pos := S (random_pos w) |})
       ∧ (1.0 <? r)%float = false.
Proof.
  eexists. split; [reflexivity |].
  apply random_not_above_one. apply Z.mod_pos_bound. lia.
Qed.

(** A double above [b] is above every double that is at most [b]. *)
Lemma ltb_weaken (a b r : float) :
  sf_le (Prim2SF a) (Prim2SF b) = true →
  (b <? r)%float = true → (a <? r)%float = true.
Proof.
  rewrite !FloatAxioms.ltb_spec. unfold sf_le, SFltb, SFcompare.
  destruct (Prim2SF a) as [sa | sa | | sa ma ea]; try discriminate.
  destruct sa; try discriminate.
  destruct (Prim2SF b) as [sb | sb | | sb mb eb]; try discriminate.
  destruct sb; try discriminate.
  intros Hle.
  destruct (Prim2SF r) as [s | s | | s m e]; try discriminate;
    try (destruct s; first [discriminate | reflexivity]).
  destruct s; [discriminate |].
  assert (Hcase : ea < eb ∨ (ea = eb ∧ (ma <= mb)%positive)).
  { apply orb_true_iff in Hle as [Hlt | Heq]; [left; lia |].
    apply andb_true_iff in Heq as [Heq Hmm]. right.
    apply Z.eqb_eq in Heq. apply Pos.leb_le in Hmm. auto. }
  clear Hle.
  change (PosDef.Pos.compare_cont Eq mb m) with (mb ?= m)%positive.
  change (PosDef.Pos.compare_cont Eq ma m) with (ma ?= m)%positive.
  destruct (Z.compare_spec eb e) as [He | He | He]; try discriminate.
  - subst e.
    destruct (Pos.compare_spec mb m) as [? | Hm | ?]; try discriminate.
    intros _.
    destruct (Z.compare_spec ea eb) as [He | He | He];
      [| reflexivity | exfalso; lia].
    destruct (Pos.compare_spec ma m) as [? | ? | ?];
      first [reflexivity | exfalso; lia].
  - intros _.
    destruct (Z.compare_spec ea e) as [? | ? | ?];
      first [reflexivity | exfalso; lia].
Qed.
Section ItemDropProperties.

Variable uuid4 : world → string * world.
Variable generate_bonus_stats : Z → world → list BonusStat * world.

Lemma py_int_mul_float_overflow (n : Z) (f : float) (e : exn) :
  py_int_mul_float n f = Raise e →
  e = OverflowError ∧ double_overflow_threshold <= Z.abs n.
Proof.
  unfold py_int_mul_float, py_float_of_int, py_float_of_int_value.
  destruct (Z.leb_spec double_overflow_threshold (Z.abs n)) as [H | H].
  - cbn. intros [= <-]. auto.
  - discriminate.
Qed.

Lemma random_choice_run {A} (seq : list A) (w : world) :
  seq ≠ [] →
  ∃ x, x ∈ seq
       ∧ random_choice seq w
         = (Ok x, {| heap := heap w; random_draws := random_draws w;
                     random_pos := S (random_pos w) |}).
Proof.
  intros Hne. unfold random_choice.
  destruct (seq !! _) as [x |] eqn:Hx.
  - exists x. split; [eapply list_elem_of_lookup_2; eassumption | reflexivity].
  - apply lookup_ge_None in Hx.
    pose proof (drawn_index_bound seq (random_draws w (random_pos w)) Hne). lia.
Qed.

Lemma generate_item_name_run (slot : string) (rarity : Z) (w : world) :
  ∃ name w', generate_item_name slot rarity w = (Ok name, w').
Proof.
  unfold generate_item_name.
  set (choices := match List.find _ prefixes with
                  | Some (_, l) => l
                  | None => ["Unknown"]
                  end).
  assert (Hne : choices ≠ []).
  { subst choices. unfold prefixes. cbn [List.find fst].
    repeat (destruct (_ =? rarity); [discriminate |]). discriminate. }
  destruct (random_choice_run choices w Hne) as (prefix & _ & Hrun).
  unfold mbind, M_bind. rewrite Hrun. eexists _, _. reflexivity.
Qed.

(** The slot that is drawn, with its index and the two stat rules. *)
Lemma slot_rules (slot : string) :
  slot ∈ slots →
  ∃ index, list_index slots slot = Ok index
           ∧ 0 <= index <= 7
           ∧ bool_decide (slot ∈ ["weapon"; "ring"])
             = bool_decide (index = 0 ∨ index = 6)
           ∧ bool_decide (slot ∈ ["helmet"; "chest"; "legs"; "gloves"; "boots"])
             = bool_decide (1 <= index <= 5).
Proof.
  intros Hin. unfold slots in Hin.
  repeat (apply elem_of_cons in Hin as [-> | Hin]);
    [.. | apply elem_of_nil in Hin; destruct Hin];
    eexists; (split; [vm_compute; reflexivity |]);
    (split; [lia |]); split; vm_compute; reflexivity.
Qed.

Lemma rarity_of_range (chapter : Z) (rarity_roll : float) (r : Z) :
  rarity_of chapter rarity_roll = Ok r → COMMON <= r <= LEGENDARY.
Proof.
  unfold rarity_of, mbind, result_bind, COMMON, UNCOMMON, RARE, EPIC, LEGENDARY.
  destruct (py_int_mul_float chapter 0.02); [| discriminate].
  destruct (py_int_mul_float chapter 0.01); [| discriminate].
  destruct (py_int_mul_float chapter 0.005); [| discriminate].
  intros [= <-].
  repeat (match goal with |- context [if ?b then _ else _] => destruct b end);
    lia.
Qed.

(** What one roll does. *)
Lemma roll_item_drop_inv chapter stage drop_chance w res w' :
  roll_item_drop uuid4 generate_bonus_stats chapter stage drop_chance w
  = (res, w') →
  ∃ roll,
    (1.0 <? roll)%float = false
    ∧ match res with
      | Ok None => (drop_chance <? roll)%float = true
      | Ok (Some d) =>
          (drop_chance <? roll)%float = false
          ∧ well_formed_drop chapter d
          ∧ ∃ rarity_roll, rarity_of chapter rarity_roll = Ok (rarity (gear d))
      | Raise e =>
          e = OverflowError ∧ double_overflow_threshold <= Z.abs chapter
      end.
Proof.
  unfold roll_item_drop.
  destruct (random_random_run w) as (roll & Hroll & Hone).
  unfold mbind at 1, M_bind at 1. rewrite Hroll.
  exists roll. split; [exact Hone |].
  destruct (drop_chance <? roll)%float eqn:Hdrop.
  { unfold mret, M_ret in H. injection H as <- <-. reflexivity. }
  destruct (random_random_run
              {| heap := heap w; random_draws := random_draws w;
                 random_pos := S (random_pos w) |})
    as (rarity_roll & Hroll2 & _).
  unfold mbind at 1, M_bind at 1 in H. rewrite Hroll2 in H.
  unfold mbind at 1, M_bind at 1, lift at 1 in H.
  destruct (py_int_mul_float chapter 0.02) as [x | e] eqn:Hx.
  2:{ injection H as <- <-. eapply py_int_mul_float_overflow; eassumption. }
  unfold mbind at 1, M_bind at 1, lift at 1 in H.
  destruct (py_int_mul_float chapter 0.01) as [y | e] eqn:Hy.
  2:{ injection H as <- <-. eapply py_int_mul_float_overflow; eassumption. }
  unfold mbind at 1, M_bind at 1, lift at 1 in H.
  destruct (py_int_mul_float chapter 0.005) as [z | e] eqn:Hz.
  2:{ injection H as <- <-. eapply py_int_mul_float_overflow; eassumption. }
  cbv zeta in H.
  set (rarity0 := if (0.98 - z <? rarity_roll)%float then LEGENDARY
                  else if (0.9 - y <? rarity_roll)%float then EPIC
                  else if (0.7 - x <? rarity_roll)%float then RARE
                  else if (0.4 <? rarity_roll)%float then UNCOMMON
                  else COMMON) in H.
  assert (Hrarity : rarity_of chapter rarity_roll = Ok rarity0).
  { unfold rarity_of. rewrite Hx, Hy, Hz. reflexivity. }
  unfold mbind at 1, M_bind at 1 in H.
  match type of H with
  | context [random_choice slots ?w1] =>
      destruct (random_choice_run slots w1 ltac:(discriminate))
        as (slot0 & Hslot & Hrun)
  end.
  rewrite Hrun in H.
  unfold mbind at 1, M_bind at 1, from_library at 1 in H.
  match type of H with
  | context [uuid4 ?w2] => destruct (uuid4 w2) as [id w3]
  end.
  unfold mbind at 1, M_bind at 1 in H.
  destruct (generate_item_name_run slot0 rarity0 w3) as (name & w4 & Hname).
  rewrite Hname in H.
  destruct (slot_rules slot0 Hslot) as (index & Hindex & Hrange & Hatk & Hdef).
  unfold mbind at 1, M_bind at 1, lift at 1 in H. rewrite Hindex in H.
  unfold mbind at 1, M_bind at 1 in H.
  assert (Hbonus : ∃ bonus w5,
            (if RARE <=? rarity0
             then from_library (generate_bonus_stats rarity0)
             else mret []) w4 = (Ok bonus, w5)
            ∧ (rarity0 < RARE → bonus = [])).
  { destruct (Z.leb_spec RARE rarity0) as [Hr | Hr].
    - unfold from_library. destruct (generate_bonus_stats rarity0 w4) as [b w5].
      exists b, w5. split; [reflexivity | lia].
    - exists [], w4. split; [reflexivity | auto]. }
  destruct Hbonus as (bonus & w5 & Hb & Hnone). rewrite Hb in H.
  unfold mret, M_ret in H. injection H as <- <-.
  split; [reflexivity |]. split.
  - unfold well_formed_drop. cbn [gear bonus_stats item_type rarity slot atk def
                                  upgrade_level refine_level].
    split; [reflexivity |].
    split; [eapply rarity_of_range; eassumption |].
    split; [exact Hrange |].
    rewrite Hatk, Hdef. auto.
  - exists rarity_roll. exact Hrarity.
Qed.

(** The rolls of the loop over the mobs add at most one item each. *)
Lemma roll_for_mobs_run (n : nat) chapter stage drop_chance items w :
  Z.abs chapter < double_overflow_threshold →
  ∃ more w',
    roll_for_mobs uuid4 generate_bonus_stats n chapter stage drop_chance
      items w = (Ok (items ++ more), w')
    ∧ Forall (rolled chapter) more
    ∧ (length more <= n)%nat.
Proof.
  intros Hsmall. revert items w.
  induction n as [| n IH]; intros items w.
  - exists [], w. cbn. rewrite app_nil_r. auto.
  - cbn [roll_for_mobs]. unfold mbind at 1, M_bind at 1.
    destruct (roll_item_drop _ _ chapter stage drop_chance w) as [res w1] eqn:Hroll.
    apply roll_item_drop_inv in Hroll as (roll & _ & Hres).
    destruct res as [[d |] | e].
    + destruct Hres as (_ & Hwf & Hrarity).
      destruct (IH (items ++ [d]) w1) as (more & w' & Hrun & Hall & Hlen).
      exists (d :: more), w'. rewrite Hrun, <- app_assoc.
      split; [reflexivity |]. split.
      * constructor; [split; assumption | exact Hall].
      * cbn. lia.
    + destruct (IH items w1) as (more & w' & Hrun & Hall & Hlen).
      exists more, w'. split; [exact Hrun |]. split; [exact Hall | lia].
    + lia.
Qed.

Lemma generate_stage_item_drops_run chapter stage num_mobs w :
  Z.abs chapter < double_overflow_threshold →
  ∃ items w',
    generate_stage_item_drops uuid4 generate_bonus_stats chapter stage
      num_mobs w = (Ok items, w')
    ∧ Forall (rolled chapter) items
    ∧ (if stage =? 10 then 1 else 0) <= Z.of_nat (length items)
      <= (if stage =? 10 then 1 else 0) + Z.max 0 num_mobs.
Proof.
  intros Hsmall. unfold generate_stage_item_drops.
  unfold mbind at 1, M_bind at 1, lift at 1.
  destruct (py_int_mul_float chapter 0.01) as [y | e] eqn:Hy.
  2:{ apply py_int_mul_float_overflow in Hy. lia. }
  unfold mbind at 1, M_bind at 1.
  destruct (stage =? 10).
  - unfold mbind at 1, M_bind at 1.
    destruct (roll_item_drop _ _ chapter stage 1 w) as [res w1] eqn:Hroll.
    apply roll_item_drop_inv in Hroll as (roll & Hone & Hres).
    destruct res as [[d |] | e]; [| congruence | lia].
    destruct Hres as (_ & Hwf & Hrarity).
    unfold mret, M_ret.
    destruct (roll_for_mobs_run (Z.to_nat num_mobs) chapter stage
                (0.05 + y)%float ([] ++ [d]) w1 Hsmall)
      as (more & w' & Hrun & Hall & Hlen).
    exists (([] ++ [d]) ++ more), w'. split; [exact Hrun |]. split.
    + cbn. constructor; [split; assumption | exact Hall].
    + cbn [app length]. lia.
  - unfold mret, M_ret.
    destruct (roll_for_mobs_run (Z.to_nat num_mobs) chapter stage
                (0.05 + y)%float [] w Hsmall)
      as (more & w' & Hrun & Hall & Hlen).
    exists ([] ++ more), w'. split; [exact Hrun |]. split.
    + exact Hall.
    + cbn [app]. lia.
Qed.

(** From chapter 15 on the threshold for a rare item is below the one for
    an uncommon item. *)
Lemma rare_threshold_late (chapter : Z) (x : float) :
  15 <= chapter <= 20 →
  py_int_mul_float chapter 0.02 = Ok x →
  sf_le (Prim2SF (0.7 - x)) (Prim2SF 0.4) = true.
Proof.
  intros Hc Hx.
  assert (Hcases : chapter = 15 ∨ chapter = 16 ∨ chapter = 17 ∨ chapter = 18
                   ∨ chapter = 19 ∨ chapter = 20) by lia.
  destruct Hcases as [-> | [-> | [-> | [-> | [-> | ->]]]]];
    vm_compute in Hx; injection Hx as <-; vm_compute; reflexivity.
Qed.

Lemma rarity_of_late (chapter : Z) (rarity_roll : float) (r : Z) :
  15 <= chapter <= 20 →
  rarity_of chapter rarity_roll = Ok r → r ≠ UNCOMMON.
Proof.
  intros Hc. unfold rarity_of, mbind, result_bind.
  destruct (py_int_mul_float chapter 0.02) as [x |] eqn:Hx; [| discriminate].
  destruct (py_int_mul_float chapter 0.01); [| discriminate].
  destruct (py_int_mul_float chapter 0.005); [| discriminate].
  intros [= <-].
  pose proof (rare_threshold_late chapter x Hc Hx) as Hle.
  destruct (_ <? rarity_roll)%float; [discriminate |].
  destruct (_ <? rarity_roll)%float; [discriminate |].
  destruct (0.7 - x <? rarity_roll)%float eqn:Hrare; [discriminate |].
  destruct (0.4 <? rarity_roll)%float eqn:Hunc; [| discriminate].
  rewrite (ltb_weaken _ _ _ Hle Hunc) in Hrare. discriminate.
Qed.

(** X28: For every chapter whose conversion to a float does not overflow,
    [generate_stage_item_drops] does not raise; every item it returns is
    gear of a rarity from common to legendary (never mythic) with the
    attack and defence that its slot, the chapter and its rarity fix, and
    without bonus stats below rare. It returns at most one item for each
    mob, and on a boss stage (stage 10) one more, which is never
    missing. *)
Theorem generate_stage_item_drops_well_formed chapter stage num_mobs w :
  Z.abs chapter < double_overflow_threshold →
  ∃ items w',
    generate_stage_item_drops uuid4 generate_bonus_stats chapter stage
      num_mobs w = (Ok items, w')
    ∧ Forall (well_formed_drop chapter) items
    ∧ (if stage =? 10 then 1 else 0) <= Z.of_nat (length items)
      <= (if stage =? 10 then 1 else 0) + Z.max 0 num_mobs.
Proof.
  intros Hsmall.
  destruct (generate_stage_item_drops_run chapter stage num_mobs w Hsmall)
    as (items & w' & Hrun & Hall & Hlen).
  exists items, w'. split; [exact Hrun |]. split; [| exact Hlen].
  eapply Forall_impl; [exact Hall |]. intros d [Hwf _]. exact Hwf.
Qed.

(** X29: In the chapters 15 to 20 no uncommon item drops: the threshold
    [0.7 - chapter * 0.02] for a rare item is then not above the
    threshold [0.4] for an uncommon one, so every roll above [0.4] gives
    a rare item or better. *)
Theorem late_chapters_drop_no_uncommon chapter stage num_mobs w items w' :
  15 <= chapter <= 20 →
  generate_stage_item_drops uuid4 generate_bonus_stats chapter stage
    num_mobs w = (Ok items, w') →
  Forall (fun d => rarity (gear d) ≠ UNCOMMON) items.
Proof.
  intros Hc Hrun.
  assert (Hsmall : Z.abs chapter < double_overflow_threshold).
  { unfold double_overflow_threshold. lia. }
  destruct (generate_stage_item_drops_run chapter stage num_mobs w Hsmall)
    as (items0 & w0 & Hrun0 & Hall & _).
  rewrite Hrun in Hrun0. injection Hrun0 as <- <-.
  eapply Forall_impl; [exact Hall |].
  intros d [_ [rarity_roll Hr]]. eapply rarity_of_late; eassumption.
Qed.

End ItemDropProperties.

Lemma generate_stage_item_drops_well_formed_witness :
  Z.abs 3 < double_overflow_threshold
  ∧ ∃ items w',
      generate_stage_item_drops sample_uuid4 sample_bonus_stats 3 10 2
        sample_world = (Ok items, w')
      ∧ Forall (well_formed_drop 3) items
      ∧ (if 10 =? 10 then 1 else 0) <= Z.of_nat (length items)
        <= (if 10 =? 10 then 1 else 0) + Z.max 0 2.
Proof.
  split; [vm_compute; reflexivity |].
  apply (generate_stage_item_drops_well_formed sample_uuid4 sample_bonus_stats
           3 10 2 sample_world).
  vm_compute; reflexivity.
Defined.

(** Running a bind whose first action succeeds. *)
Lemma bind_run {A B} (m : M A) (f : A → M B) w a w' :
  m w = (Ok a, w') → (m ≫= f) w = f a w'.
Proof. intros H. unfold mbind, M_bind. rewrite H. reflexivity. Qed.

(** [random.random()] at a draw [k]. *)
Lemma random_random_at w k :
  Z.of_nat (random_draws w (random_pos w)) = k →
  random_random w
  = (Ok (SF2Prim (binary_normalize prec emax (k mod 2 ^ 53) (-53) false)),
     {| heap := heap w; random_draws := random_draws w;
        random_pos := S (random_pos w) |}).
Proof. intros <-. reflexivity. Qed.

Ltac run_bind := eapply eq_trans; [eapply bind_run | cbv beta].

Ltac run_closed :=
  lazymatch goal with
  | |- ?l = _ =>
      let v := eval vm_compute in l in
      transitivity v; [vm_compute; reflexivity | reflexivity]
  end.

(** With a second draw of [2^52] the second roll is 0.5. *)
Lemma half_roll_is_half h (second : nat) :
  Z.of_nat second = 2 ^ 52 →
  random_random {| heap := h; random_draws := draws_with second;
                   random_pos := 1 |}
  = (Ok 0.5%float,
     {| heap := h; random_draws := draws_with second; random_pos := 2 |}).
Proof.
  intros Hsecond. rewrite (random_random_at _ (2 ^ 52)) by exact Hsecond.
  vm_compute. reflexivity.
Qed.

(** The boss roll of chapter 16 with a rarity roll of 0.5: above 0.4, and
    above the threshold [0.7 - 16 * 0.02] of a rare item. *)
Lemma rare_roll_run h (second : nat) :
  Z.of_nat second = 2 ^ 52 →
  generate_stage_item_drops sample_uuid4 sample_bonus_stats 16 10 0
    {| heap := h; random_draws := draws_with second; random_pos := 0 |}
  = (Ok [superior_sword],
     {| heap := h; random_draws := draws_with second; random_pos := 4 |}).
Proof.
  intros Hsecond.
  unfold generate_stage_item_drops.
  run_bind. { run_closed. }
  change (10 =? 10) with true. cbv iota.
  run_bind.
  { run_bind.
    { unfold roll_item_drop.
      run_bind. { eapply (random_random_at _ 0). reflexivity. }
      lazymatch goal with
      | |- context [PrimFloat.ltb ?a ?b] =>
          let v := eval vm_compute in (PrimFloat.ltb a b) in
          change (PrimFloat.ltb a b) with v
      end.
      cbv iota.
      run_bind. { apply half_roll_is_half. exact Hsecond. }
      run_closed. }
    run_closed. }
  vm_compute. reflexivity.
Qed.

Lemma late_chapters_drop_no_uncommon_witness :
  15 <= 16 <= 20
  ∧ random_random
      {| heap := class_heap; random_draws := draws_with (Z.to_nat (2 ^ 52));
         random_pos := 1 |}
    = (Ok 0.5%float,
       {| heap := class_heap; random_draws := draws_with (Z.to_nat (2 ^ 52));
          random_pos := 2 |})
  ∧ generate_stage_item_drops sample_uuid4 sample_bonus_stats 16 10 0
      half_roll_world
    = (Ok [superior_sword],
       {| heap := class_heap; random_draws := draws_with (Z.to_nat (2 ^ 52));
          random_pos := 4 |})
  ∧ Forall (fun d => rarity (gear d) ≠ UNCOMMON) [superior_sword].
Proof.
  assert (Hhalf : Z.of_nat (Z.to_nat (2 ^ 52)) = 2 ^ 52)
    by (apply Z2Nat.id; apply Z.pow_nonneg; lia).
  split; [lia |].
  split; [exact (half_roll_is_half class_heap _ Hhalf) |].
  split; [exact (rare_roll_run class_heap _ Hhalf) |].
  apply (late_chapters_drop_no_uncommon sample_uuid4 sample_bonus_stats
           16 10 0 half_roll_world [superior_sword]
           {| heap := class_heap;
              random_draws := draws_with (Z.to_nat (2 ^ 52));
              random_pos := 4 |});
    [lia | exact (rare_roll_run class_heap _ Hhalf)].
Defined.
